(** * The search provider of the omnibox: relevance, aggregation and the
      bookkeeping of its asynchronous sources

    A shallow embedding of chrome/browser/autocomplete/search_provider.cc.
    The class SearchProvider becomes a record of its data members, each
    member function a function from the state before the call to the state
    after it.  Services of the host browser that the file only calls
    (the history service, the URL fetcher, ICU, the template-URL model, the
    JSON reader) are the fields of the class [Host]. *)

From Stdlib Require Import ZArith List String Ascii Bool Lia.
From Stdlib Require Import Permutation Sorted OrderedTypeEx.
Import ListNotations.

Local Open Scope string_scope.
Local Open Scope list_scope.
Local Open Scope Z_scope.

#[local] Set Warnings "-register-all".

(** ** Machine integers *)

(** [int] is a 32-bit two's complement integer.  Values are kept in [Z] and
    every operation that can leave the range is followed by [Int.wrap]. *)
Module Int.

Definition min_value : Z := - 2 ^ 31.
Definition max_value : Z := 2 ^ 31 - 1.

Definition in_range (z : Z) : Prop := min_value <= z <= max_value.

Definition wrap (z : Z) : Z := (z + 2 ^ 31) mod 2 ^ 32 - 2 ^ 31.

Definition add (a b : Z) : Z := wrap (a + b).
Definition sub (a b : Z) : Z := wrap (a - b).

(** [static_cast<int>(a - 1 - b)] for [size_t] operands.  The subtraction
    is done modulo [2^w], where [w] (32 or 64) is the width of [size_t],
    and the cast keeps the low 32 bits; as [2^32] divides [2^w] the result
    is the wrapped mathematical difference. *)
Definition of_size_t_diff (a b : nat) : Z :=
  wrap (Z.of_nat a - 1 - Z.of_nat b).

End Int.

(** The outcome of a function that can run into [NOTREACHED()].  The macro
    stops a debug build; a release build carries on with the statement
    that follows it, here always a [return]. *)
Inductive Checked (A : Type) : Type :=
| Returned (a : A)
| NotReached (release_value : A).

Arguments Returned {A} a.
Arguments NotReached {A} release_value.

Definition release {A : Type} (c : Checked A) : A :=
  match c with Returned a => a | NotReached a => a end.

(** ** The data of the omnibox *)

(** AutocompleteInput::Type, as far as this file names its enumerators. *)
Inductive InputType : Type :=
| INVALID | UNKNOWN | REQUESTED_URL | URL | QUERY | FORCED_QUERY.

Definition InputType_eqb (a b : InputType) : bool :=
  match a, b with
  | INVALID, INVALID | UNKNOWN, UNKNOWN | REQUESTED_URL, REQUESTED_URL
  | URL, URL | QUERY, QUERY | FORCED_QUERY, FORCED_QUERY => true
  | _, _ => false
  end.

(** url_parse::Component and url_parse::Parsed: a component is a span of
    the input; it is non-empty when its length is positive. *)
Record Component : Type := mkComponent { c_begin : Z; c_len : Z }.

Definition is_nonempty (c : Component) : bool := 0 <? c_len c.

Record Parsed : Type := mkParsed {
  p_scheme : Component;
  username : Component;
  password : Component;
  host : Component;
  port : Component;
  path : Component;
  query : Component;
  ref : Component
}.

Record AutocompleteInput : Type := mkInput {
  text : string;
  type : InputType;
  scheme : string;
  parts : Parsed;
  prevent_inline_autocomplete : bool;
  synchronous_only : bool
}.

Definition TemplateURLID : Type := Z.

(** A search engine description.  [suggestions_url] is [None] when the
    engine has no suggest endpoint. *)
Record TemplateURL : Type := mkTemplateURL {
  id : TemplateURLID;
  keyword : string;
  short_name : string;
  url : string;
  suggestions_url : option string
}.

Record GURL : Type := mkGURL { spec : string; is_valid : bool }.

Inductive MatchType : Type :=
| SEARCH_WHAT_YOU_TYPED | SEARCH_HISTORY | SEARCH_SUGGEST | NAVSUGGEST.

Inductive ClassificationStyle : Type :=
| STYLE_NONE | STYLE_URL | STYLE_MATCH | STYLE_DIM.

Record ACMatchClassification : Type := mkClass {
  offset : nat;
  style : ClassificationStyle
}.

Inductive PageTransition : Type := TYPED | GENERATED | KEYWORD.

(** AutocompleteMatch.  [inline_autocomplete_offset] is [None] for
    [std::wstring::npos]; [template_url] is [None] for a null pointer. *)
Record AutocompleteMatch : Type := mkMatch {
  relevance : Z;
  deletable : bool;
  fill_into_edit : string;
  inline_autocomplete_offset : option nat;
  destination_url : GURL;
  contents : string;
  contents_class : list ACMatchClassification;
  description : string;
  description_class : list ACMatchClassification;
  transition : PageTransition;
  match_type : MatchType;
  template_url : option TemplateURL;
  starred : bool
}.

Definition ACMatches : Type := list AutocompleteMatch.

(** Modelled from the spec: the constructors of AutocompleteMatch are in
    autocomplete.cc, which is not among the sources.  A Candidate of the
    spec starts with its relevance, its origin and empty presentation
    fields. *)
Definition AutocompleteMatch_new (rel : Z) (is_deletable : bool)
    (ty : MatchType) : AutocompleteMatch :=
  mkMatch rel is_deletable "" None (mkGURL "" false) "" [] "" []
          TYPED ty None false.

Definition AutocompleteMatch_default : AutocompleteMatch :=
  AutocompleteMatch_new 0 false SEARCH_WHAT_YOU_TYPED.

(** history::KeywordSearchTermVisit: a past search and when it was made
    (base::Time, in microseconds). *)
Definition Time : Type := Z.

Record KeywordSearchTermVisit : Type := mkVisit { term : string; time : Time }.

Definition HistoryResults : Type := list KeywordSearchTermVisit.
Definition SuggestResults : Type := list string.

Record NavigationResult : Type := mkNav { nav_url : GURL; site_name : string }.

Definition NavigationResults : Type := list NavigationResult.

(** The JSON tree of base/values.h, as far as the parser looks at it. *)
Inductive Value : Type :=
| VNull
| VBoolean (b : bool)
| VInteger (i : Z)
| VReal
| VString (s : string)
| VBinary
| VDictionary (d : list (string * Value))
| VList (l : list Value).

(** A URL fetch in flight.  The two fetchers of a query are told apart by
    the identifier they were created with. *)
Record URLFetcher : Type := mkFetcher {
  fetcher_id : Z;
  fetch_url : GURL;
  response_charset : option string
}.

Definition kDefaultProviderURLFetcherID : Z := 1.
Definition kKeywordProviderURLFetcherID : Z := 2.

Definition Handle : Type := Z.

(** CancelableRequestConsumer: the requests not yet removed, each with its
    client data, and the handle the history service hands out next. *)
Record CancelableRequestConsumer : Type := mkConsumer {
  pending_requests : list (Handle * TemplateURLID);
  next_handle : Handle
}.

Definition PendingRequestCount (c : CancelableRequestConsumer) : nat :=
  List.length (pending_requests c).

Definition CancelAllRequests (c : CancelableRequestConsumer) :=
  mkConsumer [] (next_handle c).

Fixpoint GetClientData (reqs : list (Handle * TemplateURLID)) (h : Handle)
    : TemplateURLID :=
  match reqs with
  | [] => 0
  | (h', d) :: rest => if h' =? h then d else GetClientData rest h
  end.

Definition RemoveRequest (h : Handle) (c : CancelableRequestConsumer) :=
  mkConsumer (filter (fun r => negb (fst r =? h)) (pending_requests c))
             (next_handle c).

(** What the provider asks of the outside world, in the order asked. *)
Inductive Effect : Type :=
| HistoryQueryIssued (search_id : TemplateURLID) (query_text : string)
                     (max_count : nat)
| TimerStarted (delay_ms : Z)
| FetchStarted (fetcher : Z) (target : GURL)
| ProviderUpdate (updated_matches : bool).

Record Profile : Type := mkProfile {
  IsOffTheRecord : bool;
  kSearchSuggestEnabled : bool
}.

(** SearchProvider::Providers. *)
Record Providers : Type := mkProviders {
  default_provider_ : option TemplateURL;
  keyword_provider_ : option TemplateURL;
  cached_default_provider_ : TemplateURL;
  cached_keyword_provider_ : TemplateURL
}.

Definition TemplateURL_empty : TemplateURL := mkTemplateURL 0 "" "" "" None.

Definition isSome {A : Type} (o : option A) : bool :=
  match o with Some _ => true | None => false end.

(** Two pointers into the template-URL model are the same pointer when
    they point at the entry with the same id, or are both null. *)
Definition TemplateURL_ptr_eqb (a b : option TemplateURL) : bool :=
  match a, b with
  | None, None => true
  | Some x, Some y => id x =? id y
  | _, _ => false
  end.

Definition Providers_Set (default_provider keyword_provider : option TemplateURL)
    (p : Providers) : Providers :=
  mkProviders default_provider keyword_provider
    (match default_provider with
     | Some t => t | None => cached_default_provider_ p end)
    (match keyword_provider with
     | Some t => t | None => cached_keyword_provider_ p end).

(** Modelled from the spec: the accessors of Providers are inline in
    search_provider.h, which is not among the sources.  A provider is valid
    when [Set] stored a pointer for it, it is valid for suggest when it
    also has a suggest endpoint, and the providers are read through the
    cached copies. *)
Definition valid_default_provider (p : Providers) : bool :=
  isSome (default_provider_ p).

Definition valid_keyword_provider (p : Providers) : bool :=
  isSome (keyword_provider_ p).

Definition valid_suggest_for_default_provider (p : Providers) : bool :=
  isSome (default_provider_ p) &&
  isSome (suggestions_url (cached_default_provider_ p)).

Definition valid_suggest_for_keyword_provider (p : Providers) : bool :=
  isSome (keyword_provider_ p) &&
  isSome (suggestions_url (cached_keyword_provider_ p)).

Definition Providers_equals (default_provider keyword_provider : option TemplateURL)
    (p : Providers) : bool :=
  TemplateURL_ptr_eqb default_provider (default_provider_ p) &&
  TemplateURL_ptr_eqb keyword_provider (keyword_provider_ p).

(** ** The host browser *)

(** Everything the file calls but does not define.  [kMaxMatches] is the
    constant of AutocompleteProvider; [is_primary_provider] is the accessor
    of Providers that tells whether results of the keyword
    ([is_keyword = true]) or of the default provider come from the primary
    provider; [MoreRelevant] is the comparator of AutocompleteMatch;
    [HistoryScoreDiscount t] stands for the expression
    [static_cast<int>(6.5 * std::pow(std::max((Time::Now() - t).InSecondsF(),
    0.), 0.3))], whose binary64 arithmetic and clock are not modelled. *)
Class Host : Type := mkHost {
  kMaxMatches : nat;
  is_primary_provider : Providers -> bool -> bool;
  MoreRelevant : AutocompleteMatch -> AutocompleteMatch -> bool;
  ToLower : string -> string;
  HistoryScoreDiscount : Time -> Z;
  NO_SUGGESTIONS_AVAILABLE : Z;
  NO_SUGGESTION_CHOSEN : Z;
  IDS_EMPTY_KEYWORD_VALUE : string;
  SearchDescription : TemplateURL -> string;
  ReplaceSearchTerms : TemplateURL -> string -> Z -> string -> GURL;
  SuggestURL : TemplateURL -> string -> GURL;
  FixupURL : string -> GURL;
  StringForURLDisplay : GURL -> bool -> bool -> string;
  HasHTTPScheme : string -> bool;
  ClassifyMatchInString :
    string -> string -> ClassificationStyle -> list ACMatchClassification;
  FormattedStringWithEquivalentMeaning : GURL -> string -> string;
  IsBookmarked : GURL -> bool;
  GetSubstitutingTemplateURLForInput :
    Profile -> AutocompleteInput -> option TemplateURL * string;
  GetDefaultSearchProvider : Profile -> option TemplateURL;
  SupportsReplacement : option TemplateURL -> bool;
  Deserialize : string -> option Value;
  CodepageToWide : string -> string -> option string
}.

(** ** The provider *)

Record SearchProvider : Type := mkSearchProvider {
  profile_ : option Profile;
  query_suggest_immediately_ : bool;
  matches_ : ACMatches;
  done_ : bool;
  input_ : AutocompleteInput;
  keyword_input_text_ : string;
  providers_ : Providers;
  have_history_results_ : bool;
  history_request_pending_ : bool;
  history_request_consumer_ : CancelableRequestConsumer;
  keyword_history_results_ : HistoryResults;
  default_history_results_ : HistoryResults;
  suggest_results_pending_ : Z;
  have_suggest_results_ : bool;
  timer_ : option Z;
  keyword_fetcher_ : option URLFetcher;
  default_fetcher_ : option URLFetcher;
  keyword_suggest_results_ : SuggestResults;
  default_suggest_results_ : SuggestResults;
  keyword_navigation_results_ : NavigationResults;
  default_navigation_results_ : NavigationResults;
  effects_ : list Effect
}.

Definition set_matches_ (v : ACMatches) (s : SearchProvider) :=
  mkSearchProvider (profile_ s) (query_suggest_immediately_ s) v (done_ s)
    (input_ s) (keyword_input_text_ s) (providers_ s)
    (have_history_results_ s) (history_request_pending_ s)
    (history_request_consumer_ s) (keyword_history_results_ s)
    (default_history_results_ s) (suggest_results_pending_ s)
    (have_suggest_results_ s) (timer_ s) (keyword_fetcher_ s)
    (default_fetcher_ s) (keyword_suggest_results_ s)
    (default_suggest_results_ s) (keyword_navigation_results_ s)
    (default_navigation_results_ s) (effects_ s).

Definition set_done_ (v : bool) (s : SearchProvider) :=
  mkSearchProvider (profile_ s) (query_suggest_immediately_ s) (matches_ s) v
    (input_ s) (keyword_input_text_ s) (providers_ s)
    (have_history_results_ s) (history_request_pending_ s)
    (history_request_consumer_ s) (keyword_history_results_ s)
    (default_history_results_ s) (suggest_results_pending_ s)
    (have_suggest_results_ s) (timer_ s) (keyword_fetcher_ s)
    (default_fetcher_ s) (keyword_suggest_results_ s)
    (default_suggest_results_ s) (keyword_navigation_results_ s)
    (default_navigation_results_ s) (effects_ s).

Definition set_input_ (v : AutocompleteInput) (s : SearchProvider) :=
  mkSearchProvider (profile_ s) (query_suggest_immediately_ s) (matches_ s)
    (done_ s) v (keyword_input_text_ s) (providers_ s)
    (have_history_results_ s) (history_request_pending_ s)
    (history_request_consumer_ s) (keyword_history_results_ s)
    (default_history_results_ s) (suggest_results_pending_ s)
    (have_suggest_results_ s) (timer_ s) (keyword_fetcher_ s)
    (default_fetcher_ s) (keyword_suggest_results_ s)
    (default_suggest_results_ s) (keyword_navigation_results_ s)
    (default_navigation_results_ s) (effects_ s).

Definition set_keyword_input_text_ (v : string) (s : SearchProvider) :=
  mkSearchProvider (profile_ s) (query_suggest_immediately_ s) (matches_ s)
    (done_ s) (input_ s) v (providers_ s) (have_history_results_ s)
    (history_request_pending_ s) (history_request_consumer_ s)
    (keyword_history_results_ s) (default_history_results_ s)
    (suggest_results_pending_ s) (have_suggest_results_ s) (timer_ s)
    (keyword_fetcher_ s) (default_fetcher_ s) (keyword_suggest_results_ s)
    (default_suggest_results_ s) (keyword_navigation_results_ s)
    (default_navigation_results_ s) (effects_ s).

Definition set_providers_ (v : Providers) (s : SearchProvider) :=
  mkSearchProvider (profile_ s) (query_suggest_immediately_ s) (matches_ s)
    (done_ s) (input_ s) (keyword_input_text_ s) v (have_history_results_ s)
    (history_request_pending_ s) (history_request_consumer_ s)
    (keyword_history_results_ s) (default_history_results_ s)
    (suggest_results_pending_ s) (have_suggest_results_ s) (timer_ s)
    (keyword_fetcher_ s) (default_fetcher_ s) (keyword_suggest_results_ s)
    (default_suggest_results_ s) (keyword_navigation_results_ s)
    (default_navigation_results_ s) (effects_ s).

Definition set_have_history_results_ (v : bool) (s : SearchProvider) :=
  mkSearchProvider (profile_ s) (query_suggest_immediately_ s) (matches_ s)
    (done_ s) (input_ s) (keyword_input_text_ s) (providers_ s) v
    (history_request_pending_ s) (history_request_consumer_ s)
    (keyword_history_results_ s) (default_history_results_ s)
    (suggest_results_pending_ s) (have_suggest_results_ s) (timer_ s)
    (keyword_fetcher_ s) (default_fetcher_ s) (keyword_suggest_results_ s)
    (default_suggest_results_ s) (keyword_navigation_results_ s)
    (default_navigation_results_ s) (effects_ s).

Definition set_history_request_pending_ (v : bool) (s : SearchProvider) :=
  mkSearchProvider (profile_ s) (query_suggest_immediately_ s) (matches_ s)
    (done_ s) (input_ s) (keyword_input_text_ s) (providers_ s)
    (have_history_results_ s) v (history_request_consumer_ s)
    (keyword_history_results_ s) (default_history_results_ s)
    (suggest_results_pending_ s) (have_suggest_results_ s) (timer_ s)
    (keyword_fetcher_ s) (default_fetcher_ s) (keyword_suggest_results_ s)
    (default_suggest_results_ s) (keyword_navigation_results_ s)
    (default_navigation_results_ s) (effects_ s).

Definition set_history_request_consumer_ (v : CancelableRequestConsumer) (s : SearchProvider) :=
  mkSearchProvider (profile_ s) (query_suggest_immediately_ s) (matches_ s)
    (done_ s) (input_ s) (keyword_input_text_ s) (providers_ s)
    (have_history_results_ s) (history_request_pending_ s) v
    (keyword_history_results_ s) (default_history_results_ s)
    (suggest_results_pending_ s) (have_suggest_results_ s) (timer_ s)
    (keyword_fetcher_ s) (default_fetcher_ s) (keyword_suggest_results_ s)
    (default_suggest_results_ s) (keyword_navigation_results_ s)
    (default_navigation_results_ s) (effects_ s).

Definition set_keyword_history_results_ (v : HistoryResults) (s : SearchProvider) :=
  mkSearchProvider (profile_ s) (query_suggest_immediately_ s) (matches_ s)
    (done_ s) (input_ s) (keyword_input_text_ s) (providers_ s)
    (have_history_results_ s) (history_request_pending_ s)
    (history_request_consumer_ s) v (default_history_results_ s)
    (suggest_results_pending_ s) (have_suggest_results_ s) (timer_ s)
    (keyword_fetcher_ s) (default_fetcher_ s) (keyword_suggest_results_ s)
    (default_suggest_results_ s) (keyword_navigation_results_ s)
    (default_navigation_results_ s) (effects_ s).

Definition set_default_history_results_ (v : HistoryResults) (s : SearchProvider) :=
  mkSearchProvider (profile_ s) (query_suggest_immediately_ s) (matches_ s)
    (done_ s) (input_ s) (keyword_input_text_ s) (providers_ s)
    (have_history_results_ s) (history_request_pending_ s)
    (history_request_consumer_ s) (keyword_history_results_ s) v
    (suggest_results_pending_ s) (have_suggest_results_ s) (timer_ s)
    (keyword_fetcher_ s) (default_fetcher_ s) (keyword_suggest_results_ s)
    (default_suggest_results_ s) (keyword_navigation_results_ s)
    (default_navigation_results_ s) (effects_ s).

Definition set_suggest_results_pending_ (v : Z) (s : SearchProvider) :=
  mkSearchProvider (profile_ s) (query_suggest_immediately_ s) (matches_ s)
    (done_ s) (input_ s) (keyword_input_text_ s) (providers_ s)
    (have_history_results_ s) (history_request_pending_ s)
    (history_request_consumer_ s) (keyword_history_results_ s)
    (default_history_results_ s) v (have_suggest_results_ s) (timer_ s)
    (keyword_fetcher_ s) (default_fetcher_ s) (keyword_suggest_results_ s)
    (default_suggest_results_ s) (keyword_navigation_results_ s)
    (default_navigation_results_ s) (effects_ s).

Definition set_have_suggest_results_ (v : bool) (s : SearchProvider) :=
  mkSearchProvider (profile_ s) (query_suggest_immediately_ s) (matches_ s)
    (done_ s) (input_ s) (keyword_input_text_ s) (providers_ s)
    (have_history_results_ s) (history_request_pending_ s)
    (history_request_consumer_ s) (keyword_history_results_ s)
    (default_history_results_ s) (suggest_results_pending_ s) v (timer_ s)
    (keyword_fetcher_ s) (default_fetcher_ s) (keyword_suggest_results_ s)
    (default_suggest_results_ s) (keyword_navigation_results_ s)
    (default_navigation_results_ s) (effects_ s).

Definition set_timer_ (v : option Z) (s : SearchProvider) :=
  mkSearchProvider (profile_ s) (query_suggest_immediately_ s) (matches_ s)
    (done_ s) (input_ s) (keyword_input_text_ s) (providers_ s)
    (have_history_results_ s) (history_request_pending_ s)
    (history_request_consumer_ s) (keyword_history_results_ s)
    (default_history_results_ s) (suggest_results_pending_ s)
    (have_suggest_results_ s) v (keyword_fetcher_ s) (default_fetcher_ s)
    (keyword_suggest_results_ s) (default_suggest_results_ s)
    (keyword_navigation_results_ s) (default_navigation_results_ s)
    (effects_ s).

Definition set_keyword_fetcher_ (v : option URLFetcher) (s : SearchProvider) :=
  mkSearchProvider (profile_ s) (query_suggest_immediately_ s) (matches_ s)
    (done_ s) (input_ s) (keyword_input_text_ s) (providers_ s)
    (have_history_results_ s) (history_request_pending_ s)
    (history_request_consumer_ s) (keyword_history_results_ s)
    (default_history_results_ s) (suggest_results_pending_ s)
    (have_suggest_results_ s) (timer_ s) v (default_fetcher_ s)
    (keyword_suggest_results_ s) (default_suggest_results_ s)
    (keyword_navigation_results_ s) (default_navigation_results_ s)
    (effects_ s).

Definition set_default_fetcher_ (v : option URLFetcher) (s : SearchProvider) :=
  mkSearchProvider (profile_ s) (query_suggest_immediately_ s) (matches_ s)
    (done_ s) (input_ s) (keyword_input_text_ s) (providers_ s)
    (have_history_results_ s) (history_request_pending_ s)
    (history_request_consumer_ s) (keyword_history_results_ s)
    (default_history_results_ s) (suggest_results_pending_ s)
    (have_suggest_results_ s) (timer_ s) (keyword_fetcher_ s) v
    (keyword_suggest_results_ s) (default_suggest_results_ s)
    (keyword_navigation_results_ s) (default_navigation_results_ s)
    (effects_ s).

Definition set_keyword_suggest_results_ (v : SuggestResults) (s : SearchProvider) :=
  mkSearchProvider (profile_ s) (query_suggest_immediately_ s) (matches_ s)
    (done_ s) (input_ s) (keyword_input_text_ s) (providers_ s)
    (have_history_results_ s) (history_request_pending_ s)
    (history_request_consumer_ s) (keyword_history_results_ s)
    (default_history_results_ s) (suggest_results_pending_ s)
    (have_suggest_results_ s) (timer_ s) (keyword_fetcher_ s)
    (default_fetcher_ s) v (default_suggest_results_ s)
    (keyword_navigation_results_ s) (default_navigation_results_ s)
    (effects_ s).

Definition set_default_suggest_results_ (v : SuggestResults) (s : SearchProvider) :=
  mkSearchProvider (profile_ s) (query_suggest_immediately_ s) (matches_ s)
    (done_ s) (input_ s) (keyword_input_text_ s) (providers_ s)
    (have_history_results_ s) (history_request_pending_ s)
    (history_request_consumer_ s) (keyword_history_results_ s)
    (default_history_results_ s) (suggest_results_pending_ s)
    (have_suggest_results_ s) (timer_ s) (keyword_fetcher_ s)
    (default_fetcher_ s) (keyword_suggest_results_ s) v
    (keyword_navigation_results_ s) (default_navigation_results_ s)
    (effects_ s).

Definition set_keyword_navigation_results_ (v : NavigationResults) (s : SearchProvider) :=
  mkSearchProvider (profile_ s) (query_suggest_immediately_ s) (matches_ s)
    (done_ s) (input_ s) (keyword_input_text_ s) (providers_ s)
    (have_history_results_ s) (history_request_pending_ s)
    (history_request_consumer_ s) (keyword_history_results_ s)
    (default_history_results_ s) (suggest_results_pending_ s)
    (have_suggest_results_ s) (timer_ s) (keyword_fetcher_ s)
    (default_fetcher_ s) (keyword_suggest_results_ s)
    (default_suggest_results_ s) v (default_navigation_results_ s)
    (effects_ s).

Definition set_default_navigation_results_ (v : NavigationResults) (s : SearchProvider) :=
  mkSearchProvider (profile_ s) (query_suggest_immediately_ s) (matches_ s)
    (done_ s) (input_ s) (keyword_input_text_ s) (providers_ s)
    (have_history_results_ s) (history_request_pending_ s)
    (history_request_consumer_ s) (keyword_history_results_ s)
    (default_history_results_ s) (suggest_results_pending_ s)
    (have_suggest_results_ s) (timer_ s) (keyword_fetcher_ s)
    (default_fetcher_ s) (keyword_suggest_results_ s)
    (default_suggest_results_ s) (keyword_navigation_results_ s) v
    (effects_ s).

Definition set_effects_ (v : list Effect) (s : SearchProvider) :=
  mkSearchProvider (profile_ s) (query_suggest_immediately_ s) (matches_ s)
    (done_ s) (input_ s) (keyword_input_text_ s) (providers_ s)
    (have_history_results_ s) (history_request_pending_ s)
    (history_request_consumer_ s) (keyword_history_results_ s)
    (default_history_results_ s) (suggest_results_pending_ s)
    (have_suggest_results_ s) (timer_ s) (keyword_fetcher_ s)
    (default_fetcher_ s) (keyword_suggest_results_ s)
    (default_suggest_results_ s) (keyword_navigation_results_ s)
    (default_navigation_results_ s) v.
Definition log (e : Effect) (s : SearchProvider) : SearchProvider :=
  set_effects_ (effects_ s ++ [e]) s.

(** The provider as its constructor leaves it. *)
Definition SearchProvider_new (profile : option Profile)
    (input : AutocompleteInput) : SearchProvider :=
  mkSearchProvider profile false [] true input ""
    (mkProviders None None TemplateURL_empty TemplateURL_empty)
    false false (mkConsumer [] 1) [] [] 0 false None None None [] [] [] [] [].

(** Providers::default_provider() and keyword_provider(). *)
Definition default_provider (p : Providers) : TemplateURL :=
  cached_default_provider_ p.

Definition keyword_provider (p : Providers) : TemplateURL :=
  cached_keyword_provider_ p.

(** MatchMap, a [std::map] from the lower-cased query to its match: an
    association list kept in the order of its keys, the order in which the
    map is iterated. *)
Definition MatchMap : Type := list (string * AutocompleteMatch).

Fixpoint MatchMap_find (k : string) (m : MatchMap) : option AutocompleteMatch :=
  match m with
  | [] => None
  | (k', v) :: rest => if String.eqb k' k then Some v else MatchMap_find k rest
  end.

(** Put a new key where the order of the keys wants it. *)
Fixpoint MatchMap_place (k : string) (v : AutocompleteMatch) (m : MatchMap)
    : MatchMap :=
  match m with
  | [] => [(k, v)]
  | (k', v') :: rest =>
      if String.ltb k k' then (k, v) :: m
      else (k', v') :: MatchMap_place k v rest
  end.

(** [std::map::insert]: a key already present keeps its value.  The second
    component is the value found there, [None] when the pair went in. *)
Definition MatchMap_insert (k : string) (v : AutocompleteMatch) (m : MatchMap)
    : MatchMap * option AutocompleteMatch :=
  match MatchMap_find k m with
  | Some old => (m, Some old)
  | None => (MatchMap_place k v m, None)
  end.

(** Assignment through the iterator returned by [insert]. *)
Fixpoint MatchMap_assign (k : string) (v : AutocompleteMatch) (m : MatchMap)
    : MatchMap :=
  match m with
  | [] => []
  | (k', v') :: rest =>
      if String.eqb k' k then (k', v) :: rest
      else (k', v') :: MatchMap_assign k v rest
  end.

Definition MatchMap_values (m : MatchMap) : ACMatches := map snd m.

Definition MatchMap_keys (m : MatchMap) : list string := map fst m.

(** [std::partial_sort(first, first + middle, last, comp)].  The standard
    fixes the result up to the order of equivalent elements and the order
    of the tail: the first [middle] places hold the least elements in
    order.  The model sorts the whole range by insertion and leaves
    equivalent elements in the order they had; [middle] plays no part in
    it, as the one caller erases whatever stands behind the first
    [middle] places.  An implementation of the library is free to order
    equivalent elements otherwise, so what is proved of the sorted list
    uses no more of this definition than that the result is a
    permutation of the range and that no element is ranked before one
    that stands ahead of it. *)
Fixpoint sort_insert {A : Type} (comp : A -> A -> bool) (x : A) (l : list A)
    : list A :=
  match l with
  | [] => [x]
  | y :: rest => if comp y x then y :: sort_insert comp x rest else x :: l
  end.

Definition partial_sort {A : Type} (comp : A -> A -> bool) (middle : nat)
    (l : list A) : list A :=
  fold_right (sort_insert comp) [] l.

Section Provider.

Context {H : Host}.

(** *** Relevance *)

Definition CalculateRelevanceForWhatYouTyped (s : SearchProvider) : Checked Z :=
  if valid_keyword_provider (providers_ s) then Returned 250
  else match type (input_ s) with
       | UNKNOWN | QUERY | FORCED_QUERY => Returned 1300
       | REQUESTED_URL => Returned 1150
       | URL => Returned 850
       | INVALID => NotReached 0
       end.

Definition CalculateRelevanceForHistory (t : Time) (is_keyword : bool)
    (s : SearchProvider) : Z :=
  let score_discount := HistoryScoreDiscount t in
  let base_score :=
    if negb (is_primary_provider (providers_ s) is_keyword) then 200
    else if InputType_eqb (type (input_ s)) URL then 750 else 1050 in
  Z.max 0 (Int.sub base_score score_discount).

(** Both start with [DCHECK(result_number < num_results)]. *)
Definition CalculateRelevanceForSuggestion (num_results result_number : nat)
    (is_keyword : bool) (s : SearchProvider) : Z :=
  let base_score :=
    if negb (is_primary_provider (providers_ s) is_keyword) then 100
    else if InputType_eqb (type (input_ s)) URL then 300 else 600 in
  Int.add base_score (Int.of_size_t_diff num_results result_number).

Definition CalculateRelevanceForNavigation (num_results result_number : nat)
    (is_keyword : bool) (s : SearchProvider) : Z :=
  Int.add (if is_primary_provider (providers_ s) is_keyword then 800 else 150)
          (Int.of_size_t_diff num_results result_number).

(** *** The suggest gate *)

Definition IsQuerySuitableForSuggest (s : SearchProvider) : bool :=
  match profile_ s with
  | None => false
  | Some profile =>
      if IsOffTheRecord profile
         || (negb (valid_suggest_for_keyword_provider (providers_ s))
             && negb (valid_suggest_for_default_provider (providers_ s)))
         || negb (kSearchSuggestEnabled profile)
      then false
      else if InputType_eqb (type (input_ s)) FORCED_QUERY then true
      else if negb (String.eqb (scheme (input_ s)) "http")
              && negb (String.eqb (scheme (input_ s)) "https")
              && negb (String.eqb (scheme (input_ s)) "ftp")
      then InputType_eqb (type (input_ s)) QUERY
      else
        let parts := parts (input_ s) in
        if is_nonempty (username parts) || is_nonempty (port parts)
           || is_nonempty (query parts) || is_nonempty (ref parts)
        then false
        else if String.eqb (scheme (input_ s)) "https" && is_nonempty (path parts)
        then false
        else true
  end.

(** *** Aggregation *)

Definition class_of_suggestion (input_text query_string : string)
    : list ACMatchClassification :=
  match String.index 0 input_text query_string with
  | None => [mkClass 0 STYLE_MATCH]
  | Some input_position =>
      let next_fragment_position :=
        (input_position + String.length input_text)%nat in
      (if negb (Nat.eqb input_position 0) then [mkClass 0 STYLE_NONE] else [])
      ++ [mkClass input_position STYLE_DIM]
      ++ (if Nat.ltb next_fragment_position (String.length query_string)
          then [mkClass next_fragment_position STYLE_NONE] else [])
  end.

(** The match that AddMatchToMap builds before it touches the map. *)
Definition SearchMatch (query_string : string) (rel : Z)
    (ty : MatchType) (accepted_suggestion : Z) (is_keyword : bool)
    (s : SearchProvider) : AutocompleteMatch :=
  let input_text :=
    if is_keyword then keyword_input_text_ s else text (input_ s) in
  let provider :=
    if is_keyword then keyword_provider (providers_ s)
    else default_provider (providers_ s) in
  let is_completion := negb (String.eqb input_text query_string) in
  let forced := InputType_eqb (type (input_ s)) FORCED_QUERY in
  let search_start := if forced then 1%nat else 0%nat in
  let fill :=
    String.append (if forced then "?" else "")
      (String.append
         (if is_keyword
          then String.append (keyword (keyword_provider (providers_ s))) " "
          else "")
         query_string) in
  mkMatch rel false fill
    (if negb (prevent_inline_autocomplete (input_ s))
        && String.eqb
             (String.substring search_start (String.length input_text) fill)
             input_text
     then Some (search_start + String.length input_text)%nat else None)
    (ReplaceSearchTerms provider query_string accepted_suggestion input_text)
    query_string
    (if is_completion then class_of_suggestion input_text query_string
     else [mkClass 0 STYLE_NONE])
    (if is_completion then "" else SearchDescription provider)
    (if is_completion then [] else [mkClass 0 STYLE_DIM])
    (if is_keyword then KEYWORD else GENERATED)
    ty
    (if is_keyword then Some (keyword_provider (providers_ s)) else None)
    false.

Definition AddMatchToMap (query_string : string) (rel : Z)
    (ty : MatchType) (accepted_suggestion : Z) (is_keyword : bool)
    (s : SearchProvider) (map : MatchMap) : MatchMap :=
  let m :=
    SearchMatch query_string rel ty accepted_suggestion is_keyword s in
  let key := ToLower query_string in
  match MatchMap_insert key m map with
  | (map', None) => map'
  | (map', Some old) =>
      if Z.gtb (relevance m) (relevance old)
      then MatchMap_assign key m map' else map'
  end.

Definition AddHistoryResultsToMap (results : HistoryResults)
    (is_keyword : bool) (did_not_accept_suggestion : Z) (s : SearchProvider)
    (map : MatchMap) : MatchMap :=
  fold_left
    (fun map i =>
       AddMatchToMap (term i)
         (CalculateRelevanceForHistory (time i) is_keyword s)
         SEARCH_HISTORY did_not_accept_suggestion is_keyword s map)
    results map.

Definition indexed {A : Type} (l : list A) : list (nat * A) :=
  combine (seq 0 (List.length l)) l.

Definition AddSuggestResultsToMap (suggest_results : SuggestResults)
    (is_keyword : bool) (did_not_accept_suggestion : Z) (s : SearchProvider)
    (map : MatchMap) : MatchMap :=
  fold_left
    (fun map ix =>
       AddMatchToMap (snd ix)
         (CalculateRelevanceForSuggestion (List.length suggest_results)
            (fst ix) is_keyword s)
         SEARCH_SUGGEST (Int.wrap (Z.of_nat (fst ix))) is_keyword s map)
    (indexed suggest_results) map.

Definition NavigationToMatch (navigation : NavigationResult) (rel : Z)
    (is_keyword : bool) (s : SearchProvider) : AutocompleteMatch :=
  let input_text :=
    if is_keyword then keyword_input_text_ s else text (input_ s) in
  let contents :=
    StringForURLDisplay (nav_url navigation) true
      (negb (HasHTTPScheme input_text)) in
  mkMatch rel false
    (String.append
       (if InputType_eqb (type (input_ s)) FORCED_QUERY then "?" else "")
       (FormattedStringWithEquivalentMeaning (nav_url navigation) contents))
    None (nav_url navigation) contents
    (ClassifyMatchInString input_text contents STYLE_URL)
    (site_name navigation)
    (ClassifyMatchInString input_text (site_name navigation) STYLE_NONE)
    TYPED NAVSUGGEST None false.

Definition AddNavigationResultsToMatches
    (navigation_results : NavigationResults) (is_keyword : bool)
    (s : SearchProvider) : SearchProvider :=
  match navigation_results with
  | [] => s
  | front :: _ =>
      let num_results :=
        if is_keyword then List.length (keyword_navigation_results_ s)
        else List.length (default_navigation_results_ s) in
      set_matches_
        (matches_ s ++
         [NavigationToMatch front
            (CalculateRelevanceForNavigation num_results 0 is_keyword s)
            is_keyword s])
        s
  end.

(** Modelled from the spec: UpdateStarredStateOfMatches belongs to
    AutocompleteProvider, whose file is not among the sources.  It
    recomputes the starred flag of every match from the bookmark state and
    changes nothing else. *)
Definition WithStarredState (m : AutocompleteMatch) : AutocompleteMatch :=
  mkMatch (relevance m) (deletable m) (fill_into_edit m)
    (inline_autocomplete_offset m) (destination_url m) (contents m)
    (contents_class m) (description m) (description_class m)
    (transition m) (match_type m) (template_url m)
    (IsBookmarked (destination_url m)).

Definition UpdateStarredStateOfMatches (s : SearchProvider) : SearchProvider :=
  set_matches_ (map WithStarredState (matches_ s)) s.

(** The map as it stands when all sources have been added. *)
Definition CollectMatches (s : SearchProvider) : MatchMap :=
  let did_not_accept_keyword_suggestion :=
    match keyword_suggest_results_ s with
    | [] => NO_SUGGESTIONS_AVAILABLE | _ => NO_SUGGESTION_CHOSEN end in
  let did_not_accept_default_suggestion :=
    match default_suggest_results_ s with
    | [] => NO_SUGGESTIONS_AVAILABLE | _ => NO_SUGGESTION_CHOSEN end in
  let map :=
    if valid_default_provider (providers_ s)
    then AddMatchToMap (text (input_ s))
           (release (CalculateRelevanceForWhatYouTyped s))
           SEARCH_WHAT_YOU_TYPED did_not_accept_default_suggestion false s []
    else [] in
  let map := AddHistoryResultsToMap (keyword_history_results_ s) true
               did_not_accept_keyword_suggestion s map in
  let map := AddHistoryResultsToMap (default_history_results_ s) false
               did_not_accept_default_suggestion s map in
  let map := AddSuggestResultsToMap (keyword_suggest_results_ s) true
               did_not_accept_keyword_suggestion s map in
  AddSuggestResultsToMap (default_suggest_results_ s) false
    did_not_accept_default_suggestion s map.

(** [matches_] as it stands just before it is sorted. *)
Definition UnsortedMatches (s : SearchProvider) : SearchProvider :=
  let s := set_matches_ (MatchMap_values (CollectMatches s)) s in
  let s := AddNavigationResultsToMatches (keyword_navigation_results_ s) true s in
  AddNavigationResultsToMatches (default_navigation_results_ s) false s.

Definition ConvertResultsToAutocompleteMatches (s : SearchProvider)
    : SearchProvider :=
  let s := UnsortedMatches s in
  let max_total_matches := (kMaxMatches + 1)%nat in
  let s :=
    set_matches_
      (partial_sort MoreRelevant
         (Nat.min max_total_matches (List.length (matches_ s))) (matches_ s))
      s in
  let s :=
    if Nat.ltb max_total_matches (List.length (matches_ s))
    then set_matches_ (firstn max_total_matches (matches_ s)) s else s in
  let s := UpdateStarredStateOfMatches s in
  set_done_
    (negb (history_request_pending_ s) && (suggest_results_pending_ s =? 0)) s.

(** *** Starting and stopping the sources *)

Definition StopHistory (s : SearchProvider) : SearchProvider :=
  let s := set_history_request_consumer_
             (CancelAllRequests (history_request_consumer_ s)) s in
  let s := set_history_request_pending_ false s in
  let s := set_keyword_history_results_ [] s in
  let s := set_default_history_results_ [] s in
  set_have_history_results_ false s.

Definition StopSuggest (s : SearchProvider) : SearchProvider :=
  let s := set_suggest_results_pending_ 0 s in
  let s := set_timer_ None s in
  let s := set_keyword_fetcher_ None s in
  let s := set_default_fetcher_ None s in
  let s := set_keyword_suggest_results_ [] s in
  let s := set_default_suggest_results_ [] s in
  let s := set_keyword_navigation_results_ [] s in
  let s := set_default_navigation_results_ [] s in
  set_have_suggest_results_ false s.

Definition Stop (s : SearchProvider) : SearchProvider :=
  set_done_ true (StopSuggest (StopHistory s)).

(** Starts with [DCHECK(!text.empty())]. *)
Definition ScheduleHistoryQuery (search_id : TemplateURLID)
    (query_text : string) (s : SearchProvider) : SearchProvider :=
  let consumer := history_request_consumer_ s in
  let request_handle := next_handle consumer in
  let s := log (HistoryQueryIssued search_id query_text kMaxMatches) s in
  let s := set_history_request_consumer_
             (mkConsumer (pending_requests consumer
                          ++ [(request_handle, search_id)])
                         (request_handle + 1)) s in
  set_history_request_pending_ true s.

Definition StartOrStopHistoryQuery (minimal_changes : bool)
    (s : SearchProvider) : SearchProvider :=
  if minimal_changes
     && (have_history_results_ s
         || (negb (done_ s) && negb (synchronous_only (input_ s))))
  then s
  else
    let s := StopHistory s in
    if synchronous_only (input_ s) then s
    else
      let s :=
        if valid_keyword_provider (providers_ s)
        then ScheduleHistoryQuery (id (keyword_provider (providers_ s)))
               (keyword_input_text_ s) s
        else s in
      if valid_default_provider (providers_ s)
      then ScheduleHistoryQuery (id (default_provider (providers_ s)))
             (text (input_ s)) s
      else s.

Definition kQueryDelayMs : Z := 200.

Definition StartOrStopSuggestQuery (minimal_changes : bool)
    (s : SearchProvider) : SearchProvider :=
  if negb (IsQuerySuitableForSuggest s) then StopSuggest s
  else if minimal_changes
          && (have_suggest_results_ s
              || (negb (done_ s) && negb (synchronous_only (input_ s))))
  then s
  else
    let s := StopSuggest s in
    if synchronous_only (input_ s) then s
    else
      let s := set_suggest_results_pending_ 1 s in
      let delay := if query_suggest_immediately_ s then 0 else kQueryDelayMs in
      log (TimerStarted delay) (set_timer_ (Some delay) s).

Definition CreateSuggestFetcher (fid : Z) (provider : TemplateURL)
    (query_text : string) (s : SearchProvider) : URLFetcher * SearchProvider :=
  let fetcher := mkFetcher fid (SuggestURL provider query_text) None in
  (fetcher, log (FetchStarted fid (fetch_url fetcher)) s).

(** The task of the timer.  Starts with [DCHECK(!done_)] and ends with
    [DCHECK_GT(suggest_results_pending_, 0)]. *)
Definition Run (s : SearchProvider) : SearchProvider :=
  let s := set_suggest_results_pending_ 0 s in
  let s :=
    if valid_suggest_for_keyword_provider (providers_ s)
    then
      let s := set_suggest_results_pending_
                 (Int.add (suggest_results_pending_ s) 1) s in
      let (f, s) := CreateSuggestFetcher kKeywordProviderURLFetcherID
                      (keyword_provider (providers_ s))
                      (keyword_input_text_ s) s in
      set_keyword_fetcher_ (Some f) s
    else s in
  if valid_suggest_for_default_provider (providers_ s)
  then
    let s := set_suggest_results_pending_
               (Int.add (suggest_results_pending_ s) 1) s in
    let (f, s) := CreateSuggestFetcher kDefaultProviderURLFetcherID
                    (default_provider (providers_ s)) (text (input_ s)) s in
    set_default_fetcher_ (Some f) s
  else s.

(** The one-shot timer fires, if it is still running. *)
Definition TimerFired (s : SearchProvider) : SearchProvider :=
  match timer_ s with
  | Some _ => Run (set_timer_ None s)
  | None => s
  end.

(** *** Reading the reply of the suggest server *)

Definition GetAsString (v : Value) : option string :=
  match v with VString str => Some str | _ => None end.

Definition GetAsList (v : Value) : option (list Value) :=
  match v with VList l => Some l | _ => None end.

Fixpoint DictionaryGet (key : string) (d : list (string * Value))
    : option Value :=
  match d with
  | [] => None
  | (k, v) :: rest => if String.eqb k key then Some v else DictionaryGet key rest
  end.

Definition kGoogleSuggestType : string := "google:suggesttype".

(** The fifth element of the reply, when it is a dictionary that holds a
    list under "google:suggesttype". *)
Definition SuggestTypeList (root_list : list Value) : option (list Value) :=
  match nth_error root_list 4 with
  | Some (VDictionary dict_val) =>
      match DictionaryGet kGoogleSuggestType dict_val with
      | Some (VList l) => Some l
      | _ => None
      end
  | _ => None
  end.

Definition DescriptionList (root_list : list Value) : option (list Value) :=
  match nth_error root_list 2 with
  | Some (VList l) => Some l
  | _ => None
  end.

Definition IsNavigationType (type_list : option (list Value)) (i : nat)
    : bool :=
  match type_list with
  | Some l =>
      match nth_error l i with
      | Some (VString type_str) => String.eqb type_str "NAVIGATION"
      | _ => false
      end
  | None => false
  end.

Definition PushNavigationResult (is_keyword : bool) (r : NavigationResult)
    (s : SearchProvider) : SearchProvider :=
  if is_keyword
  then set_keyword_navigation_results_ (keyword_navigation_results_ s ++ [r]) s
  else set_default_navigation_results_ (default_navigation_results_ s ++ [r]) s.

Definition PushSuggestResult (is_keyword : bool) (r : string)
    (s : SearchProvider) : SearchProvider :=
  if is_keyword
  then set_keyword_suggest_results_ (keyword_suggest_results_ s ++ [r]) s
  else set_default_suggest_results_ (default_suggest_results_ s ++ [r]) s.

(** The loop over the second element of the reply, from index [i] on.
    The lists written are those of the keyword provider when [is_keyword]
    is set, else those of the default provider. *)
Fixpoint ParseSuggestionList (result_list : list Value) (i : nat)
    (type_list description_list : option (list Value)) (is_keyword : bool)
    (s : SearchProvider) : bool * SearchProvider :=
  match result_list with
  | [] => (true, s)
  | suggestion_val :: rest =>
      match GetAsString suggestion_val with
      | None => (false, s)
      | Some suggestion_str =>
          let s :=
            if Nat.eqb (String.length suggestion_str) 0 then s
            else if IsNavigationType type_list i then
              let navigation_results :=
                if is_keyword then keyword_navigation_results_ s
                else default_navigation_results_ s in
              if Nat.ltb (List.length navigation_results) kMaxMatches then
                match description_list with
                | Some dl =>
                    match nth_error dl i with
                    | Some (VString site) =>
                        let result_url := FixupURL suggestion_str in
                        if is_valid result_url
                        then PushNavigationResult is_keyword
                               (mkNav result_url site) s
                        else s
                    | _ => s
                    end
                | None => s
                end
              else s
            else
              let suggest_results :=
                if is_keyword then keyword_suggest_results_ s
                else default_suggest_results_ s in
              if Nat.ltb (List.length suggest_results) kMaxMatches
              then PushSuggestResult is_keyword suggestion_str s
              else s in
          ParseSuggestionList rest (S i) type_list description_list
            is_keyword s
      end
  end.

Definition ParseSuggestResults (root_val : Value) (is_keyword : bool)
    (input_text : string) (s : SearchProvider) : bool * SearchProvider :=
  match root_val with
  | VList root_list =>
      if Nat.ltb (List.length root_list) 2 then (false, s)
      else
        match nth_error root_list 0, nth_error root_list 1 with
        | Some (VString query_str), Some (VList result_list) =>
            if negb (String.eqb query_str input_text) then (false, s)
            else
              ParseSuggestionList result_list 0
                (if Nat.ltb 4 (List.length root_list)
                 then SuggestTypeList root_list else None)
                (if Nat.ltb 2 (List.length root_list)
                 then DescriptionList root_list else None)
                is_keyword s
        | _, _ => (false, s)
        end
  | _ => (false, s)
  end.

(** *** Completion callbacks *)

(** Starts with [DCHECK(!done_)]; after the decrement comes
    [DCHECK_GE(suggest_results_pending_, 0)]. *)
Definition OnURLFetchComplete (source : URLFetcher) (status_is_success : bool)
    (response_code : Z) (data : string) (s : SearchProvider)
    : SearchProvider :=
  let s := set_suggest_results_pending_
             (Int.sub (suggest_results_pending_ s) 1) s in
  let json_data :=
    match response_charset source with
    | Some charset =>
        match CodepageToWide data charset with
        | Some wide_data => wide_data
        | None => data
        end
    | None => data
    end in
  let is_keyword_results :=
    match keyword_fetcher_ s with
    | Some f => fetcher_id f =? fetcher_id source
    | None => false
    end in
  let s :=
    if status_is_success && (response_code =? 200) then
      let input_text :=
        if is_keyword_results then keyword_input_text_ s
        else text (input_ s) in
      match Deserialize json_data with
      | Some root_val =>
          let (ok, s) :=
            ParseSuggestResults root_val is_keyword_results input_text s in
          set_have_suggest_results_ ok s
      | None => set_have_suggest_results_ false s
      end
    else s in
  let s := ConvertResultsToAutocompleteMatches s in
  let suggest_results :=
    if is_keyword_results then keyword_suggest_results_ s
    else default_suggest_results_ s in
  log (ProviderUpdate (negb (Nat.eqb (List.length suggest_results) 0))) s.

Definition OnGotMostRecentKeywordSearchTerms (handle : Handle)
    (results : HistoryResults) (s : SearchProvider) : SearchProvider :=
  let s :=
    if valid_keyword_provider (providers_ s)
       && (id (keyword_provider (providers_ s))
           =? GetClientData (pending_requests (history_request_consumer_ s))
                            handle)
    then set_keyword_history_results_ results s
    else set_default_history_results_ results s in
  let s :=
    if Nat.eqb (PendingRequestCount (history_request_consumer_ s)) 1
    then set_have_history_results_ true (set_history_request_pending_ false s)
    else s in
  let s := ConvertResultsToAutocompleteMatches s in
  log (ProviderUpdate (negb (Nat.eqb (List.length results) 0))) s.

(** The history service answers a request that was not cancelled: it runs
    the callback and only then takes the request off the consumer. *)
Definition HistoryRequestCompleted (handle : Handle) (results : HistoryResults)
    (s : SearchProvider) : SearchProvider :=
  if existsb (fun r => fst r =? handle)
             (pending_requests (history_request_consumer_ s))
  then
    let s := OnGotMostRecentKeywordSearchTerms handle results s in
    set_history_request_consumer_
      (RemoveRequest handle (history_request_consumer_ s)) s
  else s.

(** *** Start *)

Definition PlaceholderMatch (default_provider : TemplateURL)
    : AutocompleteMatch :=
  let m := AutocompleteMatch_default in
  mkMatch (relevance m) (deletable m) (fill_into_edit m)
    (inline_autocomplete_offset m) (destination_url m)
    IDS_EMPTY_KEYWORD_VALUE [mkClass 0 STYLE_NONE]
    (SearchDescription default_provider) [mkClass 0 STYLE_DIM]
    (transition m) (match_type m) (template_url m) (starred m).

Definition Start (input : AutocompleteInput) (minimal_changes : bool)
    (s : SearchProvider) : SearchProvider :=
  let s := set_matches_ [] s in
  match profile_ s with
  | None => Stop s
  | Some profile =>
      if InputType_eqb (type input) INVALID then Stop s
      else
        let (substituting, remaining_input) :=
          GetSubstitutingTemplateURLForInput profile input in
        let s := set_keyword_input_text_ remaining_input s in
        let keyword_provider :=
          if negb (SupportsReplacement substituting)
             || Nat.eqb (String.length (keyword_input_text_ s)) 0
          then None else substituting in
        let default_provider :=
          if negb (SupportsReplacement (GetDefaultSearchProvider profile))
          then None else GetDefaultSearchProvider profile in
        let keyword_provider :=
          if TemplateURL_ptr_eqb keyword_provider default_provider
          then None else keyword_provider in
        if negb (isSome default_provider) && negb (isSome keyword_provider)
        then Stop s
        else
          let s :=
            if negb (done_ s)
               && (negb minimal_changes
                   || negb (Providers_equals default_provider keyword_provider
                              (providers_ s)))
            then Stop s else s in
          let s := set_providers_
                     (Providers_Set default_provider keyword_provider
                        (providers_ s)) s in
          if Nat.eqb (String.length (text input)) 0 then
            let s :=
              match default_provider with
              | Some dp => set_matches_ (matches_ s ++ [PlaceholderMatch dp]) s
              | None => s
              end in
            Stop s
          else
            let s := set_input_ input s in
            let s := StartOrStopHistoryQuery minimal_changes s in
            let s := StartOrStopSuggestQuery minimal_changes s in
            ConvertResultsToAutocompleteMatches s
  end.

End Provider.

(** The state with its four lists of remote results replaced. *)
Definition set_results (a b : SuggestResults) (c d : NavigationResults)
    (s : SearchProvider) : SearchProvider :=
  set_keyword_suggest_results_ a
    (set_default_suggest_results_ b
       (set_keyword_navigation_results_ c
          (set_default_navigation_results_ d s))).

(** ** The candidates of a pass *)

(** The arguments of one call of AddMatchToMap. *)
Record Candidate : Type := mkCandidate {
  query_string : string;
  candidate_relevance : Z;
  candidate_type : MatchType;
  accepted_suggestion : Z;
  is_keyword : bool
}.

Section Candidates.

Context {H : Host}.

Definition KeyOf (c : Candidate) : string := ToLower (query_string c).

Definition MatchOf (s : SearchProvider) (c : Candidate) : AutocompleteMatch :=
  SearchMatch (query_string c) (candidate_relevance c) (candidate_type c)
    (accepted_suggestion c) (is_keyword c) s.

Definition AddCandidate (s : SearchProvider) (map : MatchMap) (c : Candidate)
    : MatchMap :=
  AddMatchToMap (query_string c) (candidate_relevance c) (candidate_type c)
    (accepted_suggestion c) (is_keyword c) s map.

Definition AddCandidates (s : SearchProvider) (cs : list Candidate)
    (map : MatchMap) : MatchMap :=
  fold_left (AddCandidate s) cs map.

Definition HistoryCandidates (results : HistoryResults) (keyword_results : bool)
    (did_not_accept_suggestion : Z) (s : SearchProvider) : list Candidate :=
  map (fun i =>
         mkCandidate (term i)
           (CalculateRelevanceForHistory (time i) keyword_results s)
           SEARCH_HISTORY did_not_accept_suggestion keyword_results)
      results.

Definition SuggestCandidates (suggest_results : SuggestResults)
    (keyword_results : bool) (s : SearchProvider) : list Candidate :=
  map (fun ix =>
         mkCandidate (snd ix)
           (CalculateRelevanceForSuggestion (List.length suggest_results)
              (fst ix) keyword_results s)
           SEARCH_SUGGEST (Int.wrap (Z.of_nat (fst ix))) keyword_results)
      (indexed suggest_results).

(** The calls of AddMatchToMap that a pass makes, in the order made. *)
Definition Candidates (s : SearchProvider) : list Candidate :=
  let did_not_accept_keyword_suggestion :=
    match keyword_suggest_results_ s with
    | [] => NO_SUGGESTIONS_AVAILABLE | _ => NO_SUGGESTION_CHOSEN end in
  let did_not_accept_default_suggestion :=
    match default_suggest_results_ s with
    | [] => NO_SUGGESTIONS_AVAILABLE | _ => NO_SUGGESTION_CHOSEN end in
  (if valid_default_provider (providers_ s)
   then [mkCandidate (text (input_ s))
           (release (CalculateRelevanceForWhatYouTyped s))
           SEARCH_WHAT_YOU_TYPED did_not_accept_default_suggestion false]
   else [])
  ++ HistoryCandidates (keyword_history_results_ s) true
       did_not_accept_keyword_suggestion s
  ++ HistoryCandidates (default_history_results_ s) false
       did_not_accept_default_suggestion s
  ++ SuggestCandidates (keyword_suggest_results_ s) true s
  ++ SuggestCandidates (default_suggest_results_ s) false s.

End Candidates.

(** [m] is the match of the candidate of key [k] that the map keeps: the
    first among those of highest relevance. *)
Definition survivor_of {H : Host} (s : SearchProvider) (cs : list Candidate)
    (k : string) (m : AutocompleteMatch) : Prop :=
  exists before c after,
    cs = before ++ c :: after
    /\ KeyOf c = k
    /\ m = MatchOf s c
    /\ (forall d, In d before -> KeyOf d = k ->
                  candidate_relevance d < candidate_relevance c)
    /\ (forall d, In d after -> KeyOf d = k ->
                  candidate_relevance d <= candidate_relevance c).

Definition map_tracks {H : Host} (s : SearchProvider) (cs : list Candidate)
    (mp : MatchMap) : Prop :=
  forall k,
    match MatchMap_find k mp with
    | Some m => survivor_of s cs k m
    | None => forall c, In c cs -> KeyOf c <> k
    end.

(** ** The order of the result *)

(** The requirement of the standard on the comparator of a sort. *)
Record StrictWeakOrder {A : Type} (comp : A -> A -> bool) : Prop := {
  swo_irreflexive : forall a, comp a a = false;
  swo_transitive :
    forall a b c, comp a b = true -> comp b c = true -> comp a c = true;
  swo_incomparable :
    forall a b c,
      comp a b = false -> comp b a = false ->
      comp b c = false -> comp c b = false ->
      comp a c = false /\ comp c a = false
}.

(** The comparator puts a higher relevance first, as far as relevances
    that are not negative go. *)
Definition respects_relevance (comp : AutocompleteMatch -> AutocompleteMatch -> bool)
    : Prop :=
  forall a b, 0 <= relevance b -> relevance b < relevance a -> comp a b = true.

(** [a] stands before [b] in [l]. *)
Definition precedes {A : Type} (a b : A) (l : list A) : Prop :=
  exists i j, (i < j)%nat /\ nth_error l i = Some a /\ nth_error l j = Some b.

Section Order.

Context {H : Host}.

(** The navigation matches of a pass: the front of each list. *)
Definition NavigationMatches (s : SearchProvider) : ACMatches :=
  match keyword_navigation_results_ s with
  | [] => []
  | front :: _ =>
      [NavigationToMatch front
         (CalculateRelevanceForNavigation
            (List.length (keyword_navigation_results_ s)) 0 true s) true s]
  end
  ++ match default_navigation_results_ s with
     | [] => []
     | front :: _ =>
         [NavigationToMatch front
            (CalculateRelevanceForNavigation
               (List.length (default_navigation_results_ s)) 0 false s)
            false s]
     end.

(** The matches of a pass in the order in which it constructs them. *)
Definition GenerationOrder (s : SearchProvider) : ACMatches :=
  map (MatchOf s) (Candidates s) ++ NavigationMatches s.

(** The reading of the tie-break under test: of two constructed matches
    of equal relevance, the one that comes first in the result was
    constructed first. *)
Definition ties_in_generation_order (s : SearchProvider) : Prop :=
  forall a b,
    In a (GenerationOrder s) -> In b (GenerationOrder s) ->
    relevance a = relevance b ->
    precedes (WithStarredState a) (WithStarredState b)
             (matches_ (ConvertResultsToAutocompleteMatches s)) ->
    precedes a b (GenerationOrder s).

End Order.

(** ** The shape of a reply *)

(** The list of suggestions of a reply of the right shape: a list of at
    least two elements, the first the string that was sent, the second a
    list. *)
Definition SuggestionList (root_val : Value) (input_text : string)
    : option (list Value) :=
  match root_val with
  | VList (VString query_str :: VList result_list :: _) =>
      if String.eqb query_str input_text then Some result_list else None
  | _ => None
  end.

(** The text of the reply that the callback reads, and the fetch the
    callback takes the reply to answer. *)
Definition DecodeReply {H : Host} (source : URLFetcher) (data : string)
    : string :=
  match response_charset source with
  | Some charset =>
      match CodepageToWide data charset with
      | Some wide_data => wide_data
      | None => data
      end
  | None => data
  end.

Definition IsKeywordFetcher (source : URLFetcher) (s : SearchProvider) : bool :=
  match keyword_fetcher_ s with
  | Some f => fetcher_id f =? fetcher_id source
  | None => false
  end.

Definition FetchedText (source : URLFetcher) (s : SearchProvider) : string :=
  if IsKeywordFetcher source s then keyword_input_text_ s
  else text (input_ s).

(** ** The scores in the words of the specification *)

(** The base scores as the specification words them. *)
Definition suggestion_base (primary url_shaped : bool) : Z :=
  if primary then if url_shaped then 300 else 600 else 100.

Definition history_base (primary url_shaped : bool) : Z :=
  if primary then if url_shaped then 750 else 1050 else 200.

(** ** A host for the examples *)

Module Example.

Definition ascii_to_lower (c : ascii) : ascii :=
  let n := nat_of_ascii c in
  if Nat.leb 65 n && Nat.leb n 90 then ascii_of_nat (n + 32) else c.

Fixpoint to_lower (str : string) : string :=
  match str with
  | EmptyString => EmptyString
  | String c rest => String (ascii_to_lower c) (to_lower rest)
  end.

(** Relevance first, then the text of the match. *)
Definition more_relevant (a b : AutocompleteMatch) : bool :=
  if relevance a =? relevance b
  then String.ltb (contents a) (contents b)
  else relevance b <? relevance a.

Definition engine : TemplateURL :=
  mkTemplateURL 1 "example" "Example" "http://example.test/search?q="
    (Some "http://example.test/complete?q=").

Definition profile : Profile := mkProfile false true.

(** A host with one search engine, no keyword engines and no bookmarks;
    results of the keyword provider are the primary ones when there is
    such a provider.  The comparator, the discount of past searches and
    the JSON reader are left open. *)
Definition host (comp : AutocompleteMatch -> AutocompleteMatch -> bool)
    (discount : Time -> Z) (json : string -> option Value) : Host :=
  mkHost 3
    (fun p is_keyword => is_keyword || negb (valid_keyword_provider p))
    comp to_lower discount (-2) (-1) "<enter query>"
    (fun t => String.append "Search " (short_name t))
    (fun t terms _ _ => mkGURL (String.append (url t) terms) true)
    (fun t terms =>
       mkGURL (String.append
                 (match suggestions_url t with Some u => u | None => "" end)
                 terms) true)
    (fun str => mkGURL str (negb (Nat.eqb (String.length str) 0)))
    (fun u _ _ => spec u)
    (fun str => String.prefix "http:" str)
    (fun _ _ st => [mkClass 0 st])
    (fun _ shown => shown)
    (fun _ => false)
    (fun _ _ => (None, ""))
    (fun _ => Some engine)
    (fun t => isSome t)
    json
    (fun _ _ => None).

Definition no_parts : Parsed :=
  let none := mkComponent 0 (-1) in
  mkParsed none none none none none none none none.

Definition input (typed : string) (ty : InputType) : AutocompleteInput :=
  mkInput typed ty "" no_parts false false.

(** The provider after the user typed [typed], while its sources hold
    the given results and nothing is outstanding. *)
Definition provider (typed : string) (history : HistoryResults)
    (suggestions : SuggestResults) : SearchProvider :=
  mkSearchProvider (Some profile) true [] true (input typed QUERY) ""
    (mkProviders (Some engine) None engine TemplateURL_empty)
    true false (mkConsumer [] 1) [] history 0 true None None None
    [] suggestions [] [] [].

(** A search at the time of the pass is not discounted. *)
Definition discount (t : Time) : Z := 0.

(** Two passes over the same two past searches, found in either order. *)
Definition pass_ba_bb : SearchProvider :=
  provider "b" [mkVisit "ba" 0; mkVisit "bb" 0] [].

Definition pass_bb_ba : SearchProvider :=
  provider "b" [mkVisit "bb" 0; mkVisit "ba" 0] [].

Definition match_ba : AutocompleteMatch :=
  mkMatch 1050 false "ba" (Some 1%nat)
    (mkGURL "http://example.test/search?q=ba" true) "ba"
    [mkClass 0 STYLE_DIM; mkClass 1 STYLE_NONE] "" [] GENERATED
    SEARCH_HISTORY None false.

Definition match_bb : AutocompleteMatch :=
  mkMatch 1050 false "bb" (Some 1%nat)
    (mkGURL "http://example.test/search?q=bb" true) "bb"
    [mkClass 0 STYLE_DIM; mkClass 1 STYLE_NONE] "" [] GENERATED
    SEARCH_HISTORY None false.

Definition match_b : AutocompleteMatch :=
  mkMatch 1300 false "b" (Some 1%nat)
    (mkGURL "http://example.test/search?q=b" true) "b"
    [mkClass 0 STYLE_NONE] "Search Example" [mkClass 0 STYLE_DIM] GENERATED
    SEARCH_WHAT_YOU_TYPED None false.

(** The provider while the fetch for [typed] is outstanding. *)
Definition fetcher (typed : string) : URLFetcher :=
  mkFetcher kDefaultProviderURLFetcherID
    (mkGURL (String.append "http://example.test/complete?q=" typed) true) None.

Definition waiting (typed : string) : SearchProvider :=
  mkSearchProvider (Some profile) true [] false (input typed QUERY) ""
    (mkProviders (Some engine) None engine TemplateURL_empty)
    true false (mkConsumer [] 1) [] [] 1 false None None
    (Some (fetcher typed)) [] [] [] [] [].

(** A reply whose second suggestion is a number:
    [abc, [abcdef, 42]], written without its quotes. *)
Definition reply_with_number : Value :=
  VList [VString "abc"; VList [VString "abcdef"; VInteger 42]].

(** A reply as it should be: [abc, [abcdef, abcxyz]]. *)
Definition reply_with_two : Value :=
  VList [VString "abc"; VList [VString "abcdef"; VString "abcxyz"]].

Definition reader (body : string) : option Value :=
  if String.eqb body "[abc,[abcdef,42]]" then Some reply_with_number
  else if String.eqb body "[abc,[abcdef,abcxyz]]" then Some reply_with_two
  else None.

Definition browser : Host := host more_relevant discount reader.

(** Input that is an https URL with a path. *)
Definition https_with_path : AutocompleteInput :=
  let none := mkComponent 0 (-1) in
  mkInput "https://example.test/private" URL "https"
    (mkParsed (mkComponent 0 5) none none (mkComponent 8 12) none
              (mkComponent 20 8) none none)
    false false.

End Example.

(** ** Notions for the further properties *)

(** The lists of remote results of one provider. *)
Definition SuggestResultsOf (keyword_results : bool) (s : SearchProvider)
    : SuggestResults :=
  if keyword_results then keyword_suggest_results_ s
  else default_suggest_results_ s.

Definition NavigationResultsOf (keyword_results : bool) (s : SearchProvider)
    : NavigationResults :=
  if keyword_results then keyword_navigation_results_ s
  else default_navigation_results_ s.

(** The strings of a reply that are not dropped for being empty. *)
Definition StoredSuggestions (strs : list string) : list string :=
  filter (fun str => negb (Nat.eqb (String.length str) 0)) strs.

Definition IsFetchStarted (e : Effect) : bool :=
  match e with FetchStarted _ _ => true | _ => false end.

Definition IsProviderUpdate (e : Effect) : bool :=
  match e with ProviderUpdate _ => true | _ => false end.

Section Further.

Context {H : Host}.

(** What the loop of ParseSuggestResults does with the string at
    index [i]. *)
Definition ParseStep (suggestion_str : string) (i : nat)
    (type_list description_list : option (list Value)) (is_keyword : bool)
    (s : SearchProvider) : SearchProvider :=
  if Nat.eqb (String.length suggestion_str) 0 then s
  else if IsNavigationType type_list i then
    let navigation_results :=
      if is_keyword then keyword_navigation_results_ s
      else default_navigation_results_ s in
    if Nat.ltb (List.length navigation_results) kMaxMatches then
      match description_list with
      | Some dl =>
          match nth_error dl i with
          | Some (VString site) =>
              let result_url := FixupURL suggestion_str in
              if is_valid result_url
              then PushNavigationResult is_keyword (mkNav result_url site) s
              else s
          | _ => s
          end
      | None => s
      end
    else s
  else
    let suggest_results :=
      if is_keyword then keyword_suggest_results_ s
      else default_suggest_results_ s in
    if Nat.ltb (List.length suggest_results) kMaxMatches
    then PushSuggestResult is_keyword suggestion_str s
    else s.



(** The history queries that StartOrStopHistoryQuery schedules when it
    starts afresh. *)
Definition HistoryQueries (s : SearchProvider) : list Effect :=
  (if valid_keyword_provider (providers_ s)
   then [HistoryQueryIssued (id (keyword_provider (providers_ s)))
           (keyword_input_text_ s) kMaxMatches]
   else [])
  ++ (if valid_default_provider (providers_ s)
      then [HistoryQueryIssued (id (default_provider (providers_ s)))
              (text (input_ s)) kMaxMatches]
      else []).

(** The fetches that Run starts. *)
Definition SuggestFetches (s : SearchProvider) : list Effect :=
  (if valid_suggest_for_keyword_provider (providers_ s)
   then [FetchStarted kKeywordProviderURLFetcherID
           (SuggestURL (keyword_provider (providers_ s))
              (keyword_input_text_ s))]
   else [])
  ++ (if valid_suggest_for_default_provider (providers_ s)
      then [FetchStarted kDefaultProviderURLFetcherID
              (SuggestURL (default_provider (providers_ s))
                 (text (input_ s)))]
      else []).

End Further.

(** The flag [history_request_pending_] agrees with the consumer: it is
    set exactly while the consumer holds a request; the handles of the
    requests held are distinct and were all handed out already. *)
Definition HistoryConsistent (s : SearchProvider) : Prop :=
  let requests := pending_requests (history_request_consumer_ s) in
  history_request_pending_ s = negb (Nat.eqb (List.length requests) 0)
  /\ NoDup (map fst requests)
  /\ Forall (fun r => fst r < next_handle (history_request_consumer_ s))
            requests.

(** States for the examples of the further properties. *)
Module Scenario.

(** A profile that is off the record. *)
Definition private_profile : Profile := mkProfile true true.

(** A new provider in a profile that is off the record. *)
Definition private_provider : SearchProvider :=
  SearchProvider_new (Some private_profile) (Example.input "" QUERY).

(** The provider after the user typed a forced query. *)
Definition forced (typed : string) (suggestions : SuggestResults)
    : SearchProvider :=
  set_input_ (Example.input typed FORCED_QUERY)
    (Example.provider typed [] suggestions).

(** The provider while one history request, with handle 1 and for the
    engine 1, is with the consumer. *)
Definition asked (typed : string) : SearchProvider :=
  set_history_request_pending_ true
    (set_history_request_consumer_ (mkConsumer [(1, 1)] 2)
       (Example.provider typed [] [])).

(** A second engine, the keyword provider of the state below. *)
Definition keyword_engine : TemplateURL :=
  mkTemplateURL 2 "k" "Keyword" "http://k.test/search?q="
    (Some "http://k.test/complete?q=").

(** The provider after the user typed the keyword of [keyword_engine]
    and [typed]: both providers are valid. *)
Definition two_providers (typed : string) : SearchProvider :=
  set_keyword_input_text_ typed
    (set_providers_
       (mkProviders (Some Example.engine) (Some keyword_engine)
          Example.engine keyword_engine)
       (Example.provider (String.append "k " typed) [] [])).

End Scenario.

(** The base score of a navigation suggestion. *)
Definition navigation_base (primary : bool) : Z :=
  if primary then 800 else 150.

(** ** Integers and sizes *)

Lemma wrap_in_range (z : Z) : Int.in_range z -> Int.wrap z = z.
Proof.
  unfold Int.in_range, Int.min_value, Int.max_value, Int.wrap. intros Hz.
  rewrite Z.mod_small; lia.
Qed.

Lemma wrap_range (z : Z) : Int.in_range (Int.wrap z).
Proof.
  unfold Int.in_range, Int.min_value, Int.max_value, Int.wrap.
  pose proof (Z.mod_pos_bound (z + 2 ^ 31) (2 ^ 32) ltac:(lia)). lia.
Qed.

Lemma InputType_eqb_eq (a b : InputType) : InputType_eqb a b = true <-> a = b.
Proof. destruct a, b; simpl; split; intros E; congruence. Qed.

Lemma of_size_t_diff_exact (num_results result_number : nat) :
  (result_number < num_results)%nat ->
  Z.of_nat num_results <= Int.max_value ->
  Int.of_size_t_diff num_results result_number
  = Z.of_nat num_results - 1 - Z.of_nat result_number.
Proof.
  intros Hlt Hmax. unfold Int.of_size_t_diff.
  apply wrap_in_range.
  unfold Int.in_range, Int.min_value, Int.max_value in *. lia.
Qed.

Section Relevance.

Context {H : Host}.

(** C5: a suggestion at zero-based [rank] among [num_results] scores
    [base + (num_results - 1 - rank)], the base being 600 for the primary
    provider and input that is not a URL, 300 for the primary provider
    and URL input, 100 for the other provider; so a later rank scores
    strictly less.  Sizes are those an [int] holds with room for the
    base. *)
Theorem suggestion_relevance (s : SearchProvider) (num_results rank : nat)
    (is_keyword : bool) :
  (rank < num_results)%nat ->
  Z.of_nat num_results <= Int.max_value - 600 ->
  CalculateRelevanceForSuggestion num_results rank is_keyword s
  = suggestion_base (is_primary_provider (providers_ s) is_keyword)
                    (InputType_eqb (type (input_ s)) URL)
    + (Z.of_nat num_results - 1 - Z.of_nat rank)
  /\ forall later : nat,
       (rank < later)%nat -> (later < num_results)%nat ->
       CalculateRelevanceForSuggestion num_results later is_keyword s
       < CalculateRelevanceForSuggestion num_results rank is_keyword s.
Proof.
  intros Hrank Hsize.
  assert (Hval : forall r, (r < num_results)%nat ->
            CalculateRelevanceForSuggestion num_results r is_keyword s
            = suggestion_base (is_primary_provider (providers_ s) is_keyword)
                              (InputType_eqb (type (input_ s)) URL)
              + (Z.of_nat num_results - 1 - Z.of_nat r)).
  { intros r Hr. unfold CalculateRelevanceForSuggestion, Int.add.
    rewrite of_size_t_diff_exact by (unfold Int.max_value in *; lia).
    unfold suggestion_base.
    destruct (is_primary_provider (providers_ s) is_keyword),
             (InputType_eqb (type (input_ s)) URL); simpl negb; cbv iota;
      apply wrap_in_range;
      unfold Int.in_range, Int.min_value, Int.max_value in *; lia. }
  split.
  - apply Hval, Hrank.
  - intros later Hl1 Hl2. rewrite (Hval later Hl2), (Hval rank Hrank). lia.
Qed.

End Relevance.

Section Gate.

Context {H : Host}.

(** C7: when the profile is not off the record, a provider has a suggest
    endpoint and the user has opted in, the gate lets FORCED_QUERY input
    through; for other input whose scheme is none of http, https and ftp
    it answers whether the input is a QUERY; with one of those schemes it
    refuses input with a username, port, query or fragment, and refuses
    https input with a path; and it lets the remaining input through. *)
Theorem suggest_gate (s : SearchProvider) (profile : Profile) :
  profile_ s = Some profile ->
  IsOffTheRecord profile = false ->
  valid_suggest_for_keyword_provider (providers_ s)
  || valid_suggest_for_default_provider (providers_ s) = true ->
  kSearchSuggestEnabled profile = true ->
  let i := input_ s in
  let web_scheme :=
    String.eqb (scheme i) "http" || String.eqb (scheme i) "https"
    || String.eqb (scheme i) "ftp" in
  let private_part :=
    is_nonempty (username (parts i)) || is_nonempty (port (parts i))
    || is_nonempty (query (parts i)) || is_nonempty (ref (parts i)) in
  (type i = FORCED_QUERY -> IsQuerySuitableForSuggest s = true)
  /\ (type i <> FORCED_QUERY -> web_scheme = false ->
      (IsQuerySuitableForSuggest s = true <-> type i = QUERY))
  /\ (type i <> FORCED_QUERY -> web_scheme = true -> private_part = true ->
      IsQuerySuitableForSuggest s = false)
  /\ (type i <> FORCED_QUERY -> scheme i = "https" ->
      is_nonempty (path (parts i)) = true ->
      IsQuerySuitableForSuggest s = false)
  /\ (type i <> FORCED_QUERY -> web_scheme = true -> private_part = false ->
      (scheme i = "https" -> is_nonempty (path (parts i)) = false) ->
      IsQuerySuitableForSuggest s = true).
Proof.
  intros Hp Hotr Hsug Hpref i web_scheme private_part.
  unfold IsQuerySuitableForSuggest. rewrite Hp, Hotr, Hpref.
  fold i.
  replace (negb (valid_suggest_for_keyword_provider (providers_ s))
           && negb (valid_suggest_for_default_provider (providers_ s)))
    with false
    by (destruct (valid_suggest_for_keyword_provider (providers_ s)),
                 (valid_suggest_for_default_provider (providers_ s));
        simpl in *; congruence).
  cbn [orb negb].
  assert (Hforced : type i <> FORCED_QUERY ->
                    InputType_eqb (type i) FORCED_QUERY = false).
  { intros Hn. destruct (InputType_eqb (type i) FORCED_QUERY) eqn:E; auto.
    apply InputType_eqb_eq in E. contradiction. }
  subst web_scheme private_part.
  repeat split.
  - intros Ht. rewrite Ht. reflexivity.
  - rewrite (Hforced H0).
    destruct (String.eqb (scheme i) "http"), (String.eqb (scheme i) "https"),
      (String.eqb (scheme i) "ftp"); try discriminate.
    cbn [negb andb]. intros E. apply InputType_eqb_eq, E.
  - rewrite (Hforced H0).
    destruct (String.eqb (scheme i) "http"), (String.eqb (scheme i) "https"),
      (String.eqb (scheme i) "ftp"); try discriminate.
    cbn [negb andb]. intros E. apply InputType_eqb_eq, E.
  - intros Hn Hw Hpriv. rewrite (Hforced Hn).
    fold (parts i). rewrite Hpriv.
    destruct (String.eqb (scheme i) "http"), (String.eqb (scheme i) "https"),
      (String.eqb (scheme i) "ftp"); try discriminate; reflexivity.
  - intros Hn Hs Hpath. rewrite (Hforced Hn). rewrite Hs. cbn.
    fold (parts i). rewrite Hpath.
    destruct (is_nonempty (username (parts i)) || is_nonempty (port (parts i))
              || is_nonempty (query (parts i)) || is_nonempty (ref (parts i)));
      reflexivity.
  - intros Hn Hw Hpriv Hpath. rewrite (Hforced Hn).
    fold (parts i). rewrite Hpriv.
    destruct (String.eqb (scheme i) "https") eqn:Es.
    + apply String.eqb_eq in Es. rewrite (Hpath Es).
      destruct (String.eqb (scheme i) "http"), (String.eqb (scheme i) "ftp");
        reflexivity.
    + destruct (String.eqb (scheme i) "http"), (String.eqb (scheme i) "ftp");
        try discriminate; reflexivity.
Qed.

End Gate.

(** ** The pass: size of the result and the done flag *)

Section Pass.

Context {H : Host}.

Lemma sort_insert_length {A : Type} (comp : A -> A -> bool) (x : A)
    (l : list A) :
  List.length (sort_insert comp x l) = S (List.length l).
Proof.
  induction l as [|y rest IH]; simpl; [reflexivity|].
  destruct (comp y x); simpl; [now rewrite IH | reflexivity].
Qed.

Lemma partial_sort_length {A : Type} (comp : A -> A -> bool) (middle : nat)
    (l : list A) :
  List.length (partial_sort comp middle l) = List.length l.
Proof.
  unfold partial_sort. induction l as [|x rest IH]; simpl; [reflexivity|].
  now rewrite sort_insert_length, IH.
Qed.

Lemma pass_matches (s : SearchProvider) :
  exists sorted : ACMatches,
    List.length sorted = List.length (matches_ (UnsortedMatches s))
    /\ List.length (matches_ (ConvertResultsToAutocompleteMatches s))
       = Nat.min (kMaxMatches + 1) (List.length sorted).
Proof.
  exists (partial_sort MoreRelevant
            (Nat.min (kMaxMatches + 1)
               (List.length (matches_ (UnsortedMatches s))))
            (matches_ (UnsortedMatches s))).
  split; [apply partial_sort_length|].
  unfold ConvertResultsToAutocompleteMatches.
  cbv zeta. cbn [matches_ set_matches_ set_done_ UpdateStarredStateOfMatches].
  destruct (Nat.ltb_spec (kMaxMatches + 1)
              (List.length
                 (partial_sort MoreRelevant
                    (Nat.min (kMaxMatches + 1)
                       (List.length (matches_ (UnsortedMatches s))))
                    (matches_ (UnsortedMatches s))))) as [Hlt|Hge];
    cbn [matches_ set_matches_]; rewrite length_map.
  - rewrite length_firstn. reflexivity.
  - lia.
Qed.

Lemma Stop_matches (s : SearchProvider) : matches_ (Stop s) = matches_ s.
Proof. reflexivity. Qed.

Lemma Stop_effects (s : SearchProvider) : effects_ (Stop s) = effects_ s.
Proof. reflexivity. Qed.

(** The ways out of [Start]: it stops with the matches it holds, which
    are none or the placeholder, or it runs a pass. *)
Lemma Start_outcome (input : AutocompleteInput) (minimal_changes : bool)
    (s : SearchProvider) :
  (exists t, Start input minimal_changes s = Stop t
             /\ (List.length (matches_ t) <= 1)%nat)
  \/ (exists t, Start input minimal_changes s
                = ConvertResultsToAutocompleteMatches t).
Proof.
  unfold Start.
  set (s0 := set_matches_ [] s).
  assert (H0 : matches_ s0 = []) by reflexivity.
  clearbody s0. cbv zeta.
  destruct (profile_ s0) as [profile|];
    [|left; exists s0; rewrite H0; split; [reflexivity|simpl; lia]].
  destruct (InputType_eqb (type input) INVALID);
    [left; exists s0; rewrite H0; split; [reflexivity|simpl; lia]|].
  destruct (GetSubstitutingTemplateURLForInput profile input)
    as [substituting remaining_input].
  set (s1 := set_keyword_input_text_ remaining_input s0).
  assert (H1 : matches_ s1 = []) by (rewrite <- H0; reflexivity).
  clearbody s1.
  match goal with
  | |- context [TemplateURL_ptr_eqb ?k ?d] =>
      set (kp0 := k); set (dp := d); clearbody kp0 dp
  end.
  set (kp := if TemplateURL_ptr_eqb kp0 dp then None else kp0).
  clearbody kp.
  destruct (negb (isSome dp) && negb (isSome kp));
    [left; exists s1; rewrite H1; split; [reflexivity|simpl; lia]|].
  match goal with
  | |- context [set_providers_ _ ?t] => set (s2 := t)
  end.
  match goal with
  | |- context [set_providers_ ?p s2] =>
      assert (H2 : matches_ (set_providers_ p s2) = [])
  end.
  { subst s2.
    match goal with
    | |- context [if ?c then _ else _] => destruct c
    end; (rewrite <- H1; reflexivity). }
  match goal with
  | |- context [set_providers_ ?p s2] =>
      set (s3 := set_providers_ p s2) in *; clearbody s3; clear s2
  end.
  destruct (Nat.eqb (String.length (text input)) 0).
  - left. destruct dp as [dp|].
    + eexists. split; [reflexivity|].
      change (List.length (matches_ s3 ++ [PlaceholderMatch dp]) <= 1)%nat.
      rewrite H2. simpl. lia.
    + exists s3. split; [reflexivity|]. rewrite H2. simpl. lia.
  - right. eexists. reflexivity.
Qed.

Lemma log_matches (e : Effect) (s : SearchProvider) :
  matches_ (log e s) = matches_ s.
Proof. reflexivity. Qed.

Lemma log_done (e : Effect) (s : SearchProvider) : done_ (log e s) = done_ s.
Proof. reflexivity. Qed.

Lemma log_history_request_pending (e : Effect) (s : SearchProvider) :
  history_request_pending_ (log e s) = history_request_pending_ s.
Proof. reflexivity. Qed.

Lemma log_suggest_results_pending (e : Effect) (s : SearchProvider) :
  suggest_results_pending_ (log e s) = suggest_results_pending_ s.
Proof. reflexivity. Qed.

Lemma log_history_request_consumer (e : Effect) (s : SearchProvider) :
  history_request_consumer_ (log e s) = history_request_consumer_ s.
Proof. reflexivity. Qed.

Lemma OnURLFetchComplete_pass source ok code data (s : SearchProvider) :
  exists t e,
    OnURLFetchComplete source ok code data s
    = log e (ConvertResultsToAutocompleteMatches t).
Proof. unfold OnURLFetchComplete. eexists. eexists. reflexivity. Qed.

Lemma OnGotMostRecentKeywordSearchTerms_pass handle results
    (s : SearchProvider) :
  exists t e,
    OnGotMostRecentKeywordSearchTerms handle results s
    = log e (ConvertResultsToAutocompleteMatches t).
Proof.
  unfold OnGotMostRecentKeywordSearchTerms. eexists. eexists. reflexivity.
Qed.

(** C1: after every pass [matches_] holds at most [kMaxMatches + 1]
    entries, whatever the sources hold at the time; the same is true
    after each of the member functions that run a pass. *)
Theorem matches_bounded (s : SearchProvider) :
  (List.length (matches_ (ConvertResultsToAutocompleteMatches s))
   <= kMaxMatches + 1)%nat
  /\ (forall source ok code data,
        (List.length (matches_ (OnURLFetchComplete source ok code data s))
         <= kMaxMatches + 1)%nat)
  /\ (forall handle results,
        (List.length
           (matches_ (OnGotMostRecentKeywordSearchTerms handle results s))
         <= kMaxMatches + 1)%nat)
  /\ (forall input minimal_changes,
        (List.length (matches_ (Start input minimal_changes s))
         <= kMaxMatches + 1)%nat).
Proof.
  assert (Hpass : forall t,
            (List.length (matches_ (ConvertResultsToAutocompleteMatches t))
             <= kMaxMatches + 1)%nat).
  { intros t. destruct (pass_matches t) as [sorted [_ Hlen]].
    rewrite Hlen. apply Nat.le_min_l. }
  split; [apply Hpass|]. split; [|split].
  - intros source ok code data.
    destruct (OnURLFetchComplete_pass source ok code data s) as [t [e Ht]].
    rewrite Ht, log_matches. apply Hpass.
  - intros handle results.
    destruct (OnGotMostRecentKeywordSearchTerms_pass handle results s)
      as [t [e Ht]].
    rewrite Ht, log_matches. apply Hpass.
  - intros input minimal_changes.
    destruct (Start_outcome input minimal_changes s)
      as [[t [Ht Hlen]]|[t Ht]]; rewrite Ht.
    + rewrite Stop_matches. lia.
    + apply Hpass.
Qed.

(** A pass writes [matches_] and [done_] and nothing else. *)
Lemma UnsortedMatches_frame (s : SearchProvider) :
  UnsortedMatches s = set_matches_ (matches_ (UnsortedMatches s)) s.
Proof.
  unfold UnsortedMatches, AddNavigationResultsToMatches.
  cbv zeta.
  change (keyword_navigation_results_
            (set_matches_ (MatchMap_values (CollectMatches s)) s))
    with (keyword_navigation_results_ s).
  destruct (keyword_navigation_results_ s) as [|kfront krest].
  - change (default_navigation_results_
              (set_matches_ (MatchMap_values (CollectMatches s)) s))
      with (default_navigation_results_ s).
    destruct (default_navigation_results_ s); reflexivity.
  - match goal with
    | |- context [default_navigation_results_ (set_matches_ ?m ?t)] =>
        change (default_navigation_results_ (set_matches_ m t))
          with (default_navigation_results_ s)
    end.
    destruct (default_navigation_results_ s); reflexivity.
Qed.

Lemma ConvertResultsToAutocompleteMatches_frame (s : SearchProvider) :
  ConvertResultsToAutocompleteMatches s
  = set_done_
      (negb (history_request_pending_ s) && (suggest_results_pending_ s =? 0))
      (set_matches_ (matches_ (ConvertResultsToAutocompleteMatches s)) s).
Proof.
  unfold ConvertResultsToAutocompleteMatches.
  rewrite (UnsortedMatches_frame s).
  generalize (matches_ (UnsortedMatches s)). intros unsorted.
  cbv zeta.
  match goal with
  | |- context [if ?c then _ else _] => destruct c
  end; reflexivity.
Qed.

(** The parser writes the four lists of remote results and nothing else. *)
Lemma ParseSuggestionList_frame (result_list : list Value) :
  forall i type_list description_list is_keyword s,
    let s' := snd (ParseSuggestionList result_list i type_list
                     description_list is_keyword s) in
    s' = set_results (keyword_suggest_results_ s')
           (default_suggest_results_ s') (keyword_navigation_results_ s')
           (default_navigation_results_ s') s.
Proof.
  induction result_list as [|v rest IH]; intros i tl dl k s.
  - destruct s; reflexivity.
  - cbn [ParseSuggestionList].
    destruct (GetAsString v) as [str|]; [|destruct s; reflexivity].
    match goal with
    | |- context [ParseSuggestionList rest (S i) tl dl k ?t] =>
        set (s1 := t);
        assert (Hs1 : forall a b c d,
                  set_results a b c d s1 = set_results a b c d s)
    end.
    { intros a b c d. subst s1.
      unfold PushNavigationResult, PushSuggestResult.
      repeat match goal with
             | |- context [if ?c then _ else _] => destruct c
             | |- context [match ?o with Some _ => _ | None => _ end] =>
                 destruct o
             | |- context [match ?v with VString _ => _ | _ => _ end] =>
                 destruct v
             end; reflexivity. }
    clearbody s1. cbv zeta. rewrite <- Hs1.
    exact (IH (S i) tl dl k s1).
Qed.

Lemma ParseSuggestResults_frame root_val is_keyword input_text
    (s : SearchProvider) :
  let s' := snd (ParseSuggestResults root_val is_keyword input_text s) in
  s' = set_results (keyword_suggest_results_ s')
         (default_suggest_results_ s') (keyword_navigation_results_ s')
         (default_navigation_results_ s') s.
Proof.
  unfold ParseSuggestResults.
  destruct root_val as [| | | | | |d|root_list];
    try (destruct s; reflexivity).
  destruct (Nat.ltb (List.length root_list) 2); [destruct s; reflexivity|].
  destruct (nth_error root_list 0) as [[| | | |query_str| | |]|];
    try (destruct s; reflexivity).
  destruct (nth_error root_list 1) as [[| | | | | | |result_list]|];
    try (destruct s; reflexivity).
  destruct (negb (String.eqb query_str input_text));
    [destruct s; reflexivity|].
  apply ParseSuggestionList_frame.
Qed.

Lemma pass_done (s : SearchProvider) :
  done_ (ConvertResultsToAutocompleteMatches s)
  = negb (history_request_pending_ s) && (suggest_results_pending_ s =? 0).
Proof. rewrite ConvertResultsToAutocompleteMatches_frame. reflexivity. Qed.

Lemma pass_keeps_pending (s : SearchProvider) :
  history_request_pending_ (ConvertResultsToAutocompleteMatches s)
  = history_request_pending_ s
  /\ suggest_results_pending_ (ConvertResultsToAutocompleteMatches s)
     = suggest_results_pending_ s
  /\ history_request_consumer_ (ConvertResultsToAutocompleteMatches s)
     = history_request_consumer_ s.
Proof.
  rewrite ConvertResultsToAutocompleteMatches_frame. repeat split.
Qed.

(** The state on which the fetch callback runs its pass: one fetch less
    is outstanding, the history flag is as it was. *)
Lemma OnURLFetchComplete_counts source ok code data (s : SearchProvider) :
  exists t e,
    OnURLFetchComplete source ok code data s
    = log e (ConvertResultsToAutocompleteMatches t)
    /\ suggest_results_pending_ t = Int.sub (suggest_results_pending_ s) 1
    /\ history_request_pending_ t = history_request_pending_ s.
Proof.
  unfold OnURLFetchComplete. eexists. eexists.
  split; [reflexivity|].
  set (s1 := set_suggest_results_pending_
               (Int.sub (suggest_results_pending_ s) 1) s).
  destruct (ok && (code =? 200)); [|split; reflexivity].
  match goal with
  | |- context [Deserialize ?d] => destruct (Deserialize d) as [root_val|]
  end; [|split; reflexivity].
  match goal with
  | |- context [ParseSuggestResults root_val ?k ?i s1] =>
      pose proof (ParseSuggestResults_frame root_val k i s1) as Hf;
      destruct (ParseSuggestResults root_val k i s1) as [parsed s2]
  end.
  cbv zeta in Hf. cbn [snd] in Hf. rewrite Hf. split; reflexivity.
Qed.

(** The state on which the history callback runs its pass: the flag is
    cleared when the request being answered is the only one the consumer
    still holds. *)
Lemma OnGotMostRecentKeywordSearchTerms_counts handle results
    (s : SearchProvider) :
  exists t e,
    OnGotMostRecentKeywordSearchTerms handle results s
    = log e (ConvertResultsToAutocompleteMatches t)
    /\ suggest_results_pending_ t = suggest_results_pending_ s
    /\ history_request_pending_ t
       = (if Nat.eqb (PendingRequestCount (history_request_consumer_ s)) 1
          then false else history_request_pending_ s)
    /\ history_request_consumer_ t = history_request_consumer_ s.
Proof.
  unfold OnGotMostRecentKeywordSearchTerms. eexists. eexists.
  split; [reflexivity|].
  match goal with
  | |- context [if ?c then set_keyword_history_results_ _ _ else _] =>
      destruct c
  end;
    match goal with
    | |- context [PendingRequestCount (history_request_consumer_ ?t)] =>
        change (history_request_consumer_ t)
          with (history_request_consumer_ s)
    end;
    destruct (Nat.eqb (PendingRequestCount (history_request_consumer_ s)) 1);
    repeat split.
Qed.

(** C8: after a pass [done_] holds exactly when no history request is
    flagged pending and the count of outstanding fetches is zero.  A pass
    run by the fetch callback sees the count already lowered by the
    fetch being answered, and a pass run by the history callback sees the
    flag already cleared when the request being answered is the last one,
    although that request is still with the consumer. *)
Theorem done_after_pass (s : SearchProvider) :
  (let s' := ConvertResultsToAutocompleteMatches s in
   done_ s' = true
   <-> history_request_pending_ s' = false /\ suggest_results_pending_ s' = 0)
  /\ (forall source ok code data,
        let s' := OnURLFetchComplete source ok code data s in
        suggest_results_pending_ s' = Int.sub (suggest_results_pending_ s) 1
        /\ (done_ s' = true
            <-> history_request_pending_ s' = false
                /\ suggest_results_pending_ s' = 0))
  /\ (forall handle results,
        let s' := OnGotMostRecentKeywordSearchTerms handle results s in
        history_request_pending_ s'
        = (if Nat.eqb (PendingRequestCount (history_request_consumer_ s)) 1
           then false else history_request_pending_ s)
        /\ history_request_consumer_ s' = history_request_consumer_ s
        /\ (done_ s' = true
            <-> history_request_pending_ s' = false
                /\ suggest_results_pending_ s' = 0)).
Proof.
  assert (Hpass : forall t,
            let t' := ConvertResultsToAutocompleteMatches t in
            done_ t' = true
            <-> history_request_pending_ t' = false
                /\ suggest_results_pending_ t' = 0).
  { intros t t'. subst t'.
    destruct (pass_keeps_pending t) as [Hh [Hs _]].
    rewrite pass_done, Hh, Hs, andb_true_iff, negb_true_iff, Z.eqb_eq.
    reflexivity. }
  split; [apply Hpass|]. split.
  - intros source ok code data s'. subst s'.
    destruct (OnURLFetchComplete_counts source ok code data s)
      as [t [e [Ht [Hs Hh]]]].
    rewrite Ht, log_done, log_history_request_pending,
      log_suggest_results_pending.
    split; [|apply Hpass].
    destruct (pass_keeps_pending t) as [_ [Hs' _]].
    rewrite Hs'. exact Hs.
  - intros handle results s'. subst s'.
    destruct (OnGotMostRecentKeywordSearchTerms_counts handle results s)
      as [t [e [Ht [Hs [Hh Hc]]]]].
    rewrite Ht, log_done, log_history_request_pending,
      log_suggest_results_pending, log_history_request_consumer.
    destruct (pass_keeps_pending t) as [Hh' [_ Hc']].
    split; [rewrite Hh'; exact Hh|]. split; [rewrite Hc'; exact Hc|].
    apply Hpass.
Qed.

End Pass.

(** ** The verbatim score *)

Section WhatYouTyped.

Context {H : Host}.

Lemma StartOrStopHistoryQuery_input (minimal_changes : bool)
    (s : SearchProvider) :
  input_ (StartOrStopHistoryQuery minimal_changes s) = input_ s.
Proof.
  unfold StartOrStopHistoryQuery.
  repeat match goal with
         | |- context [if ?c then _ else _] => destruct c
         end; reflexivity.
Qed.

Lemma StartOrStopSuggestQuery_input (minimal_changes : bool)
    (s : SearchProvider) :
  input_ (StartOrStopSuggestQuery minimal_changes s) = input_ s.
Proof.
  unfold StartOrStopSuggestQuery.
  repeat match goal with
         | |- context [if ?c then _ else _] => destruct c
         end; reflexivity.
Qed.

(** [Start] runs its pass on the input it was given, which is then not
    INVALID. *)
Lemma Start_pass_input (input : AutocompleteInput) (minimal_changes : bool)
    (s : SearchProvider) :
  (exists t, Start input minimal_changes s = Stop t)
  \/ (exists t, Start input minimal_changes s
                = ConvertResultsToAutocompleteMatches t
                /\ input_ t = input /\ type input <> INVALID).
Proof.
  unfold Start.
  generalize (set_matches_ [] s). intros s0. cbv zeta.
  destruct (profile_ s0) as [profile|]; [|left; eexists; reflexivity].
  destruct (InputType_eqb (type input) INVALID) eqn:Hvalid;
    [left; eexists; reflexivity|].
  assert (Hty : type input <> INVALID).
  { intros E. apply InputType_eqb_eq in E. congruence. }
  destruct (GetSubstitutingTemplateURLForInput profile input)
    as [substituting remaining_input].
  generalize (set_keyword_input_text_ remaining_input s0). intros s1.
  match goal with
  | |- context [TemplateURL_ptr_eqb ?k ?d] =>
      set (kp0 := k); set (dp := d); clearbody kp0 dp
  end.
  set (kp := if TemplateURL_ptr_eqb kp0 dp then None else kp0).
  clearbody kp.
  destruct (negb (isSome dp) && negb (isSome kp));
    [left; eexists; reflexivity|].
  match goal with
  | |- context [set_providers_ ?pr ?t] =>
      generalize (set_providers_ pr t)
  end.
  intros s3.
  destruct (Nat.eqb (String.length (text input)) 0).
  - left. eexists. reflexivity.
  - right. eexists. split; [reflexivity|]. split; [|exact Hty].
    rewrite StartOrStopSuggestQuery_input, StartOrStopHistoryQuery_input.
    reflexivity.
Qed.

(** C3: with a keyword provider the verbatim score is 250; without one it
    is 1300 for UNKNOWN, QUERY and FORCED_QUERY input, 1150 for
    REQUESTED_URL and 850 for URL; the only other type, INVALID, runs into
    NOTREACHED, and nothing else does; and the pass that [Start] runs does
    not get there. *)
Theorem what_you_typed_relevance (s : SearchProvider) :
  (valid_keyword_provider (providers_ s) = true ->
   CalculateRelevanceForWhatYouTyped s = Returned 250)
  /\ (valid_keyword_provider (providers_ s) = false ->
      match type (input_ s) with
      | UNKNOWN | QUERY | FORCED_QUERY =>
          CalculateRelevanceForWhatYouTyped s = Returned 1300
      | REQUESTED_URL => CalculateRelevanceForWhatYouTyped s = Returned 1150
      | URL => CalculateRelevanceForWhatYouTyped s = Returned 850
      | INVALID => CalculateRelevanceForWhatYouTyped s = NotReached 0
      end)
  /\ ((exists v, CalculateRelevanceForWhatYouTyped s = NotReached v)
      <-> valid_keyword_provider (providers_ s) = false
          /\ type (input_ s) = INVALID)
  /\ (forall input minimal_changes,
        (exists t, Start input minimal_changes s = Stop t)
        \/ (exists t,
              Start input minimal_changes s
              = ConvertResultsToAutocompleteMatches t
              /\ forall v, CalculateRelevanceForWhatYouTyped t
                           <> NotReached v)).
Proof.
  assert (Hnot : forall t,
            (exists v, CalculateRelevanceForWhatYouTyped t = NotReached v)
            <-> valid_keyword_provider (providers_ t) = false
                /\ type (input_ t) = INVALID).
  { intros t. unfold CalculateRelevanceForWhatYouTyped.
    destruct (valid_keyword_provider (providers_ t)).
    - split; [intros [v Hv]; discriminate|intros [Hf _]; discriminate].
    - split.
      + intros [v Hv]. split; [reflexivity|].
        destruct (type (input_ t)); try discriminate; reflexivity.
      + intros [_ Ht]. rewrite Ht. exists 0. reflexivity. }
  split; [|split; [|split; [apply Hnot|]]].
  - intros Hk. unfold CalculateRelevanceForWhatYouTyped. rewrite Hk.
    reflexivity.
  - intros Hk. unfold CalculateRelevanceForWhatYouTyped. rewrite Hk.
    destruct (type (input_ s)); reflexivity.
  - intros input minimal_changes.
    destruct (Start_pass_input input minimal_changes s)
      as [Hstop|[t [Ht [Hin Hty]]]]; [left; exact Hstop|].
    right. exists t. split; [exact Ht|].
    intros v Hv.
    destruct (proj1 (Hnot t) (ex_intro _ v Hv)) as [_ Hinvalid].
    rewrite Hin in Hinvalid. contradiction.
Qed.

End WhatYouTyped.

(** ** The match map *)

Section MatchMapFacts.

Lemma MatchMap_find_place (key : string) (v : AutocompleteMatch)
    (mp : MatchMap) (k : string) :
  MatchMap_find key mp = None ->
  MatchMap_find k (MatchMap_place key v mp)
  = if String.eqb key k then Some v else MatchMap_find k mp.
Proof.
  induction mp as [|[k' v'] rest IH]; intros Hnone.
  - reflexivity.
  - simpl in Hnone. destruct (String.eqb k' key) eqn:Ek'; [discriminate|].
    simpl. destruct (String.ltb key k'); simpl.
    + reflexivity.
    + rewrite (IH Hnone).
      destruct (String.eqb k' k) eqn:E1, (String.eqb key k) eqn:E2;
        try reflexivity.
      apply String.eqb_eq in E1, E2. subst.
      rewrite String.eqb_refl in Ek'. discriminate.
Qed.

Lemma MatchMap_find_assign (key : string) (v : AutocompleteMatch)
    (mp : MatchMap) (k : string) :
  MatchMap_find k (MatchMap_assign key v mp)
  = if String.eqb key k
    then match MatchMap_find key mp with Some _ => Some v | None => None end
    else MatchMap_find k mp.
Proof.
  induction mp as [|[k' v'] rest IH]; simpl.
  - destruct (String.eqb key k); reflexivity.
  - destruct (String.eqb k' key) eqn:Ek'; simpl.
    + apply String.eqb_eq in Ek'. subst k'.
      destruct (String.eqb key k); reflexivity.
    + rewrite IH.
      destruct (String.eqb k' k) eqn:E1, (String.eqb key k) eqn:E2;
        try reflexivity.
      apply String.eqb_eq in E1, E2. subst.
      rewrite String.eqb_refl in Ek'. discriminate.
Qed.

Lemma MatchMap_find_In (k : string) (mp : MatchMap) (v : AutocompleteMatch) :
  MatchMap_find k mp = Some v -> In (k, v) mp.
Proof.
  induction mp as [|[k' v'] rest IH]; simpl; [discriminate|].
  destruct (String.eqb k' k) eqn:E.
  - intros [= ->]. apply String.eqb_eq in E. subst. now left.
  - intros Hf. right. now apply IH.
Qed.

Lemma MatchMap_find_None (k : string) (mp : MatchMap) :
  MatchMap_find k mp = None <-> ~ In k (MatchMap_keys mp).
Proof.
  induction mp as [|[k' v'] rest IH]; unfold MatchMap_keys in *; simpl.
  - tauto.
  - destruct (String.eqb k' k) eqn:E.
    + apply String.eqb_eq in E. split; [discriminate|]. intros Hn.
      exfalso. apply Hn. now left.
    + apply String.eqb_neq in E. rewrite IH. tauto.
Qed.

Lemma MatchMap_place_keys (key : string) (v : AutocompleteMatch)
    (mp : MatchMap) :
  Permutation (MatchMap_keys (MatchMap_place key v mp)) (key :: MatchMap_keys mp).
Proof.
  induction mp as [|[k' v'] rest IH]; simpl.
  - apply Permutation_refl.
  - unfold MatchMap_keys in *. destruct (String.ltb key k'); simpl.
    + apply Permutation_refl.
    + eapply perm_trans; [apply perm_skip, IH|apply perm_swap].
Qed.

Lemma MatchMap_assign_keys (key : string) (v : AutocompleteMatch)
    (mp : MatchMap) :
  MatchMap_keys (MatchMap_assign key v mp) = MatchMap_keys mp.
Proof.
  unfold MatchMap_keys.
  induction mp as [|[k' v'] rest IH]; simpl; [reflexivity|].
  destruct (String.eqb k' key); simpl; [reflexivity|now rewrite IH].
Qed.

End MatchMapFacts.

(** ** One match for each key *)

Section Deduplication.

Context {H : Host}.

Lemma AddCandidate_find (s : SearchProvider) (mp : MatchMap) (c : Candidate)
    (k : string) :
  MatchMap_find k (AddCandidate s mp c)
  = if String.eqb (KeyOf c) k
    then match MatchMap_find (KeyOf c) mp with
         | None => Some (MatchOf s c)
         | Some old =>
             if Z.gtb (candidate_relevance c) (relevance old)
             then Some (MatchOf s c) else Some old
         end
    else MatchMap_find k mp.
Proof.
  unfold AddCandidate, AddMatchToMap, MatchMap_insert.
  fold (MatchOf s c). fold (KeyOf c). cbv zeta.
  destruct (MatchMap_find (KeyOf c) mp) as [old|] eqn:Hold.
  - change (relevance (MatchOf s c)) with (candidate_relevance c).
    destruct (Z.gtb (candidate_relevance c) (relevance old)).
    + rewrite MatchMap_find_assign, Hold. reflexivity.
    + destruct (String.eqb (KeyOf c) k) eqn:E; [|reflexivity].
      apply String.eqb_eq in E. subst k. exact Hold.
  - apply MatchMap_find_place, Hold.
Qed.

Lemma AddCandidate_keys (s : SearchProvider) (mp : MatchMap) (c : Candidate) :
  NoDup (MatchMap_keys mp) -> NoDup (MatchMap_keys (AddCandidate s mp c)).
Proof.
  intros Hnd. unfold AddCandidate, AddMatchToMap, MatchMap_insert.
  fold (MatchOf s c). fold (KeyOf c). cbv zeta.
  destruct (MatchMap_find (KeyOf c) mp) as [old|] eqn:Hold.
  - destruct (Z.gtb (relevance (MatchOf s c)) (relevance old));
      [rewrite MatchMap_assign_keys|]; exact Hnd.
  - eapply Permutation_NoDup.
    + apply Permutation_sym, MatchMap_place_keys.
    + constructor; [|exact Hnd]. apply MatchMap_find_None, Hold.
Qed.

Lemma AddCandidate_tracks (s : SearchProvider) (seen : list Candidate)
    (mp : MatchMap) (c : Candidate) :
  map_tracks s seen mp -> map_tracks s (seen ++ [c]) (AddCandidate s mp c).
Proof.
  intros Hinv k. rewrite AddCandidate_find.
  destruct (String.eqb (KeyOf c) k) eqn:Ek.
  - apply String.eqb_eq in Ek. subst k.
    specialize (Hinv (KeyOf c)).
    destruct (MatchMap_find (KeyOf c) mp) as [old|].
    + destruct Hinv as [before [c0 [after [Hcs [Hk [Hm [Hb Ha]]]]]]].
      assert (Hrel : relevance old = candidate_relevance c0)
        by (rewrite Hm; reflexivity).
      destruct (Z.gtb_spec (candidate_relevance c) (relevance old))
        as [Hgt|Hle].
      * exists seen, c, []. rewrite Hrel in Hgt.
        repeat split; try reflexivity.
        -- intros d Hd Hkd. rewrite Hcs in Hd.
           apply in_app_or in Hd. destruct Hd as [Hd|[Hd|Hd]].
           ++ specialize (Hb d Hd Hkd). lia.
           ++ subst d. lia.
           ++ specialize (Ha d Hd Hkd). lia.
        -- intros d [].
      * exists before, c0, (after ++ [c]). rewrite Hrel in Hle.
        repeat split; try assumption.
        -- rewrite Hcs, <- app_assoc. reflexivity.
        -- intros d Hd Hkd. apply in_app_or in Hd.
           destruct Hd as [Hd|[Hd|[]]]; [now apply Ha|subst d; lia].
    + exists seen, c, []. repeat split; try reflexivity.
      * intros d Hd Hkd. exfalso. exact (Hinv d Hd Hkd).
      * intros d [].
  - apply String.eqb_neq in Ek. specialize (Hinv k).
    destruct (MatchMap_find k mp) as [m|].
    + destruct Hinv as [before [c0 [after [Hcs [Hk [Hm [Hb Ha]]]]]]].
      exists before, c0, (after ++ [c]). repeat split; try assumption.
      * rewrite Hcs, <- app_assoc. reflexivity.
      * intros d Hd Hkd. apply in_app_or in Hd.
        destruct Hd as [Hd|[Hd|[]]]; [now apply Ha|].
        subst d. contradiction.
    + intros d Hd. apply in_app_or in Hd.
      destruct Hd as [Hd|[Hd|[]]]; [now apply Hinv|subst d; exact Ek].
Qed.

Lemma AddCandidates_tracks (s : SearchProvider) (cs : list Candidate) :
  forall seen mp,
    map_tracks s seen mp -> NoDup (MatchMap_keys mp) ->
    map_tracks s (seen ++ cs) (AddCandidates s cs mp)
    /\ NoDup (MatchMap_keys (AddCandidates s cs mp)).
Proof.
  induction cs as [|c rest IH]; intros seen mp Hinv Hnd.
  - rewrite app_nil_r. split; assumption.
  - replace (seen ++ c :: rest) with ((seen ++ [c]) ++ rest)
      by (rewrite <- app_assoc; reflexivity).
    apply IH; [apply AddCandidate_tracks, Hinv|apply AddCandidate_keys, Hnd].
Qed.

Lemma MatchMap_In_find (mp : MatchMap) (k : string) (m : AutocompleteMatch) :
  NoDup (MatchMap_keys mp) -> In (k, m) mp -> MatchMap_find k mp = Some m.
Proof.
  unfold MatchMap_keys.
  induction mp as [|[k' v'] rest IH]; simpl; intros Hnd Hin; [contradiction|].
  inversion Hnd as [|? ? Hnot Hnd']; subst.
  destruct Hin as [Heq|Hin].
  - injection Heq as -> ->. now rewrite String.eqb_refl.
  - destruct (String.eqb k' k) eqn:E; [|now apply IH].
    apply String.eqb_eq in E. subst k'. exfalso. apply Hnot.
    change k with (fst (k, m)). now apply in_map.
Qed.

Lemma fold_left_mapped {A B C : Type} (f : A -> C -> A) (g : B -> C)
    (l : list B) :
  forall a, fold_left f (map g l) a = fold_left (fun a x => f a (g x)) l a.
Proof. induction l as [|x rest IH]; intros a; simpl; [reflexivity|apply IH]. Qed.

(** The map of a pass is the one its candidates build. *)
Lemma CollectMatches_candidates (s : SearchProvider) :
  CollectMatches s = AddCandidates s (Candidates s) [].
Proof.
  unfold CollectMatches, Candidates, AddCandidates.
  cbv zeta. rewrite !fold_left_app.
  unfold AddSuggestResultsToMap, AddHistoryResultsToMap, SuggestCandidates,
    HistoryCandidates.
  rewrite !fold_left_mapped.
  destruct (valid_default_provider (providers_ s)); reflexivity.
Qed.

(** C2: the map built from the candidates [cs] of a pass holds no key
    twice; every candidate finds a match under its key; and the match
    under a key is that of the first candidate among those of highest
    relevance with this key, so a later candidate replaces it only with
    a strictly higher relevance and none that was dropped is more
    relevant than it. *)
Theorem one_survivor_per_key (s : SearchProvider) (cs : list Candidate) :
  NoDup (MatchMap_keys (AddCandidates s cs []))
  /\ (forall c, In c cs ->
        exists m, In (KeyOf c, m) (AddCandidates s cs []))
  /\ (forall k m, In (k, m) (AddCandidates s cs []) -> survivor_of s cs k m)
  /\ CollectMatches s = AddCandidates s (Candidates s) [].
Proof.
  destruct (AddCandidates_tracks s cs [] []) as [Hinv Hnd].
  { intros k c []. }
  { constructor. }
  simpl in Hinv. split; [exact Hnd|]. split; [|split].
  - intros c Hc. specialize (Hinv (KeyOf c)).
    destruct (MatchMap_find (KeyOf c) (AddCandidates s cs [])) as [m|] eqn:Hf.
    + exists m. apply MatchMap_find_In, Hf.
    + exfalso. exact (Hinv c Hc eq_refl).
  - intros k m Hin. specialize (Hinv k).
    rewrite (MatchMap_In_find _ _ _ Hnd Hin) in Hinv. exact Hinv.
  - apply CollectMatches_candidates.
Qed.

End Deduplication.

(** ** Start on empty input *)

Section EmptyInput.

Context {H : Host}.

(** What [Stop] leaves behind, whatever it is given. *)
Lemma Stop_state (s : SearchProvider) :
  matches_ (Stop s) = matches_ s
  /\ effects_ (Stop s) = effects_ s
  /\ done_ (Stop s) = true
  /\ pending_requests (history_request_consumer_ (Stop s)) = []
  /\ history_request_pending_ (Stop s) = false
  /\ have_history_results_ (Stop s) = false
  /\ suggest_results_pending_ (Stop s) = 0
  /\ have_suggest_results_ (Stop s) = false
  /\ timer_ (Stop s) = None
  /\ keyword_fetcher_ (Stop s) = None
  /\ default_fetcher_ (Stop s) = None
  /\ keyword_history_results_ (Stop s) = []
  /\ default_history_results_ (Stop s) = []
  /\ keyword_suggest_results_ (Stop s) = []
  /\ default_suggest_results_ (Stop s) = []
  /\ keyword_navigation_results_ (Stop s) = []
  /\ default_navigation_results_ (Stop s) = [].
Proof. repeat split. Qed.

(** C10: with a profile, a default provider that supports replacement
    and input that is valid but has no text, [Start] leaves exactly one
    match, the placeholder: its contents are the string of
    IDS_EMPTY_KEYWORD_VALUE, classified NONE from offset 0, its
    description is the search description of the default provider,
    classified DIM from offset 0, and every other field is as the default
    constructor leaves it (no relevance, nothing to put into the edit
    field, no destination).  [Start] asks nothing of the history service,
    the timer or the network, and stops: the provider is done, nothing is
    pending and every list of results is empty. *)
Theorem start_with_empty_text (input : AutocompleteInput)
    (minimal_changes : bool) (s : SearchProvider) (profile : Profile)
    (dp : TemplateURL) :
  profile_ s = Some profile ->
  type input <> INVALID ->
  text input = "" ->
  GetDefaultSearchProvider profile = Some dp ->
  SupportsReplacement (Some dp) = true ->
  let s' := Start input minimal_changes s in
  matches_ s'
  = [mkMatch 0 false "" None (mkGURL "" false)
       IDS_EMPTY_KEYWORD_VALUE [mkClass 0 STYLE_NONE]
       (SearchDescription dp) [mkClass 0 STYLE_DIM]
       TYPED SEARCH_WHAT_YOU_TYPED None false]
  /\ effects_ s' = effects_ s
  /\ done_ s' = true
  /\ pending_requests (history_request_consumer_ s') = []
  /\ history_request_pending_ s' = false
  /\ have_history_results_ s' = false
  /\ suggest_results_pending_ s' = 0
  /\ have_suggest_results_ s' = false
  /\ timer_ s' = None
  /\ keyword_fetcher_ s' = None
  /\ default_fetcher_ s' = None
  /\ keyword_history_results_ s' = []
  /\ default_history_results_ s' = []
  /\ keyword_suggest_results_ s' = []
  /\ default_suggest_results_ s' = []
  /\ keyword_navigation_results_ s' = []
  /\ default_navigation_results_ s' = [].
Proof.
  intros Hprofile Hvalid Htext Hdefault Hreplace s'.
  assert (Hstart : exists t,
            Start input minimal_changes s
            = Stop (set_matches_ (matches_ t ++ [PlaceholderMatch dp]) t)
            /\ matches_ t = [] /\ effects_ t = effects_ s).
  { unfold Start.
    set (s0 := set_matches_ [] s).
    assert (H0 : matches_ s0 = [] /\ effects_ s0 = effects_ s)
      by (split; reflexivity).
    assert (Hp0 : profile_ s0 = Some profile) by exact Hprofile.
    clearbody s0. cbv zeta. rewrite Hp0.
    destruct (InputType_eqb (type input) INVALID) eqn:E;
      [apply InputType_eqb_eq in E; contradiction|].
    rewrite Hdefault, Hreplace, Htext.
    destruct (GetSubstitutingTemplateURLForInput profile input)
      as [substituting remaining_input].
    set (s1 := set_keyword_input_text_ remaining_input s0).
    assert (H1 : matches_ s1 = [] /\ effects_ s1 = effects_ s)
      by (destruct H0 as [Hm He]; rewrite <- Hm, <- He; split; reflexivity).
    clearbody s1.
    match goal with
    | |- context [TemplateURL_ptr_eqb ?k (if negb true then _ else _)] =>
        set (kp0 := k); clearbody kp0
    end.
    cbn [negb].
    set (kp := if TemplateURL_ptr_eqb kp0 (Some dp) then None else kp0).
    clearbody kp.
    cbn [isSome negb andb String.length Nat.eqb].
    match goal with
    | |- context [set_providers_ _ ?t] => set (s2 := t)
    end.
    match goal with
    | |- context [set_providers_ ?p s2] =>
        assert (H2 : matches_ (set_providers_ p s2) = []
                     /\ effects_ (set_providers_ p s2) = effects_ s)
    end.
    { subst s2. destruct H1 as [Hm He].
      match goal with
      | |- context [if ?c then _ else _] => destruct c
      end; rewrite <- Hm, <- He; split; reflexivity. }
    match goal with
    | |- context [set_providers_ ?p s2] =>
        set (s3 := set_providers_ p s2) in *; clearbody s3; clear s2
    end.
    exists s3. split; [reflexivity|exact H2]. }
  destruct Hstart as [t [Hs [Hm He]]]. subst s'. rewrite Hs.
  pose proof (Stop_state
                (set_matches_ (matches_ t ++ [PlaceholderMatch dp]) t)) as Hst.
  rewrite Hm in *.
  destruct Hst as [Hst1 [Hst2 Hst]].
  split; [rewrite Hst1; reflexivity|].
  split; [rewrite Hst2, <- He; reflexivity|exact Hst].
Qed.

End EmptyInput.

(** ** Replies that cannot be read *)

Section Replies.

Context {H : Host}.

Lemma ParseSuggestResults_bad_shape (root_val : Value) (keyword_results : bool)
    (input_text : string) (s : SearchProvider) :
  SuggestionList root_val input_text = None ->
  ParseSuggestResults root_val keyword_results input_text s = (false, s).
Proof.
  unfold SuggestionList, ParseSuggestResults.
  destruct root_val as [| | | | | |d|root_list]; try reflexivity.
  destruct root_list as [|first [|second others]]; try reflexivity.
  cbn [List.length Nat.ltb Nat.leb nth_error].
  destruct first as [| | | |query_str| | |]; try reflexivity;
    destruct second as [| | | | | | |result_list]; try reflexivity.
  destruct (String.eqb query_str input_text); [discriminate|].
  intros _. reflexivity.
Qed.

Lemma ParseSuggestResults_good_shape (root_val : Value)
    (keyword_results : bool) (input_text : string) (s : SearchProvider)
    (result_list : list Value) :
  SuggestionList root_val input_text = Some result_list ->
  exists type_list description_list,
    ParseSuggestResults root_val keyword_results input_text s
    = ParseSuggestionList result_list 0 type_list description_list
        keyword_results s.
Proof.
  unfold SuggestionList, ParseSuggestResults.
  destruct root_val as [| | | | | |d|root_list]; try discriminate.
  destruct root_list as [|first [|second others]]; try discriminate.
  - destruct first; discriminate.
  - destruct first as [| | | |query_str| | |]; try discriminate.
    destruct second as [| | | | | | |found]; try discriminate.
    cbn [List.length Nat.ltb Nat.leb nth_error].
    destruct (String.eqb query_str input_text); [|discriminate].
    intros [= ->]. eexists. eexists. reflexivity.
Qed.

(** The loop stops at the first element that is no string: what follows
    it is not looked at. *)
Lemma ParseSuggestionList_stops (before : list Value) (v : Value)
    (after : list Value) :
  GetAsString v = None ->
  forall i type_list description_list keyword_results s,
    ParseSuggestionList (before ++ v :: after) i type_list description_list
      keyword_results s
    = (false,
       snd (ParseSuggestionList before i type_list description_list
              keyword_results s)).
Proof.
  intros Hv. induction before as [|u rest IH]; intros i tl dl k s.
  - cbn [app ParseSuggestionList]. rewrite Hv. reflexivity.
  - cbn [app ParseSuggestionList].
    destruct (GetAsString u) as [str|]; [|reflexivity].
    apply IH.
Qed.

(** The callback on a reply that was fetched and read as [root_val]. *)
Lemma OnURLFetchComplete_parsed source data (root_val : Value)
    (s : SearchProvider) :
  Deserialize (DecodeReply source data) = Some root_val ->
  exists e,
    OnURLFetchComplete source true 200 data s
    = log e
        (ConvertResultsToAutocompleteMatches
           (let r :=
              ParseSuggestResults root_val (IsKeywordFetcher source s)
                (FetchedText source s)
                (set_suggest_results_pending_
                   (Int.sub (suggest_results_pending_ s) 1) s) in
            set_have_suggest_results_ (fst r) (snd r))).
Proof.
  intros Hread. unfold OnURLFetchComplete.
  fold (DecodeReply source data). rewrite Hread.
  cbn [andb Z.eqb Pos.eqb].
  change (match
             keyword_fetcher_
               (set_suggest_results_pending_
                  (Int.sub (suggest_results_pending_ s) 1) s)
           with
           | Some f => fetcher_id f =? fetcher_id source
           | None => false
           end) with (IsKeywordFetcher source s).
  change (if IsKeywordFetcher source s
          then keyword_input_text_
                 (set_suggest_results_pending_
                    (Int.sub (suggest_results_pending_ s) 1) s)
          else text
                 (input_
                    (set_suggest_results_pending_
                       (Int.sub (suggest_results_pending_ s) 1) s)))
    with (FetchedText source s).
  destruct (ParseSuggestResults root_val (IsKeywordFetcher source s)
              (FetchedText source s)
              (set_suggest_results_pending_
                 (Int.sub (suggest_results_pending_ s) 1) s)) as [ok s2].
  eexists. reflexivity.
Qed.

Lemma pass_keeps_have_suggest_results (s : SearchProvider) :
  have_suggest_results_ (ConvertResultsToAutocompleteMatches s)
  = have_suggest_results_ s.
Proof. rewrite ConvertResultsToAutocompleteMatches_frame. reflexivity. Qed.

Lemma log_have_suggest_results (e : Effect) (s : SearchProvider) :
  have_suggest_results_ (log e s) = have_suggest_results_ s.
Proof. reflexivity. Qed.

(** C9, as the code has it: a reply of the wrong shape (no list, fewer
    than two elements, another query echoed, no list of suggestions)
    makes ParseSuggestResults fail with nothing stored, and the callback
    runs its pass on the state it had, less the fetch that ended; a
    suggestion that is no string makes ParseSuggestResults fail with
    nothing stored from that element on.  Either way the callback clears
    [have_suggest_results_] and ends in its pass. *)
Theorem unreadable_reply (s : SearchProvider) (source : URLFetcher)
    (data : string) (root_val : Value) :
  Deserialize (DecodeReply source data) = Some root_val ->
  let keyword_results := IsKeywordFetcher source s in
  let input_text := FetchedText source s in
  (SuggestionList root_val input_text = None ->
   ParseSuggestResults root_val keyword_results input_text s = (false, s)
   /\ exists e,
        OnURLFetchComplete source true 200 data s
        = log e
            (ConvertResultsToAutocompleteMatches
               (set_have_suggest_results_ false
                  (set_suggest_results_pending_
                     (Int.sub (suggest_results_pending_ s) 1) s))))
  /\ (forall before v after,
        SuggestionList root_val input_text = Some (before ++ v :: after) ->
        GetAsString v = None ->
        (exists type_list description_list,
           ParseSuggestResults root_val keyword_results input_text s
           = (false,
              snd (ParseSuggestionList before 0 type_list description_list
                     keyword_results s)))
        /\ have_suggest_results_ (OnURLFetchComplete source true 200 data s)
           = false).
Proof.
  intros Hread keyword_results input_text.
  destruct (OnURLFetchComplete_parsed source data root_val s Hread)
    as [e He].
  fold keyword_results input_text in He.
  split.
  - intros Hshape. split.
    + apply ParseSuggestResults_bad_shape, Hshape.
    + exists e. rewrite He.
      rewrite (ParseSuggestResults_bad_shape root_val keyword_results
                 input_text _ Hshape).
      reflexivity.
  - intros before v after Hshape Hv.
    assert (Hfail : forall t,
              exists type_list description_list,
                ParseSuggestResults root_val keyword_results input_text t
                = (false,
                   snd (ParseSuggestionList before 0 type_list
                          description_list keyword_results t))).
    { intros t.
      destruct (ParseSuggestResults_good_shape root_val keyword_results
                  input_text t _ Hshape) as [tl [dl Hp]].
      exists tl, dl. rewrite Hp. apply ParseSuggestionList_stops, Hv. }
    split; [apply Hfail|].
    rewrite He, log_have_suggest_results, pass_keeps_have_suggest_results.
    match goal with
    | |- context [ParseSuggestResults root_val keyword_results input_text ?t] =>
        destruct (Hfail t) as [tl [dl Hp]]; rewrite Hp
    end.
    reflexivity.
Qed.

End Replies.

(** With the reply [abc, [abcdef, 42]] to the fetch for "abc" the parser
    fails, and yet the pass of the callback shows "abcdef", a suggestion
    of that reply. *)
Lemma failed_reply_shows_suggestion :
  let s := Example.waiting "abc" in
  let s' := OnURLFetchComplete (H := Example.browser) (Example.fetcher "abc")
              true 200 "[abc,[abcdef,42]]" s in
  fst (ParseSuggestResults (H := Example.browser) Example.reply_with_number
         false "abc" s) = false
  /\ have_suggest_results_ s' = false
  /\ default_suggest_results_ s' = ["abcdef"]
  /\ map contents (matches_ s') = ["abc"; "abcdef"]
  /\ map match_type (matches_ s') = [SEARCH_WHAT_YOU_TYPED; SEARCH_SUGGEST].
Proof. vm_compute. repeat split. Qed.

Lemma unreadable_reply_witness :
  let s := Example.waiting "abc" in
  Deserialize (Host := Example.browser)
    (DecodeReply (H := Example.browser) (Example.fetcher "abc")
       "[abc,[abcdef,42]]")
  = Some Example.reply_with_number
  /\ have_suggest_results_
       (OnURLFetchComplete (H := Example.browser) (Example.fetcher "abc")
          true 200 "[abc,[abcdef,42]]" s) = false.
Proof.
  split; [reflexivity|].
  apply (proj2 (unreadable_reply (H := Example.browser)
                  (Example.waiting "abc") (Example.fetcher "abc")
                  "[abc,[abcdef,42]]" Example.reply_with_number eq_refl)
           [VString "abcdef"] (VInteger 42) []); reflexivity.
Defined.

(** ** The order of strings *)

Lemma ltb_lt (a b : string) : String.ltb a b = true <-> String_as_OT.lt a b.
Proof.
  unfold String.ltb. rewrite <- String_as_OT.cmp_lt. unfold String_as_OT.cmp.
  destruct (String.compare a b); split; congruence.
Qed.

Lemma ltb_irrefl (a : string) : String.ltb a a = false.
Proof.
  destruct (String.ltb a a) eqn:E; [|reflexivity].
  apply ltb_lt in E. exfalso. exact (String_as_OT.lt_not_eq a a E eq_refl).
Qed.

Lemma ltb_trans (a b c : string) :
  String.ltb a b = true -> String.ltb b c = true -> String.ltb a c = true.
Proof.
  rewrite !ltb_lt. apply String_as_OT.lt_trans.
Qed.

Lemma ltb_total (a b : string) :
  String.ltb a b = false -> String.ltb b a = false -> a = b.
Proof.
  unfold String.ltb. rewrite (String.compare_antisym b a).
  destruct (String.compare a b) eqn:E; simpl; try discriminate.
  intros _ _. apply String.compare_eq_iff, E.
Qed.

(** ** Sorting *)

Section Sorting.

Variable A : Type.
Variable comp : A -> A -> bool.

Lemma sort_insert_Permutation (x : A) (l : list A) :
  Permutation (sort_insert comp x l) (x :: l).
Proof.
  induction l as [|y rest IH]; simpl.
  - apply Permutation_refl.
  - destruct (comp y x).
    + eapply perm_trans; [apply perm_skip, IH|apply perm_swap].
    + apply Permutation_refl.
Qed.

Lemma partial_sort_Permutation (middle : nat) (l : list A) :
  Permutation (partial_sort comp middle l) l.
Proof.
  unfold partial_sort. induction l as [|x rest IH]; simpl.
  - apply Permutation_refl.
  - eapply perm_trans; [apply sort_insert_Permutation|apply perm_skip, IH].
Qed.

Hypothesis comp_order : StrictWeakOrder comp.

Lemma comp_asymmetric (a b : A) : comp a b = true -> comp b a = false.
Proof.
  intros Hab. destruct (comp b a) eqn:Hba; [|reflexivity].
  pose proof (swo_transitive comp comp_order a b a Hab Hba) as Haa.
  rewrite (swo_irreflexive comp comp_order a) in Haa. discriminate.
Qed.

(** What is not before [b] is not before anything [b] is not after. *)
Lemma comp_not_before (a b c : A) :
  comp a b = false -> comp b c = false -> comp a c = false.
Proof.
  intros Hab Hbc. destruct (comp a c) eqn:Hac; [|reflexivity].
  destruct (comp b a) eqn:Hba.
  - rewrite (swo_transitive comp comp_order b a c Hba Hac) in Hbc.
    discriminate.
  - destruct (comp c b) eqn:Hcb.
    + rewrite (swo_transitive comp comp_order a c b Hac Hcb) in Hab.
      discriminate.
    + destruct (swo_incomparable comp comp_order a b c Hab Hba Hbc Hcb)
        as [Hac' _].
      congruence.
Qed.

Lemma sort_insert_sorted (x : A) (l : list A) :
  StronglySorted (fun a b => comp b a = false) l ->
  StronglySorted (fun a b => comp b a = false) (sort_insert comp x l).
Proof.
  induction l as [|y rest IH]; intros Hs; simpl.
  - constructor; constructor.
  - inversion Hs as [|? ? Hrest Hall]; subst.
    destruct (comp y x) eqn:Hyx.
    + constructor; [apply IH, Hrest|].
      rewrite Forall_forall in *. intros z Hz.
      apply (Permutation_in _ (sort_insert_Permutation x rest)) in Hz.
      destruct Hz as [<-|Hz]; [apply comp_asymmetric, Hyx|apply Hall, Hz].
    + constructor; [exact Hs|]. constructor; [exact Hyx|].
      rewrite Forall_forall in *. intros z Hz.
      apply (comp_not_before z y x); [apply Hall, Hz|exact Hyx].
Qed.

Lemma partial_sort_sorted (middle : nat) (l : list A) :
  StronglySorted (fun a b => comp b a = false) (partial_sort comp middle l).
Proof.
  unfold partial_sort. induction l as [|x rest IH]; simpl.
  - constructor.
  - apply sort_insert_sorted, IH.
Qed.

End Sorting.

Lemma StronglySorted_nth_error {A : Type} (R : A -> A -> Prop) (l : list A) :
  StronglySorted R l ->
  forall i j a b,
    (i < j)%nat -> nth_error l i = Some a -> nth_error l j = Some b -> R a b.
Proof.
  induction 1 as [|x rest Hrest IH Hall]; intros i j a b Hij Hi Hj.
  - destruct i; discriminate.
  - destruct j as [|j]; [lia|]. simpl in Hj.
    destruct i as [|i]; simpl in Hi.
    + injection Hi as <-. rewrite Forall_forall in Hall.
      apply Hall. eapply nth_error_In, Hj.
    + apply (IH i j); [lia|assumption|assumption].
Qed.

Lemma StronglySorted_firstn {A : Type} (R : A -> A -> Prop) (n : nat)
    (l : list A) :
  StronglySorted R l -> StronglySorted R (firstn n l).
Proof.
  intros Hs. revert n. induction Hs as [|x rest Hrest IH Hall]; intros n.
  - rewrite firstn_nil. constructor.
  - destruct n as [|n]; simpl; [constructor|].
    constructor; [apply IH|].
    rewrite Forall_forall in *. intros z Hz.
    apply Hall. revert Hz. clear. revert n.
    induction rest as [|y rest IH]; intros n Hz.
    + rewrite firstn_nil in Hz. contradiction.
    + destruct n as [|n]; simpl in Hz; [contradiction|].
      destruct Hz as [<-|Hz]; [now left|right; eapply IH, Hz].
Qed.

(** ** The order of the result *)

Section ResultOrder.

Context {H : Host}.

Lemma AddNavigationResultsToMatches_matches
    (navigation_results : NavigationResults) (keyword_results : bool)
    (s : SearchProvider) (shown : ACMatches) :
  matches_ (AddNavigationResultsToMatches navigation_results keyword_results
              (set_matches_ shown s))
  = shown
    ++ match navigation_results with
       | [] => []
       | front :: _ =>
           [NavigationToMatch front
              (CalculateRelevanceForNavigation
                 (if keyword_results
                  then List.length (keyword_navigation_results_ s)
                  else List.length (default_navigation_results_ s))
                 0 keyword_results s)
              keyword_results s]
       end
  /\ AddNavigationResultsToMatches navigation_results keyword_results
       (set_matches_ shown s)
     = set_matches_
         (matches_ (AddNavigationResultsToMatches navigation_results
                      keyword_results (set_matches_ shown s)))
         s.
Proof.
  destruct navigation_results as [|front rest].
  - split; [symmetry; apply app_nil_r|reflexivity].
  - split; reflexivity.
Qed.

Lemma UnsortedMatches_matches (s : SearchProvider) :
  matches_ (UnsortedMatches s)
  = MatchMap_values (CollectMatches s) ++ NavigationMatches s.
Proof.
  unfold UnsortedMatches, NavigationMatches.
  generalize (MatchMap_values (CollectMatches s)). intros values.
  cbv zeta.
  change (keyword_navigation_results_ (set_matches_ values s))
    with (keyword_navigation_results_ s).
  destruct (AddNavigationResultsToMatches_matches
              (keyword_navigation_results_ s) true s values) as [Hm Hf].
  rewrite Hf.
  match goal with
  | |- context [default_navigation_results_ (set_matches_ ?m s)] =>
      change (default_navigation_results_ (set_matches_ m s))
        with (default_navigation_results_ s)
  end.
  rewrite (proj1 (AddNavigationResultsToMatches_matches _ false s _)).
  rewrite Hm, <- app_assoc. reflexivity.
Qed.

Lemma pass_matches_sorted (s : SearchProvider) :
  matches_ (ConvertResultsToAutocompleteMatches s)
  = map WithStarredState
      (firstn (kMaxMatches + 1)
         (partial_sort MoreRelevant
            (Nat.min (kMaxMatches + 1)
               (List.length (matches_ (UnsortedMatches s))))
            (matches_ (UnsortedMatches s)))).
Proof.
  unfold ConvertResultsToAutocompleteMatches.
  generalize (UnsortedMatches s). intros u.
  cbv zeta. cbn [matches_ set_matches_].
  destruct (Nat.ltb_spec (kMaxMatches + 1)
              (List.length
                 (partial_sort MoreRelevant
                    (Nat.min (kMaxMatches + 1) (List.length (matches_ u)))
                    (matches_ u)))) as [Hlt|Hge].
  - reflexivity.
  - rewrite firstn_all2 by exact Hge. reflexivity.
Qed.

Lemma MatchMap_place_sorted (key : string) (v : AutocompleteMatch)
    (mp : MatchMap) :
  MatchMap_find key mp = None ->
  StronglySorted (fun a b => String.ltb a b = true) (MatchMap_keys mp) ->
  StronglySorted (fun a b => String.ltb a b = true)
                 (MatchMap_keys (MatchMap_place key v mp)).
Proof.
  unfold MatchMap_keys.
  induction mp as [|[k' v'] rest IH]; intros Hnone Hs; simpl.
  - constructor; constructor.
  - simpl in Hnone, Hs. destruct (String.eqb k' key) eqn:Ek; [discriminate|].
    apply String.eqb_neq in Ek.
    inversion Hs as [|? ? Hrest Hall]; subst.
    destruct (String.ltb key k') eqn:Hlt; simpl.
    + constructor; [exact Hs|]. constructor; [exact Hlt|].
      rewrite Forall_forall in *. intros z Hz.
      eapply ltb_trans; [exact Hlt|apply Hall, Hz].
    + constructor; [apply IH; assumption|].
      rewrite Forall_forall in *. intros z Hz.
      apply (Permutation_in _ (MatchMap_place_keys key v rest)) in Hz.
      destruct Hz as [<-|Hz]; [|apply Hall, Hz].
      destruct (String.ltb k' key) eqn:Hgt; [reflexivity|].
      exfalso. apply Ek. symmetry. apply ltb_total; assumption.
Qed.

Lemma AddCandidates_sorted (s : SearchProvider) (cs : list Candidate) :
  forall mp,
    StronglySorted (fun a b => String.ltb a b = true) (MatchMap_keys mp) ->
    StronglySorted (fun a b => String.ltb a b = true)
                   (MatchMap_keys (AddCandidates s cs mp)).
Proof.
  induction cs as [|c rest IH]; intros mp Hs; [exact Hs|].
  apply IH. unfold AddCandidate, AddMatchToMap, MatchMap_insert. cbv zeta.
  destruct (MatchMap_find (ToLower (query_string c)) mp) as [old|] eqn:Hold.
  - match goal with
    | |- context [if ?c then _ else _] => destruct c
    end; [rewrite MatchMap_assign_keys|]; exact Hs.
  - apply MatchMap_place_sorted; assumption.
Qed.

Lemma MatchMap_find_above (k : string) (rest : MatchMap) :
  StronglySorted (fun a b => String.ltb a b = true) (k :: MatchMap_keys rest) ->
  forall k', k' = k \/ String.ltb k' k = true -> MatchMap_find k' rest = None.
Proof.
  intros Hs k' Hk'. apply MatchMap_find_None. intros Hin.
  inversion Hs as [|? ? _ Hall]; subst.
  rewrite Forall_forall in Hall. specialize (Hall k' Hin).
  destruct Hk' as [->|Hlt].
  - rewrite ltb_irrefl in Hall. discriminate.
  - pose proof (ltb_trans _ _ _ Hlt Hall) as Hkk.
    rewrite ltb_irrefl in Hkk. discriminate.
Qed.

(** Two maps with the same entries are the same list. *)
Lemma MatchMap_ext (mp1 : MatchMap) :
  forall mp2,
    StronglySorted (fun a b => String.ltb a b = true) (MatchMap_keys mp1) ->
    StronglySorted (fun a b => String.ltb a b = true) (MatchMap_keys mp2) ->
    (forall k, MatchMap_find k mp1 = MatchMap_find k mp2) ->
    mp1 = mp2.
Proof.
  induction mp1 as [|[k1 v1] r1 IH]; intros [|[k2 v2] r2] Hs1 Hs2 Hfind.
  - reflexivity.
  - specialize (Hfind k2). simpl in Hfind.
    rewrite String.eqb_refl in Hfind. discriminate.
  - specialize (Hfind k1). simpl in Hfind.
    rewrite String.eqb_refl in Hfind. discriminate.
  - change (MatchMap_keys ((k1, v1) :: r1)) with (k1 :: MatchMap_keys r1)
      in Hs1.
    change (MatchMap_keys ((k2, v2) :: r2)) with (k2 :: MatchMap_keys r2)
      in Hs2.
    assert (Hk : k1 = k2).
    { apply ltb_total.
      - destruct (String.ltb k1 k2) eqn:Hlt; [|reflexivity].
        specialize (Hfind k1). simpl in Hfind.
        rewrite String.eqb_refl in Hfind.
        destruct (String.eqb k2 k1) eqn:E.
        + apply String.eqb_eq in E. subst.
          rewrite ltb_irrefl in Hlt. discriminate.
        + rewrite (MatchMap_find_above k2 r2 Hs2 k1 (or_intror Hlt)) in Hfind.
          discriminate.
      - destruct (String.ltb k2 k1) eqn:Hlt; [|reflexivity].
        specialize (Hfind k2). simpl in Hfind.
        rewrite String.eqb_refl in Hfind.
        destruct (String.eqb k1 k2) eqn:E.
        + apply String.eqb_eq in E. subst.
          rewrite ltb_irrefl in Hlt. discriminate.
        + rewrite (MatchMap_find_above k1 r1 Hs1 k2 (or_intror Hlt)) in Hfind.
          discriminate. }
    subst k2.
    assert (Hv : v1 = v2).
    { specialize (Hfind k1). simpl in Hfind.
      rewrite String.eqb_refl in Hfind. congruence. }
    subst v2. f_equal.
    apply IH.
    + inversion Hs1; assumption.
    + inversion Hs2; assumption.
    + intros k. specialize (Hfind k). simpl in Hfind.
      destruct (String.eqb k1 k) eqn:E; [|exact Hfind].
      apply String.eqb_eq in E. subst k.
      rewrite (MatchMap_find_above k1 r1 Hs1 k1 (or_introl eq_refl)).
      rewrite (MatchMap_find_above k1 r2 Hs2 k1 (or_introl eq_refl)).
      reflexivity.
Qed.

Lemma NoDup_map_injective {A B : Type} (f : A -> B) (l : list A) (a b : A) :
  NoDup (map f l) -> In a l -> In b l -> f a = f b -> a = b.
Proof.
  induction l as [|x rest IH]; simpl; intros Hnd Ha Hb Hab; [contradiction|].
  inversion Hnd as [|? ? Hnot Hnd']; subst.
  destruct Ha as [->|Ha], Hb as [->|Hb].
  - reflexivity.
  - exfalso. apply Hnot. rewrite Hab. apply in_map, Hb.
  - exfalso. apply Hnot. rewrite <- Hab. apply in_map, Ha.
  - apply IH; assumption.
Qed.

(** Candidates of pairwise distinct keys build the same map in whatever
    order they come. *)
Lemma AddCandidates_any_order (s : SearchProvider) (cs cs' : list Candidate) :
  Permutation cs cs' -> NoDup (map KeyOf cs) ->
  AddCandidates s cs [] = AddCandidates s cs' [].
Proof.
  intros Hperm Hnd.
  destruct (AddCandidates_tracks s cs [] []) as [Ht _];
    [intros k c []|constructor|].
  destruct (AddCandidates_tracks s cs' [] []) as [Ht' _];
    [intros k c []|constructor|].
  simpl in Ht, Ht'.
  apply MatchMap_ext; try (apply AddCandidates_sorted; constructor).
  intros k. specialize (Ht k). specialize (Ht' k).
  destruct (MatchMap_find k (AddCandidates s cs [])) as [m|],
           (MatchMap_find k (AddCandidates s cs' [])) as [m'|].
  - destruct Ht as [b1 [c [a1 [Hcs [Hk [Hm _]]]]]].
    destruct Ht' as [b2 [c' [a2 [Hcs' [Hk' [Hm' _]]]]]].
    assert (Hc : In c cs) by (rewrite Hcs; apply in_elt).
    assert (Hc' : In c' cs).
    { apply (Permutation_in _ (Permutation_sym Hperm)).
      rewrite Hcs'. apply in_elt. }
    rewrite Hm, Hm'. f_equal. f_equal.
    apply (NoDup_map_injective KeyOf cs); congruence.
  - destruct Ht as [b1 [c [a1 [Hcs [Hk _]]]]]. exfalso.
    apply (Ht' c); [|exact Hk].
    apply (Permutation_in _ Hperm). rewrite Hcs. apply in_elt.
  - destruct Ht' as [b2 [c' [a2 [Hcs' [Hk' _]]]]]. exfalso.
    apply (Ht c'); [|exact Hk'].
    apply (Permutation_in _ (Permutation_sym Hperm)).
    rewrite Hcs'. apply in_elt.
  - reflexivity.
Qed.

(** C6, as the code has it: the result is the front of the combined list
    (the values of the map in the order of their keys, then the
    navigation matches) sorted by MoreRelevant; so a match never stands
    behind one that is less relevant than it, for relevances that are not
    negative, and among equal relevances the order is the one the
    comparator gives to a list ordered by text: candidates of distinct
    keys build the same map in whatever order they are constructed. *)
Theorem result_order (s : SearchProvider) :
  StrictWeakOrder MoreRelevant ->
  respects_relevance MoreRelevant ->
  (exists sorted,
     matches_ (ConvertResultsToAutocompleteMatches s)
     = map WithStarredState (firstn (kMaxMatches + 1) sorted)
     /\ Permutation sorted
          (MatchMap_values (CollectMatches s) ++ NavigationMatches s)
     /\ StronglySorted (fun a b => MoreRelevant b a = false) sorted)
  /\ StronglySorted (fun a b => String.ltb a b = true)
       (MatchMap_keys (CollectMatches s))
  /\ (forall cs cs',
        Permutation cs cs' -> NoDup (map KeyOf cs) ->
        AddCandidates s cs [] = AddCandidates s cs' [])
  /\ (forall i j a b,
        (i < j)%nat ->
        nth_error (matches_ (ConvertResultsToAutocompleteMatches s)) i = Some a ->
        nth_error (matches_ (ConvertResultsToAutocompleteMatches s)) j = Some b ->
        0 <= relevance a -> relevance b <= relevance a).
Proof.
  intros Hswo Hrel.
  set (sorted := partial_sort MoreRelevant
                   (Nat.min (kMaxMatches + 1)
                      (List.length (matches_ (UnsortedMatches s))))
                   (matches_ (UnsortedMatches s))).
  assert (Hfinal : matches_ (ConvertResultsToAutocompleteMatches s)
                   = map WithStarredState (firstn (kMaxMatches + 1) sorted))
    by apply pass_matches_sorted.
  assert (Hsorted : StronglySorted (fun a b => MoreRelevant b a = false) sorted)
    by (apply partial_sort_sorted, Hswo).
  split; [|split; [|split]].
  - exists sorted. split; [exact Hfinal|]. split; [|exact Hsorted].
    rewrite <- UnsortedMatches_matches. apply partial_sort_Permutation.
  - rewrite CollectMatches_candidates. apply AddCandidates_sorted. constructor.
  - apply AddCandidates_any_order.
  - intros i j a b Hij Hi Hj Ha. rewrite Hfinal in Hi, Hj.
    rewrite nth_error_map in Hi, Hj.
    destruct (nth_error (firstn (kMaxMatches + 1) sorted) i) as [a0|] eqn:Hi0;
      [|discriminate].
    destruct (nth_error (firstn (kMaxMatches + 1) sorted) j) as [b0|] eqn:Hj0;
      [|discriminate].
    injection Hi as <-. injection Hj as <-.
    change (relevance (WithStarredState a0)) with (relevance a0) in *.
    change (relevance (WithStarredState b0)) with (relevance b0).
    pose proof (StronglySorted_nth_error _ _
                  (StronglySorted_firstn _ (kMaxMatches + 1) _ Hsorted)
                  i j a0 b0 Hij Hi0 Hj0) as Hcmp.
    cbv beta in Hcmp.
    destruct (Z.le_gt_cases (relevance b0) (relevance a0)) as [Hle|Hgt];
      [exact Hle|].
    rewrite (Hrel b0 a0 Ha Hgt) in Hcmp. discriminate.
Qed.

End ResultOrder.

(** ** Ties do not follow the order of construction *)

Lemma In_precedes {A : Type} (a b : A) (l : list A) :
  In a l -> In b l -> a <> b -> precedes a b l \/ precedes b a l.
Proof.
  intros Ha Hb Hab.
  destruct (In_nth_error _ _ Ha) as [i Hi].
  destruct (In_nth_error _ _ Hb) as [j Hj].
  destruct (Nat.lt_trichotomy i j) as [Hlt|[Heq|Hgt]].
  - left. exists i, j. auto.
  - subst j. rewrite Hi in Hj. injection Hj as Hj. contradiction.
  - right. exists j, i. auto.
Qed.

Lemma example_matches_distinct :
  Example.match_b <> Example.match_ba
  /\ Example.match_b <> Example.match_bb
  /\ Example.match_ba <> Example.match_bb.
Proof.
  unfold Example.match_b, Example.match_ba, Example.match_bb.
  repeat split; discriminate.
Qed.

Lemma example_generation_order comp :
  GenerationOrder (H := Example.host comp Example.discount Example.reader)
    Example.pass_ba_bb
  = [Example.match_b; Example.match_ba; Example.match_bb]
  /\ GenerationOrder (H := Example.host comp Example.discount Example.reader)
       Example.pass_bb_ba
     = [Example.match_b; Example.match_bb; Example.match_ba].
Proof. split; reflexivity. Qed.

Lemma example_unsorted comp :
  matches_ (UnsortedMatches
              (H := Example.host comp Example.discount Example.reader)
              Example.pass_ba_bb)
  = [Example.match_b; Example.match_ba; Example.match_bb]
  /\ matches_ (UnsortedMatches
                 (H := Example.host comp Example.discount Example.reader)
                 Example.pass_bb_ba)
     = [Example.match_b; Example.match_ba; Example.match_bb].
Proof. split; reflexivity. Qed.

(** The two passes of the example construct "ba" and "bb", of equal
    relevance, in opposite orders and end with the same result, whatever
    the comparator: in one of them the tie is not in the order of
    construction. *)
Lemma ties_ignore_generation_order :
  ~ exists comp,
      ties_in_generation_order
        (H := Example.host comp Example.discount Example.reader)
        Example.pass_ba_bb
      /\ ties_in_generation_order
           (H := Example.host comp Example.discount Example.reader)
           Example.pass_bb_ba.
Proof.
  intros [comp [Hfirst Hsecond]].
  destruct (example_generation_order comp) as [Hg1 Hg2].
  destruct (example_unsorted comp) as [Hu1 Hu2].
  destruct example_matches_distinct as [Hd1 [Hd2 Hd3]].
  unfold ties_in_generation_order in Hfirst, Hsecond.
  rewrite Hg1 in Hfirst. rewrite Hg2 in Hsecond.
  rewrite pass_matches_sorted, Hu1 in Hfirst.
  rewrite pass_matches_sorted, Hu2 in Hsecond.
  match type of Hfirst with
  | context [firstn _ ?r] => set (result := r) in Hfirst, Hsecond
  end.
  assert (Hperm : Permutation result
                    [Example.match_b; Example.match_ba; Example.match_bb])
    by apply partial_sort_Permutation.
  assert (Hall : firstn (3 + 1) result = result).
  { apply firstn_all2. rewrite (Permutation_length Hperm). simpl. lia. }
  change (kMaxMatches (Host := Example.host comp Example.discount
                                 Example.reader))
    with 3%nat in Hfirst, Hsecond.
  rewrite Hall in Hfirst, Hsecond.
  assert (Hin : forall m,
            In m [Example.match_b; Example.match_ba; Example.match_bb] ->
            In (WithStarredState
                  (H := Example.host comp Example.discount Example.reader) m)
               (map (WithStarredState
                       (H := Example.host comp Example.discount
                               Example.reader)) result)).
  { intros m Hm. apply in_map.
    apply (Permutation_in _ (Permutation_sym Hperm)), Hm. }
  assert (Hneq : WithStarredState
                   (H := Example.host comp Example.discount Example.reader)
                   Example.match_ba
                 <> WithStarredState
                      (H := Example.host comp Example.discount Example.reader)
                      Example.match_bb)
    by (unfold Example.match_ba, Example.match_bb; discriminate).
  assert (Hpos : forall l a b,
            l = [Example.match_b; a; b] -> a <> b ->
            Example.match_b <> a -> Example.match_b <> b ->
            ~ precedes b a l).
  { intros l a b -> Hab Hba Hbb [i [j [Hij [Hi Hj]]]].
    destruct i as [|[|[|i]]]; simpl in Hi;
      try (injection Hi as Hi; congruence);
      try (destruct i; discriminate).
    destruct j as [|[|[|j]]]; simpl in Hj; try lia;
      try (destruct j; discriminate). }
  destruct (In_precedes _ _ _
              (Hin Example.match_ba ltac:(simpl; auto))
              (Hin Example.match_bb ltac:(simpl; auto)) Hneq)
    as [Hord|Hord].
  - apply (Hpos _ Example.match_bb Example.match_ba eq_refl); auto.
    apply Hsecond; simpl; auto.
  - apply (Hpos _ Example.match_ba Example.match_bb eq_refl); auto.
    apply Hfirst; simpl; auto.
Qed.

(** ** The relevance of past searches *)

Section History.

Context {H : Host}.

(** Whatever the discount of a past search is, its relevance is the base
    less the discount, cut off at zero; the base is 1050 for the primary
    provider and input that is no URL, 750 for the primary provider and
    URL input, 200 for the other provider; and a larger discount never
    gives a larger relevance. *)
Lemma history_relevance_of_discount (s : SearchProvider) (is_keyword : bool)
    (t : Time) :
  0 <= CalculateRelevanceForHistory t is_keyword s
  /\ (0 <= HistoryScoreDiscount t <= Int.max_value ->
      CalculateRelevanceForHistory t is_keyword s
      = Z.max 0
          (history_base (is_primary_provider (providers_ s) is_keyword)
                        (InputType_eqb (type (input_ s)) URL)
           - HistoryScoreDiscount t))
  /\ (forall later : Time,
        0 <= HistoryScoreDiscount t <= HistoryScoreDiscount later ->
        HistoryScoreDiscount later <= Int.max_value ->
        CalculateRelevanceForHistory later is_keyword s
        <= CalculateRelevanceForHistory t is_keyword s).
Proof.
  assert (Hval : forall u,
            0 <= HistoryScoreDiscount u <= Int.max_value ->
            CalculateRelevanceForHistory u is_keyword s
            = Z.max 0
                (history_base (is_primary_provider (providers_ s) is_keyword)
                              (InputType_eqb (type (input_ s)) URL)
                 - HistoryScoreDiscount u)).
  { intros u Hu. unfold CalculateRelevanceForHistory, Int.sub, history_base.
    cbv zeta. f_equal.
    destruct (is_primary_provider (providers_ s) is_keyword),
             (InputType_eqb (type (input_ s)) URL); cbn [negb];
      apply wrap_in_range;
      unfold Int.in_range, Int.min_value, Int.max_value in *; lia. }
  split; [unfold CalculateRelevanceForHistory; cbv zeta; lia|].
  split; [apply Hval|].
  intros later Hd Hmax. rewrite (Hval t), (Hval later) by lia. lia.
Qed.

End History.

(** ** The example comparator *)

Lemma more_relevant_order : StrictWeakOrder Example.more_relevant.
Proof.
  constructor; unfold Example.more_relevant.
  - intros a. rewrite Z.eqb_refl. apply ltb_irrefl.
  - intros a b c.
    destruct (Z.eqb_spec (relevance a) (relevance b)) as [Hab|Hab];
      destruct (Z.eqb_spec (relevance b) (relevance c)) as [Hbc|Hbc];
      destruct (Z.eqb_spec (relevance a) (relevance c)) as [Hac|Hac];
      rewrite ?Z.ltb_lt; try lia; intros H1 H2;
      try (exfalso; lia).
    eapply ltb_trans; eassumption.
  - intros a b c.
    destruct (Z.eqb_spec (relevance a) (relevance b)) as [Hab|Hab];
      destruct (Z.eqb_spec (relevance b) (relevance a)) as [Hba|Hba];
      destruct (Z.eqb_spec (relevance b) (relevance c)) as [Hbc|Hbc];
      destruct (Z.eqb_spec (relevance c) (relevance b)) as [Hcb|Hcb];
      destruct (Z.eqb_spec (relevance a) (relevance c)) as [Hac|Hac];
      destruct (Z.eqb_spec (relevance c) (relevance a)) as [Hca|Hca];
      rewrite ?Z.ltb_ge; try lia; intros H1 H2 H3 H4; try (exfalso; lia).
    rewrite (ltb_total _ _ H1 H2), (ltb_total _ _ H3 H4).
    split; apply ltb_irrefl.
Qed.

Lemma more_relevant_respects_relevance :
  respects_relevance Example.more_relevant.
Proof.
  intros a b _ Hlt. unfold Example.more_relevant.
  destruct (Z.eqb_spec (relevance a) (relevance b)) as [Heq|Hne]; [lia|].
  apply Z.ltb_lt, Hlt.
Qed.

(** ** Examples *)

Lemma what_you_typed_relevance_witness :
  CalculateRelevanceForWhatYouTyped (Example.provider "abc" [] [])
  = Returned 1300.
Proof.
  exact (proj1 (proj2 (what_you_typed_relevance (H := Example.browser)
                         (Example.provider "abc" [] []))) eq_refl).
Defined.

Lemma suggestion_relevance_witness :
  (1 < 3)%nat
  /\ Z.of_nat 3 <= Int.max_value - 600
  /\ CalculateRelevanceForSuggestion (H := Example.browser) 3 1 false
       (Example.provider "abc" [] [])
     = 601.
Proof.
  assert (Hsize : Z.of_nat 3 <= Int.max_value - 600)
    by (unfold Int.max_value; simpl; lia).
  split; [lia|]. split; [exact Hsize|].
  rewrite (proj1 (suggestion_relevance (H := Example.browser)
                    (Example.provider "abc" [] []) 3 1 false
                    ltac:(lia) Hsize)).
  reflexivity.
Defined.

Lemma suggest_gate_witness :
  let s := set_input_ Example.https_with_path (Example.provider "" [] []) in
  profile_ s = Some Example.profile
  /\ IsOffTheRecord Example.profile = false
  /\ valid_suggest_for_keyword_provider (providers_ s)
     || valid_suggest_for_default_provider (providers_ s) = true
  /\ kSearchSuggestEnabled Example.profile = true
  /\ IsQuerySuitableForSuggest s = false.
Proof.
  intros s.
  split; [reflexivity|]. split; [reflexivity|]. split; [reflexivity|].
  split; [reflexivity|].
  apply (suggest_gate s Example.profile eq_refl eq_refl eq_refl eq_refl);
    [discriminate|reflexivity|reflexivity].
Defined.

Lemma start_with_empty_text_witness :
  let s := Example.provider "abc" [] ["abcdef"] in
  let s' := Start (H := Example.browser) (Example.input "" FORCED_QUERY)
              false s in
  profile_ s = Some Example.profile
  /\ type (Example.input "" FORCED_QUERY) <> INVALID
  /\ text (Example.input "" FORCED_QUERY) = ""
  /\ GetDefaultSearchProvider (Host := Example.browser) Example.profile
     = Some Example.engine
  /\ SupportsReplacement (Host := Example.browser) (Some Example.engine)
     = true
  /\ matches_ s'
     = [mkMatch 0 false "" None (mkGURL "" false)
          "<enter query>" [mkClass 0 STYLE_NONE]
          "Search Example" [mkClass 0 STYLE_DIM]
          TYPED SEARCH_WHAT_YOU_TYPED None false]
  /\ effects_ s' = []
  /\ done_ s' = true
  /\ default_suggest_results_ s' = [].
Proof.
  intros s s'.
  assert (Hvalid : type (Example.input "" FORCED_QUERY) <> INVALID)
    by discriminate.
  pose proof (start_with_empty_text (H := Example.browser)
                (Example.input "" FORCED_QUERY) false s Example.profile
                Example.engine eq_refl Hvalid eq_refl eq_refl eq_refl)
    as Hstart.
  cbv zeta in Hstart. fold s' in Hstart.
  destruct Hstart as [Hmatches [Heffects [Hdone Hrest]]].
  split; [reflexivity|]. split; [exact Hvalid|]. split; [reflexivity|].
  split; [reflexivity|]. split; [reflexivity|].
  split; [exact Hmatches|]. split; [exact Heffects|].
  split; [exact Hdone|]. apply Hrest.
Defined.

Lemma result_order_witness :
  StrictWeakOrder (MoreRelevant (Host := Example.browser))
  /\ respects_relevance (MoreRelevant (Host := Example.browser))
  /\ forall i j a b,
       (i < j)%nat ->
       nth_error
         (matches_ (ConvertResultsToAutocompleteMatches
                      (H := Example.browser) Example.pass_bb_ba)) i = Some a ->
       nth_error
         (matches_ (ConvertResultsToAutocompleteMatches
                      (H := Example.browser) Example.pass_bb_ba)) j = Some b ->
       0 <= relevance a -> relevance b <= relevance a.
Proof.
  split; [exact more_relevant_order|].
  split; [exact more_relevant_respects_relevance|].
  exact (proj2 (proj2 (proj2 (result_order (H := Example.browser)
                                Example.pass_bb_ba more_relevant_order
                                more_relevant_respects_relevance)))).
Defined.

(** The example of the specification, with the discount of a search ten
    seconds old taken as 12: the history match of "abcdef" wins over the
    suggestion of the same text. *)
Lemma aggregation_example :
  let visited := fun _ : Time => 12 in
  let s := Example.provider "abc" [mkVisit "abcdef" 0] ["abcdef"; "abcxyz"] in
  map (fun m => (contents m, relevance m, match_type m))
      (matches_ (ConvertResultsToAutocompleteMatches
                   (H := Example.host Example.more_relevant visited
                           Example.reader) s))
  = [("abc", 1300, SEARCH_WHAT_YOU_TYPED);
     ("abcdef", 1038, SEARCH_HISTORY);
     ("abcxyz", 600, SEARCH_SUGGEST)].
Proof. vm_compute. reflexivity. Qed.

(** The two passes of the counterexample under the example comparator. *)
Lemma ties_example :
  map contents
      (matches_ (ConvertResultsToAutocompleteMatches (H := Example.browser)
                   Example.pass_bb_ba))
  = ["b"; "ba"; "bb"]
  /\ map contents (GenerationOrder (H := Example.browser) Example.pass_bb_ba)
     = ["b"; "bb"; "ba"].
Proof. vm_compute. split; reflexivity. Qed.

(** A query from start to end: the user types "abc", the timer fires, the
    history service answers, the suggest server answers.  The provider is
    done after the second answer and not before. *)
Lemma query_example :
  let s0 := SearchProvider_new (Some Example.profile)
              (Example.input "" INVALID) in
  let s1 := Start (H := Example.browser) (Example.input "abc" QUERY) false s0 in
  let s2 := TimerFired (H := Example.browser) s1 in
  let s3 := HistoryRequestCompleted (H := Example.browser) 1
              [mkVisit "abcdef" 0] s2 in
  let s4 := OnURLFetchComplete (H := Example.browser) (Example.fetcher "abc")
              true 200 "[abc,[abcdef,abcxyz]]" s3 in
  (done_ s1, history_request_pending_ s1, suggest_results_pending_ s1)
  = (false, true, 1)
  /\ (done_ s2, history_request_pending_ s2, suggest_results_pending_ s2)
     = (false, true, 1)
  /\ (done_ s3, history_request_pending_ s3, suggest_results_pending_ s3)
     = (false, false, 1)
  /\ (done_ s4, history_request_pending_ s4, suggest_results_pending_ s4)
     = (true, false, 0)
  /\ map contents (matches_ s1) = ["abc"]
  /\ map contents (matches_ s3) = ["abc"; "abcdef"]
  /\ map contents (matches_ s4) = ["abc"; "abcdef"; "abcxyz"]
  /\ effects_ s4
     = [HistoryQueryIssued 1 "abc" 3; TimerStarted 200;
        FetchStarted 1 (mkGURL "http://example.test/complete?q=abc" true);
        ProviderUpdate true; ProviderUpdate true].
Proof. vm_compute. repeat split. Qed.

(** ** What the parser stores *)

Section Parser.

Context {H : Host}.

Lemma ParseSuggestionList_cons (v : Value) (rest : list Value) (i : nat)
    (type_list description_list : option (list Value)) (keyword_results : bool)
    (s : SearchProvider) :
  ParseSuggestionList (v :: rest) i type_list description_list
    keyword_results s
  = match GetAsString v with
    | None => (false, s)
    | Some str =>
        ParseSuggestionList rest (S i) type_list description_list
          keyword_results
          (ParseStep str i type_list description_list keyword_results s)
    end.
Proof. reflexivity. Qed.

(** One string of the reply changes nothing, or adds itself to the
    suggestions, or adds a navigation result; and it adds only below the
    bound. *)
Lemma ParseStep_cases (str : string) (i : nat)
    (type_list description_list : option (list Value)) (k : bool)
    (s : SearchProvider) :
  let s' := ParseStep str i type_list description_list k s in
  SuggestResultsOf (negb k) s' = SuggestResultsOf (negb k) s
  /\ NavigationResultsOf (negb k) s' = NavigationResultsOf (negb k) s
  /\ ((SuggestResultsOf k s' = SuggestResultsOf k s
       /\ NavigationResultsOf k s' = NavigationResultsOf k s)
      \/ (SuggestResultsOf k s' = SuggestResultsOf k s ++ [str]
          /\ NavigationResultsOf k s' = NavigationResultsOf k s
          /\ String.length str <> 0%nat
          /\ IsNavigationType type_list i = false
          /\ (List.length (SuggestResultsOf k s) < kMaxMatches)%nat)
      \/ (exists site,
            NavigationResultsOf k s'
            = NavigationResultsOf k s ++ [mkNav (FixupURL str) site]
            /\ SuggestResultsOf k s' = SuggestResultsOf k s
            /\ is_valid (FixupURL str) = true
            /\ IsNavigationType type_list i = true
            /\ (List.length (NavigationResultsOf k s) < kMaxMatches)%nat)).
Proof.
  unfold ParseStep. cbv zeta.
  destruct (Nat.eqb (String.length str) 0) eqn:Hlen;
    [repeat split; left; split; reflexivity|].
  apply Nat.eqb_neq in Hlen.
  destruct (IsNavigationType type_list i) eqn:Hnav.
  - fold (NavigationResultsOf k s).
    destruct (Nat.ltb_spec (List.length (NavigationResultsOf k s)) kMaxMatches)
      as [Hlt|Hge]; [|repeat split; left; split; reflexivity].
    destruct description_list as [dl|];
      [|repeat split; left; split; reflexivity].
    destruct (nth_error dl i) as [[| | | |site| | |]|];
      try (repeat split; left; split; reflexivity).
    destruct (is_valid (FixupURL str)) eqn:Hvalid;
      [|repeat split; left; split; reflexivity].
    split; [destruct k; reflexivity|]. split; [destruct k; reflexivity|].
    right. right. exists site.
    split; [destruct k; reflexivity|]. split; [destruct k; reflexivity|].
    repeat split; assumption.
  - fold (SuggestResultsOf k s).
    destruct (Nat.ltb_spec (List.length (SuggestResultsOf k s)) kMaxMatches)
      as [Hlt|Hge]; [|repeat split; left; split; reflexivity].
    split; [destruct k; reflexivity|]. split; [destruct k; reflexivity|].
    right. left.
    split; [destruct k; reflexivity|]. split; [destruct k; reflexivity|].
    repeat split; assumption.
Qed.

(** What a run of the loop adds to the lists of the provider it reads
    for, and that it leaves the lists of the other provider alone. *)
Lemma ParseSuggestionList_grows (result_list : list Value) :
  forall i type_list description_list k s,
    let s' := snd (ParseSuggestionList result_list i type_list
                     description_list k s) in
    exists suggestions navigations,
      SuggestResultsOf k s' = SuggestResultsOf k s ++ suggestions
      /\ NavigationResultsOf k s' = NavigationResultsOf k s ++ navigations
      /\ SuggestResultsOf (negb k) s' = SuggestResultsOf (negb k) s
      /\ NavigationResultsOf (negb k) s' = NavigationResultsOf (negb k) s
      /\ Forall (fun str => String.length str <> 0%nat) suggestions
      /\ Forall (fun n => is_valid (nav_url n) = true) navigations
      /\ (suggestions = []
          \/ (List.length (SuggestResultsOf k s ++ suggestions)
              <= kMaxMatches)%nat)
      /\ (navigations = []
          \/ (List.length (NavigationResultsOf k s ++ navigations)
              <= kMaxMatches)%nat).
Proof.
  induction result_list as [|v rest IH]; intros i tl dl k s.
  - exists [], []. cbn [ParseSuggestionList snd]. rewrite !app_nil_r.
    repeat split; auto.
  - rewrite ParseSuggestionList_cons.
    destruct (GetAsString v) as [str|].
    + destruct (IH (S i) tl dl k (ParseStep str i tl dl k s))
        as [sg [nv [Hs [Hn [Hos [Hon [Hne [Hval [Hbs Hbn]]]]]]]]].
      destruct (ParseStep_cases str i tl dl k s)
        as [Hos1 [Hon1 [[Hs1 Hn1]|[[Hs1 [Hn1 [Hlen [_ Hlt]]]]
                                  |[site [Hn1 [Hs1 [Hvalid [_ Hlt]]]]]]]]];
        cbv zeta in *.
      * exists sg, nv. rewrite Hs, Hn, Hos, Hon, Hs1, Hn1, Hos1, Hon1.
        rewrite Hs1 in Hbs. rewrite Hn1 in Hbn.
        repeat split; auto.
      * exists (str :: sg), nv.
        rewrite Hs, Hn, Hos, Hon, Hs1, Hn1, Hos1, Hon1.
        rewrite Hs1 in Hbs. rewrite Hn1 in Hbn.
        rewrite <- !app_assoc in *. cbn [app] in *.
        repeat split; auto.
        right. destruct Hbs as [->|Hbs]; [|exact Hbs].
        rewrite length_app. simpl. lia.
      * exists sg, (mkNav (FixupURL str) site :: nv).
        rewrite Hs, Hn, Hos, Hon, Hs1, Hn1, Hos1, Hon1.
        rewrite Hs1 in Hbs. rewrite Hn1 in Hbn.
        rewrite <- !app_assoc in *. cbn [app] in *.
        repeat split; auto.
        right. destruct Hbn as [->|Hbn]; [|exact Hbn].
        rewrite length_app. simpl. lia.
    + exists [], []. cbn [snd]. rewrite !app_nil_r. repeat split; auto.
Qed.

Lemma ParseSuggestResults_grows (root_val : Value) (k : bool)
    (input_text : string) (s : SearchProvider) :
  let s' := snd (ParseSuggestResults root_val k input_text s) in
  exists suggestions navigations,
    SuggestResultsOf k s' = SuggestResultsOf k s ++ suggestions
    /\ NavigationResultsOf k s' = NavigationResultsOf k s ++ navigations
    /\ SuggestResultsOf (negb k) s' = SuggestResultsOf (negb k) s
    /\ NavigationResultsOf (negb k) s' = NavigationResultsOf (negb k) s
    /\ Forall (fun str => String.length str <> 0%nat) suggestions
    /\ Forall (fun n => is_valid (nav_url n) = true) navigations
    /\ (suggestions = []
        \/ (List.length (SuggestResultsOf k s ++ suggestions)
            <= kMaxMatches)%nat)
    /\ (navigations = []
        \/ (List.length (NavigationResultsOf k s ++ navigations)
            <= kMaxMatches)%nat).
Proof.
  destruct (SuggestionList root_val input_text) as [result_list|] eqn:Hshape.
  - destruct (ParseSuggestResults_good_shape root_val k input_text s
                result_list Hshape) as [tl [dl Hp]].
    rewrite Hp. apply ParseSuggestionList_grows.
  - rewrite (ParseSuggestResults_bad_shape root_val k input_text s Hshape).
    exists [], []. cbn [snd]. rewrite !app_nil_r. repeat split; auto.
Qed.

(** X1: the parser only appends to the two lists of the provider it
    reads for, and never makes one longer than [kMaxMatches]: a list
    within the bound stays within it. *)
Theorem parse_keeps_lists_bounded (root_val : Value) (k : bool)
    (input_text : string) (s : SearchProvider) :
  let s' := snd (ParseSuggestResults root_val k input_text s) in
  (exists added, SuggestResultsOf k s' = SuggestResultsOf k s ++ added)
  /\ (exists added,
        NavigationResultsOf k s' = NavigationResultsOf k s ++ added)
  /\ (List.length (SuggestResultsOf k s')
      <= Nat.max (List.length (SuggestResultsOf k s)) kMaxMatches)%nat
  /\ (List.length (NavigationResultsOf k s')
      <= Nat.max (List.length (NavigationResultsOf k s)) kMaxMatches)%nat.
Proof.
  destruct (ParseSuggestResults_grows root_val k input_text s)
    as [sg [nv [Hs [Hn [_ [_ [_ [_ [Hbs Hbn]]]]]]]]].
  cbv zeta in *. rewrite Hs, Hn.
  split; [exists sg; reflexivity|]. split; [exists nv; reflexivity|].
  split.
  - destruct Hbs as [->|Hbs]; [rewrite app_nil_r|]; lia.
  - destruct Hbn as [->|Hbn]; [rewrite app_nil_r|]; lia.
Qed.

(** X2: the parser stores no empty suggestion and no navigation result
    whose URL is not valid: lists free of them stay free of them. *)
Theorem parse_stores_no_empty_suggestion (root_val : Value) (k : bool)
    (input_text : string) (s : SearchProvider) :
  let s' := snd (ParseSuggestResults root_val k input_text s) in
  (Forall (fun str => String.length str <> 0%nat) (SuggestResultsOf k s) ->
   Forall (fun str => String.length str <> 0%nat) (SuggestResultsOf k s'))
  /\ (Forall (fun n => is_valid (nav_url n) = true)
             (NavigationResultsOf k s) ->
      Forall (fun n => is_valid (nav_url n) = true)
             (NavigationResultsOf k s')).
Proof.
  destruct (ParseSuggestResults_grows root_val k input_text s)
    as [sg [nv [Hs [Hn [_ [_ [Hne [Hval _]]]]]]]].
  cbv zeta in *. rewrite Hs, Hn.
  split; intros Hold; apply Forall_app; split; assumption.
Qed.

(** X3: a reply read for one provider leaves the results of the other
    provider, and all the rest of the state, as they were. *)
Theorem parse_writes_one_provider (root_val : Value) (k : bool)
    (input_text : string) (s : SearchProvider) :
  let s' := snd (ParseSuggestResults root_val k input_text s) in
  SuggestResultsOf (negb k) s' = SuggestResultsOf (negb k) s
  /\ NavigationResultsOf (negb k) s' = NavigationResultsOf (negb k) s
  /\ s' = set_results (keyword_suggest_results_ s')
            (default_suggest_results_ s') (keyword_navigation_results_ s')
            (default_navigation_results_ s') s.
Proof.
  destruct (ParseSuggestResults_grows root_val k input_text s)
    as [sg [nv [_ [_ [Hos [Hon _]]]]]].
  cbv zeta in *. split; [exact Hos|]. split; [exact Hon|].
  apply ParseSuggestResults_frame.
Qed.

(** Without a list of types every string that is not empty is a
    suggestion, stored while there is room. *)
Lemma ParseSuggestionList_plain (strs : list string) :
  forall i description_list k s,
    let r := ParseSuggestionList (map VString strs) i None description_list
               k s in
    fst r = true
    /\ SuggestResultsOf k (snd r)
       = SuggestResultsOf k s
         ++ firstn (kMaxMatches - List.length (SuggestResultsOf k s))
                   (StoredSuggestions strs)
    /\ NavigationResultsOf k (snd r) = NavigationResultsOf k s.
Proof.
  induction strs as [|str rest IH]; intros i dl k s.
  - cbn. rewrite firstn_nil, app_nil_r. repeat split.
  - cbn [map]. rewrite ParseSuggestionList_cons. cbn [GetAsString].
    destruct (IH (S i) dl k (ParseStep str i None dl k s))
      as [Hok [Hs Hn]].
    cbv zeta in *. rewrite Hok, Hs, Hn. split; [reflexivity|].
    destruct (ParseStep_cases str i None dl k s)
      as [_ [_ [[Hs1 Hn1]|[[Hs1 [Hn1 [Hlen [_ Hlt]]]]
                          |[site [_ [_ [_ [Hnav _]]]]]]]]];
      cbv zeta in *; [| |discriminate].
    + rewrite Hs1, Hn1. split; [|reflexivity]. f_equal.
      unfold StoredSuggestions. cbn [filter].
      destruct (Nat.eqb (String.length str) 0) eqn:Hempty; cbn [negb];
        [reflexivity|].
      (* not stored although not empty: the list is full *)
      fold (StoredSuggestions rest).
      assert (Hfull : (kMaxMatches - List.length (SuggestResultsOf k s) = 0)%nat).
      { unfold ParseStep in Hs1. rewrite Hempty in Hs1. cbv zeta in Hs1.
        cbn [IsNavigationType] in Hs1. fold (SuggestResultsOf k s) in Hs1.
        destruct (Nat.ltb_spec (List.length (SuggestResultsOf k s)) kMaxMatches)
          as [Hlt|Hge]; [|lia].
        exfalso.
        assert (Hpush : SuggestResultsOf k (PushSuggestResult k str s)
                        = SuggestResultsOf k s ++ [str])
          by (destruct k; reflexivity).
        rewrite Hpush in Hs1.
        apply (f_equal (@List.length string)) in Hs1.
        rewrite length_app in Hs1. simpl in Hs1. lia. }
      rewrite Hfull. reflexivity.
    + rewrite Hs1, Hn1. split; [|reflexivity].
      rewrite <- app_assoc. f_equal.
      unfold StoredSuggestions. cbn [filter].
      apply Nat.eqb_neq in Hlen. rewrite Hlen. cbn [negb].
      fold (StoredSuggestions rest).
      rewrite length_app. cbn [List.length].
      replace (kMaxMatches - List.length (SuggestResultsOf k s))%nat
        with (S (kMaxMatches - (List.length (SuggestResultsOf k s) + 1)))
        by lia.
      reflexivity.
Qed.

(** X4: a reply of the right shape that carries strings only and no
    list of types is read with success; its strings that are not empty
    are appended in the order of the server, as many as fit under
    [kMaxMatches], and no navigation result is added. *)
Theorem parse_plain_reply (query_str : string) (strs : list string)
    (others : list Value) (k : bool) (s : SearchProvider) :
  SuggestTypeList (VString query_str :: VList (map VString strs) :: others)
  = None ->
  let r := ParseSuggestResults
             (VList (VString query_str :: VList (map VString strs) :: others))
             k query_str s in
  fst r = true
  /\ SuggestResultsOf k (snd r)
     = SuggestResultsOf k s
       ++ firstn (kMaxMatches - List.length (SuggestResultsOf k s))
                 (StoredSuggestions strs)
  /\ NavigationResultsOf k (snd r) = NavigationResultsOf k s.
Proof.
  intros Htypes r. subst r. unfold ParseSuggestResults.
  cbn [List.length Nat.ltb Nat.leb nth_error].
  rewrite String.eqb_refl. cbn [negb]. rewrite Htypes.
  match goal with
  | |- context [ParseSuggestionList _ 0 ?tl ?dl k s] =>
      replace tl with (@None (list Value)) by (destruct others as [|? [|? [|? ?]]]; reflexivity)
  end.
  apply ParseSuggestionList_plain.
Qed.

End Parser.

(** ** Navigation suggestions *)

Section Navigation.

Context {H : Host}.

(** X5: a navigation suggestion at zero-based [rank] among [num_results]
    scores 800 for the primary provider, 150 for the other, plus
    [num_results - 1 - rank]; a later rank scores strictly less.  Sizes
    are those an [int] holds with room for the base. *)
Theorem navigation_relevance (s : SearchProvider) (num_results rank : nat)
    (keyword_results : bool) :
  (rank < num_results)%nat ->
  Z.of_nat num_results <= Int.max_value - 800 ->
  CalculateRelevanceForNavigation num_results rank keyword_results s
  = navigation_base (is_primary_provider (providers_ s) keyword_results)
    + (Z.of_nat num_results - 1 - Z.of_nat rank)
  /\ forall later : nat,
       (rank < later)%nat -> (later < num_results)%nat ->
       CalculateRelevanceForNavigation num_results later keyword_results s
       < CalculateRelevanceForNavigation num_results rank keyword_results s.
Proof.
  intros Hrank Hsize.
  assert (Hval : forall r, (r < num_results)%nat ->
            CalculateRelevanceForNavigation num_results r keyword_results s
            = navigation_base
                (is_primary_provider (providers_ s) keyword_results)
              + (Z.of_nat num_results - 1 - Z.of_nat r)).
  { intros r Hr. unfold CalculateRelevanceForNavigation, Int.add.
    rewrite of_size_t_diff_exact by (unfold Int.max_value in *; lia).
    unfold navigation_base.
    destruct (is_primary_provider (providers_ s) keyword_results);
      apply wrap_in_range;
      unfold Int.in_range, Int.min_value, Int.max_value in *; lia. }
  split.
  - apply Hval, Hrank.
  - intros later Hl1 Hl2. rewrite (Hval later Hl2), (Hval rank Hrank). lia.
Qed.

Lemma MatchOf_type (s : SearchProvider) (c : Candidate) :
  match_type (MatchOf s c) = candidate_type c.
Proof. reflexivity. Qed.

Lemma Candidates_types (s : SearchProvider) (c : Candidate) :
  In c (Candidates s) -> candidate_type c <> NAVSUGGEST.
Proof.
  unfold Candidates, HistoryCandidates, SuggestCandidates. cbv zeta.
  intros Hin.
  repeat (apply in_app_or in Hin; destruct Hin as [Hin|Hin]);
    try (apply in_map_iff in Hin; destruct Hin as [x [<- _]]; discriminate).
  destruct (valid_default_provider (providers_ s)); [|contradiction].
  destruct Hin as [<-|[]]. discriminate.
Qed.

(** The values of the map of a pass are matches of its candidates. *)
Lemma CollectMatches_values (s : SearchProvider) (m : AutocompleteMatch) :
  In m (MatchMap_values (CollectMatches s)) ->
  exists c, In c (Candidates s) /\ m = MatchOf s c.
Proof.
  intros Hin. unfold MatchMap_values in Hin.
  apply in_map_iff in Hin. destruct Hin as [[k m'] [Hm Hin]].
  cbn [snd] in Hm. subst m'.
  rewrite CollectMatches_candidates in Hin.
  destruct (AddCandidates_tracks s (Candidates s) [] []) as [Htracks Hnd];
    [intros k' c []|constructor|].
  cbn [app] in Htracks. specialize (Htracks k).
  rewrite (MatchMap_In_find _ _ _ Hnd Hin) in Htracks.
  destruct Htracks as [before [c [after [Hcs [_ [Hm _]]]]]].
  exists c. split; [rewrite Hcs; apply in_elt|exact Hm].
Qed.

(** X6: the list that a pass sorts is the values of the map followed by
    at most one navigation match for the keyword provider and one for
    the default provider, each built from the front of its list with
    rank 0 against the length of the whole list; navigation matches are
    the only matches of type NAVSUGGEST, so they are never merged with a
    search match. *)
Theorem navigation_matches_of_pass (s : SearchProvider) :
  matches_ (UnsortedMatches s)
  = MatchMap_values (CollectMatches s) ++ NavigationMatches s
  /\ NavigationMatches s
     = match keyword_navigation_results_ s with
       | [] => []
       | front :: _ =>
           [NavigationToMatch front
              (CalculateRelevanceForNavigation
                 (List.length (keyword_navigation_results_ s)) 0 true s)
              true s]
       end
       ++ match default_navigation_results_ s with
          | [] => []
          | front :: _ =>
              [NavigationToMatch front
                 (CalculateRelevanceForNavigation
                    (List.length (default_navigation_results_ s)) 0 false s)
                 false s]
          end
  /\ (List.length (NavigationMatches s) <= 2)%nat
  /\ (forall m, In m (NavigationMatches s) -> match_type m = NAVSUGGEST)
  /\ (forall m, In m (MatchMap_values (CollectMatches s)) ->
                match_type m <> NAVSUGGEST).
Proof.
  split; [apply UnsortedMatches_matches|]. split; [reflexivity|].
  split; [|split].
  - unfold NavigationMatches.
    destruct (keyword_navigation_results_ s),
             (default_navigation_results_ s); simpl; lia.
  - intros m Hin. unfold NavigationMatches in Hin.
    apply in_app_or in Hin.
    destruct (keyword_navigation_results_ s),
             (default_navigation_results_ s);
      destruct Hin as [Hin|Hin]; try contradiction;
      destruct Hin as [<-|[]]; reflexivity.
  - intros m Hin. destruct (CollectMatches_values s m Hin) as [c [Hc ->]].
    rewrite MatchOf_type. apply (Candidates_types s c Hc).
Qed.

Lemma pass_result_sources (s : SearchProvider) (m : AutocompleteMatch) :
  In m (matches_ (ConvertResultsToAutocompleteMatches s)) ->
  (exists c, In c (Candidates s) /\ m = WithStarredState (MatchOf s c))
  \/ (exists n, In n (NavigationMatches s) /\ m = WithStarredState n).
Proof.
  rewrite pass_matches_sorted. intros Hin.
  apply in_map_iff in Hin. destruct Hin as [m0 [<- Hin]].
  match type of Hin with
  | In _ (firstn ?n ?l) =>
      assert (Hin' : In m0 l)
        by (rewrite <- (firstn_skipn n l); apply in_or_app; left; exact Hin)
  end.
  clear Hin. rename Hin' into Hin.
  apply (Permutation_in _ (partial_sort_Permutation _ _ _ _)) in Hin.
  rewrite UnsortedMatches_matches in Hin.
  apply in_app_or in Hin. destruct Hin as [Hin|Hin].
  - left. destruct (CollectMatches_values s m0 Hin) as [c [Hc ->]].
    exists c. split; [exact Hc|reflexivity].
  - right. exists m0. split; [exact Hin|reflexivity].
Qed.

(** X7: the pass invents nothing: every match of its result is, but for
    the starred flag, the match of one of its candidates or one of its
    navigation matches. *)
Theorem result_from_candidates (s : SearchProvider) (m : AutocompleteMatch) :
  In m (matches_ (ConvertResultsToAutocompleteMatches s)) ->
  (exists c, In c (Candidates s) /\ m = WithStarredState (MatchOf s c))
  \/ (exists n, In n (NavigationMatches s) /\ m = WithStarredState n).
Proof. apply pass_result_sources. Qed.

End Navigation.

(** ** The text fields of a match *)

Lemma substring_length (n m : nat) (str : string) :
  String.length (String.substring n m str)
  = Nat.min m (String.length str - n).
Proof.
  revert n m. induction str as [|c rest IH]; intros n m.
  - destruct n, m; reflexivity.
  - destruct n as [|n].
    + destruct m as [|m]; [reflexivity|].
      cbn [String.substring String.length]. rewrite IH. lia.
    + cbn [String.substring String.length]. rewrite IH. lia.
Qed.

Section TextFields.

Context {H : Host}.

(** X8: when the user forced a query, the text that every match of the
    result puts into the edit field begins with the question mark. *)
Theorem forced_query_is_kept (s : SearchProvider) (m : AutocompleteMatch) :
  type (input_ s) = FORCED_QUERY ->
  In m (matches_ (ConvertResultsToAutocompleteMatches s)) ->
  exists rest, fill_into_edit m = String "?"%char rest.
Proof.
  intros Hforced Hin.
  destruct (pass_result_sources s m Hin) as [[c [_ ->]]|[n [Hn ->]]].
  - change (fill_into_edit (WithStarredState (MatchOf s c)))
      with (fill_into_edit (MatchOf s c)).
    unfold MatchOf, SearchMatch. cbv zeta. cbn [fill_into_edit].
    rewrite Hforced. cbn [InputType_eqb String.append].
    eexists. reflexivity.
  - change (fill_into_edit (WithStarredState n)) with (fill_into_edit n).
    unfold NavigationMatches in Hn. apply in_app_or in Hn.
    destruct (keyword_navigation_results_ s),
             (default_navigation_results_ s);
      destruct Hn as [Hn|Hn]; try contradiction;
      destruct Hn as [<-|[]];
      unfold NavigationToMatch; cbv zeta; cbn [fill_into_edit];
      rewrite Hforced; cbn [InputType_eqb String.append];
      eexists; reflexivity.
Qed.

(** X9: the offset for inline autocompletion is set only when inline
    autocompletion is not prevented; it then lies within the text for
    the edit field, and what stands just before it is the text the user
    typed. *)
Theorem inline_autocomplete_offset_sound (query : string) (rel : Z)
    (ty : MatchType) (accepted : Z) (keyword_results : bool)
    (s : SearchProvider) :
  let m := SearchMatch query rel ty accepted keyword_results s in
  let input_text :=
    if keyword_results then keyword_input_text_ s else text (input_ s) in
  match inline_autocomplete_offset m with
  | None => True
  | Some n =>
      prevent_inline_autocomplete (input_ s) = false
      /\ (String.length input_text <= n)%nat
      /\ (n <= String.length (fill_into_edit m))%nat
      /\ String.substring (n - String.length input_text)
           (String.length input_text) (fill_into_edit m)
         = input_text
  end.
Proof.
  unfold SearchMatch. cbv zeta.
  cbn [inline_autocomplete_offset fill_into_edit].
  set (input_text :=
         if keyword_results then keyword_input_text_ s else text (input_ s)).
  set (tail :=
         String.append
           (if keyword_results
            then String.append (keyword (keyword_provider (providers_ s))) " "
            else "")
           query).
  destruct (negb (prevent_inline_autocomplete (input_ s))) eqn:Hprevent;
    cbn [andb]; [|exact I].
  apply negb_true_iff in Hprevent.
  match goal with
  | |- context [String.eqb ?a input_text] =>
      destruct (String.eqb a input_text) eqn:Heq; [|exact I]
  end.
  apply String.eqb_eq in Heq.
  split; [exact Hprevent|]. split; [lia|].
  rewrite Nat.add_sub. split; [|exact Heq].
  apply (f_equal String.length) in Heq. rewrite substring_length in Heq.
  destruct (InputType_eqb (type (input_ s)) FORCED_QUERY);
    cbn [String.append String.length] in *; lia.
Qed.

(** X10: when the typed text is not empty, the classification of the
    contents of a search match begins at offset 0 and its offsets grow
    strictly and stay within the contents; a part marked DIM is the first
    place where the typed text stands in the contents. *)
Theorem contents_class_well_formed (query : string) (rel : Z)
    (ty : MatchType) (accepted : Z) (keyword_results : bool)
    (s : SearchProvider) :
  let m := SearchMatch query rel ty accepted keyword_results s in
  let input_text :=
    if keyword_results then keyword_input_text_ s else text (input_ s) in
  input_text <> "" ->
  contents m = query
  /\ (exists st rest, contents_class m = mkClass 0 st :: rest)
  /\ StronglySorted lt (map offset (contents_class m))
  /\ Forall (fun c => (offset c <= String.length (contents m))%nat)
            (contents_class m)
  /\ (input_text <> query ->
      forall p, In (mkClass p STYLE_DIM) (contents_class m) ->
        String.index 0 input_text query = Some p
        /\ String.substring p (String.length input_text) query = input_text).
Proof.
  unfold SearchMatch. cbv zeta. cbn [contents contents_class].
  set (input_text :=
         if keyword_results then keyword_input_text_ s else text (input_ s)).
  intros Hnonempty.
  assert (Hlen : (0 < String.length input_text)%nat).
  { destruct input_text; [congruence|simpl; lia]. }
  split; [reflexivity|].
  destruct (String.eqb_spec input_text query) as [Heq|Hneq]; cbn [negb].
  - split; [eexists; eexists; reflexivity|].
    split; [repeat constructor|].
    split; [repeat constructor; simpl; lia|].
    intros Hn. contradiction.
  - unfold class_of_suggestion.
    destruct (String.index 0 input_text query) as [p|] eqn:Hindex.
    + pose proof (String.index_correct1 _ _ _ _ Hindex) as Hsub.
      assert (Hfit : (p + String.length input_text <= String.length query)%nat).
      { apply (f_equal String.length) in Hsub.
        rewrite substring_length in Hsub. lia. }
      cbv zeta.
      destruct (Nat.eqb_spec p 0) as [->|Hp]; cbn [negb app];
        destruct (Nat.ltb_spec (0 + String.length input_text)
                               (String.length query)) as [Hlt|Hge];
        try destruct (Nat.ltb_spec (p + String.length input_text)
                                   (String.length query)) as [Hlt'|Hge'];
        cbn [Nat.add] in *; try lia.
      * split; [eexists; eexists; reflexivity|].
        split; [repeat constructor; simpl; lia|].
        split; [repeat constructor; simpl; lia|].
        intros _ q [Hq|[Hq|[]]]; inversion Hq; subst. auto.
      * split; [eexists; eexists; reflexivity|].
        split; [repeat constructor; simpl; lia|].
        split; [repeat constructor; simpl; lia|].
        intros _ q [Hq|[]]; inversion Hq; subst. auto.
      * split; [eexists; eexists; reflexivity|].
        split; [repeat constructor; simpl; lia|].
        split; [repeat constructor; simpl; lia|].
        intros _ q [Hq|[Hq|[Hq|[]]]]; inversion Hq; subst. auto.
      * split; [eexists; eexists; reflexivity|].
        split; [repeat constructor; simpl; lia|].
        split; [repeat constructor; simpl; lia|].
        intros _ q [Hq|[Hq|[]]]; inversion Hq; subst. auto.
    + split; [eexists; eexists; reflexivity|].
      split; [repeat constructor|].
      split; [repeat constructor; simpl; lia|].
      intros _ q [Hq|[]]. discriminate.
Qed.

End TextFields.

(** ** What Start asks for *)

Section Requests.

Context {H : Host}.

Lemma ScheduleHistoryQuery_effects (search_id : TemplateURLID)
    (query_text : string) (s : SearchProvider) :
  effects_ (ScheduleHistoryQuery search_id query_text s)
  = effects_ s ++ [HistoryQueryIssued search_id query_text kMaxMatches].
Proof. reflexivity. Qed.

Lemma StartOrStopHistoryQuery_effects (minimal_changes : bool)
    (s : SearchProvider) :
  effects_ (StartOrStopHistoryQuery minimal_changes s)
  = effects_ s
    ++ (if (minimal_changes
            && (have_history_results_ s
                || (negb (done_ s) && negb (synchronous_only (input_ s)))))
           || synchronous_only (input_ s)
        then [] else HistoryQueries s).
Proof.
  unfold StartOrStopHistoryQuery, HistoryQueries.
  destruct (minimal_changes
            && (have_history_results_ s
                || (negb (done_ s) && negb (synchronous_only (input_ s)))));
    cbn [orb]; [symmetry; apply app_nil_r|].
  cbv zeta.
  change (synchronous_only (input_ (StopHistory s)))
    with (synchronous_only (input_ s)).
  destruct (synchronous_only (input_ s)); [symmetry; apply app_nil_r|].
  change (valid_keyword_provider (providers_ (StopHistory s)))
    with (valid_keyword_provider (providers_ s)).
  destruct (valid_keyword_provider (providers_ s));
    match goal with
    | |- context [valid_default_provider (providers_ ?t)] =>
        progress change (valid_default_provider (providers_ t))
          with (valid_default_provider (providers_ s))
    end;
    destruct (valid_default_provider (providers_ s));
    rewrite ?ScheduleHistoryQuery_effects; cbn [app].
  - rewrite <- app_assoc. reflexivity.
  - reflexivity.
  - reflexivity.
  - symmetry. apply app_nil_r.
Qed.

(** StartOrStopHistoryQuery keeps what belongs to the suggest side and
    to the query; when the change is not minimal the history results are
    gone. *)
Lemma StartOrStopHistoryQuery_keeps (minimal_changes : bool)
    (s : SearchProvider) :
  let s' := StartOrStopHistoryQuery minimal_changes s in
  profile_ s' = profile_ s
  /\ providers_ s' = providers_ s
  /\ input_ s' = input_ s
  /\ keyword_input_text_ s' = keyword_input_text_ s
  /\ query_suggest_immediately_ s' = query_suggest_immediately_ s
  /\ done_ s' = done_ s
  /\ matches_ s' = matches_ s
  /\ have_suggest_results_ s' = have_suggest_results_ s
  /\ suggest_results_pending_ s' = suggest_results_pending_ s
  /\ timer_ s' = timer_ s
  /\ keyword_fetcher_ s' = keyword_fetcher_ s
  /\ default_fetcher_ s' = default_fetcher_ s
  /\ keyword_suggest_results_ s' = keyword_suggest_results_ s
  /\ default_suggest_results_ s' = default_suggest_results_ s
  /\ keyword_navigation_results_ s' = keyword_navigation_results_ s
  /\ default_navigation_results_ s' = default_navigation_results_ s
  /\ (minimal_changes = false ->
      keyword_history_results_ s' = [] /\ default_history_results_ s' = []
      /\ have_history_results_ s' = false
      /\ (synchronous_only (input_ s) = true ->
          history_request_pending_ s' = false
          /\ pending_requests (history_request_consumer_ s') = [])).
Proof.
  unfold StartOrStopHistoryQuery.
  destruct minimal_changes; cbn [andb];
    repeat match goal with
           | |- context [if ?c then _ else _] => destruct c eqn:?
           end;
    cbv zeta; repeat split; try discriminate; try congruence;
    match goal with
    | Ha : synchronous_only (input_ (StopHistory s)) = false,
      Hb : synchronous_only (input_ s) = true |- _ =>
        exfalso; change (synchronous_only (input_ s) = false) in Ha;
        congruence
    end.
Qed.

Lemma StartOrStopSuggestQuery_effects (minimal_changes : bool)
    (s : SearchProvider) :
  effects_ (StartOrStopSuggestQuery minimal_changes s)
  = effects_ s
    ++ (if IsQuerySuitableForSuggest s
           && negb (minimal_changes
                    && (have_suggest_results_ s
                        || (negb (done_ s)
                            && negb (synchronous_only (input_ s)))))
           && negb (synchronous_only (input_ s))
        then [TimerStarted
                (if query_suggest_immediately_ s then 0 else kQueryDelayMs)]
        else []).
Proof.
  unfold StartOrStopSuggestQuery.
  destruct (IsQuerySuitableForSuggest s); cbn [negb andb];
    [|symmetry; apply app_nil_r].
  destruct (minimal_changes
            && (have_suggest_results_ s
                || (negb (done_ s) && negb (synchronous_only (input_ s)))));
    cbn [negb andb]; [symmetry; apply app_nil_r|].
  cbv zeta.
  change (synchronous_only (input_ (StopSuggest s)))
    with (synchronous_only (input_ s)).
  destruct (synchronous_only (input_ s)); cbn [negb];
    [symmetry; apply app_nil_r|].
  reflexivity.
Qed.

Lemma StartOrStopSuggestQuery_keeps (minimal_changes : bool)
    (s : SearchProvider) :
  let s' := StartOrStopSuggestQuery minimal_changes s in
  profile_ s' = profile_ s
  /\ providers_ s' = providers_ s
  /\ input_ s' = input_ s
  /\ keyword_input_text_ s' = keyword_input_text_ s
  /\ done_ s' = done_ s
  /\ matches_ s' = matches_ s
  /\ have_history_results_ s' = have_history_results_ s
  /\ history_request_pending_ s' = history_request_pending_ s
  /\ history_request_consumer_ s' = history_request_consumer_ s
  /\ keyword_history_results_ s' = keyword_history_results_ s
  /\ default_history_results_ s' = default_history_results_ s
  /\ (minimal_changes = false ->
      keyword_suggest_results_ s' = [] /\ default_suggest_results_ s' = []
      /\ keyword_navigation_results_ s' = []
      /\ default_navigation_results_ s' = []
      /\ keyword_fetcher_ s' = None /\ default_fetcher_ s' = None
      /\ have_suggest_results_ s' = false
      /\ (synchronous_only (input_ s) = true ->
          suggest_results_pending_ s' = 0 /\ timer_ s' = None))
  /\ (IsQuerySuitableForSuggest s = false ->
      suggest_results_pending_ s' = 0 /\ timer_ s' = None
      /\ keyword_fetcher_ s' = None /\ default_fetcher_ s' = None).
Proof.
  unfold StartOrStopSuggestQuery.
  destruct minimal_changes; cbn [andb];
    repeat match goal with
           | |- context [if ?c then _ else _] => destruct c eqn:?
           end;
    cbv zeta; repeat split; try discriminate; try congruence;
    match goal with
    | Ha : negb (IsQuerySuitableForSuggest s) = false,
      Hb : IsQuerySuitableForSuggest s = false |- _ =>
        rewrite Hb in Ha; discriminate Ha
    | Ha : synchronous_only (input_ (StopSuggest s)) = false,
      Hb : synchronous_only (input_ s) = true |- _ =>
        exfalso; change (synchronous_only (input_ s) = false) in Ha;
        congruence
    end.
Qed.

(** Where [Start] goes: it stops without having asked for anything, or
    it comes to the two queries and the pass with the input stored, the
    providers chosen and the matches cleared. *)
Lemma Start_cases (input : AutocompleteInput) (minimal_changes : bool)
    (s : SearchProvider) :
  (exists t, Start input minimal_changes s = Stop t
             /\ effects_ t = effects_ s
             /\ (matches_ t = []
                 \/ exists dp, matches_ t = [PlaceholderMatch dp]))
  \/ (exists t,
        Start input minimal_changes s
        = ConvertResultsToAutocompleteMatches
            (StartOrStopSuggestQuery minimal_changes
               (StartOrStopHistoryQuery minimal_changes t))
        /\ input_ t = input
        /\ effects_ t = effects_ s
        /\ query_suggest_immediately_ t = query_suggest_immediately_ s
        /\ profile_ t = profile_ s
        /\ matches_ t = []
        /\ text input <> ""
        /\ type input <> INVALID
        /\ (valid_keyword_provider (providers_ t) = true ->
            keyword_input_text_ t <> "")).
Proof.
  unfold Start.
  set (s0 := set_matches_ [] s).
  assert (H0 : effects_ s0 = effects_ s
               /\ query_suggest_immediately_ s0 = query_suggest_immediately_ s
               /\ profile_ s0 = profile_ s /\ matches_ s0 = [])
    by (repeat split).
  clearbody s0. cbv zeta.
  destruct H0 as [He0 [Hq0 [Hp0 Hm0]]].
  destruct (profile_ s0) as [profile|] eqn:Hprofile;
    [|left; exists s0; split; [reflexivity|split; [exact He0|left; exact Hm0]]].
  destruct (InputType_eqb (type input) INVALID) eqn:Hvalid;
    [left; exists s0;
     split; [reflexivity|split; [exact He0|left; exact Hm0]]|].
  assert (Hty : type input <> INVALID).
  { intros E. apply InputType_eqb_eq in E. congruence. }
  destruct (GetSubstitutingTemplateURLForInput profile input)
    as [substituting remaining_input].
  set (s1 := set_keyword_input_text_ remaining_input s0).
  assert (H1 : effects_ s1 = effects_ s
               /\ query_suggest_immediately_ s1 = query_suggest_immediately_ s
               /\ profile_ s1 = profile_ s /\ matches_ s1 = []
               /\ keyword_input_text_ s1 = remaining_input).
  { rewrite <- He0, <- Hq0, <- Hp0, <- Hm0. rewrite <- Hprofile.
    repeat split. }
  clearbody s1. destruct H1 as [He1 [Hq1 [Hp1 [Hm1 Hk1]]]].
  rewrite Hk1.
  set (kp0 := if negb (SupportsReplacement substituting)
                 || Nat.eqb (String.length remaining_input) 0
              then None else substituting).
  assert (Hkp0 : isSome kp0 = true -> remaining_input <> "").
  { subst kp0.
    destruct (negb (SupportsReplacement substituting)); cbn [orb];
      [discriminate|].
    destruct remaining_input; cbn; [discriminate|]. intros _. discriminate. }
  clearbody kp0.
  match goal with
  | |- context [TemplateURL_ptr_eqb kp0 ?d] => set (dp := d); clearbody dp
  end.
  set (kp := if TemplateURL_ptr_eqb kp0 dp then None else kp0).
  assert (Hkp : isSome kp = true -> remaining_input <> "").
  { subst kp. destruct (TemplateURL_ptr_eqb kp0 dp); [discriminate|exact Hkp0]. }
  clearbody kp.
  destruct (negb (isSome dp) && negb (isSome kp));
    [left; exists s1;
     split; [reflexivity|split; [exact He1|left; exact Hm1]]|].
  match goal with
  | |- context [set_providers_ _ ?t] => set (s2 := t)
  end.
  assert (H2 : effects_ s2 = effects_ s
               /\ query_suggest_immediately_ s2 = query_suggest_immediately_ s
               /\ profile_ s2 = profile_ s /\ matches_ s2 = []
               /\ keyword_input_text_ s2 = remaining_input).
  { subst s2.
    match goal with
    | |- context [if ?c then _ else _] => destruct c
    end; rewrite <- He1, <- Hq1, <- Hp1, <- Hm1, <- Hk1; repeat split. }
  clearbody s2. destruct H2 as [He2 [Hq2 [Hp2 [Hm2 Hk2]]]].
  destruct (Nat.eqb (String.length (text input)) 0) eqn:Htext.
  - left. destruct dp as [dp|]; eexists; (split; [reflexivity|]).
    + split; [rewrite <- He2; reflexivity|].
      right. exists dp.
      change (matches_ s2 ++ [PlaceholderMatch dp] = [PlaceholderMatch dp]).
      rewrite Hm2. reflexivity.
    + split; [rewrite <- He2; reflexivity|].
      left. rewrite <- Hm2. reflexivity.
  - right. eexists. split; [reflexivity|].
    split; [reflexivity|]. split; [rewrite <- He2; reflexivity|].
    split; [rewrite <- Hq2; reflexivity|].
    split; [rewrite <- Hp2; reflexivity|].
    split; [rewrite <- Hm2; reflexivity|].
    split; [intros E; rewrite E in Htext; discriminate|].
    split; [exact Hty|].
    intros Hvk.
    change (keyword_input_text_
              (set_input_ input
                 (set_providers_ (Providers_Set dp kp (providers_ s2)) s2)))
      with (keyword_input_text_ s2).
    rewrite Hk2. apply Hkp. exact Hvk.
Qed.

Lemma pass_keeps_effects (s : SearchProvider) :
  effects_ (ConvertResultsToAutocompleteMatches s) = effects_ s.
Proof. rewrite ConvertResultsToAutocompleteMatches_frame. reflexivity. Qed.

Lemma set_done_matches_keeps (d : bool) (m : ACMatches) (s : SearchProvider) :
  let s' := set_done_ d (set_matches_ m s) in
  profile_ s' = profile_ s
  /\ providers_ s' = providers_ s
  /\ input_ s' = input_ s
  /\ keyword_input_text_ s' = keyword_input_text_ s
  /\ have_history_results_ s' = have_history_results_ s
  /\ have_suggest_results_ s' = have_suggest_results_ s
  /\ timer_ s' = timer_ s
  /\ keyword_fetcher_ s' = keyword_fetcher_ s
  /\ default_fetcher_ s' = default_fetcher_ s
  /\ keyword_history_results_ s' = keyword_history_results_ s
  /\ default_history_results_ s' = default_history_results_ s
  /\ keyword_suggest_results_ s' = keyword_suggest_results_ s
  /\ default_suggest_results_ s' = default_suggest_results_ s
  /\ keyword_navigation_results_ s' = keyword_navigation_results_ s
  /\ default_navigation_results_ s' = default_navigation_results_ s.
Proof. repeat split. Qed.

(** The pass writes [matches_] and [done_] and nothing else. *)
Lemma pass_keeps (s : SearchProvider) :
  let s' := ConvertResultsToAutocompleteMatches s in
  profile_ s' = profile_ s
  /\ providers_ s' = providers_ s
  /\ input_ s' = input_ s
  /\ keyword_input_text_ s' = keyword_input_text_ s
  /\ have_history_results_ s' = have_history_results_ s
  /\ have_suggest_results_ s' = have_suggest_results_ s
  /\ timer_ s' = timer_ s
  /\ keyword_fetcher_ s' = keyword_fetcher_ s
  /\ default_fetcher_ s' = default_fetcher_ s
  /\ keyword_history_results_ s' = keyword_history_results_ s
  /\ default_history_results_ s' = default_history_results_ s
  /\ keyword_suggest_results_ s' = keyword_suggest_results_ s
  /\ default_suggest_results_ s' = default_suggest_results_ s
  /\ keyword_navigation_results_ s' = keyword_navigation_results_ s
  /\ default_navigation_results_ s' = default_navigation_results_ s.
Proof.
  cbv zeta. rewrite ConvertResultsToAutocompleteMatches_frame.
  apply set_done_matches_keeps.
Qed.

Lemma HistoryQueries_sound (s : SearchProvider) :
  text (input_ s) <> "" ->
  (valid_keyword_provider (providers_ s) = true ->
   keyword_input_text_ s <> "") ->
  (List.length (HistoryQueries s) <= 2)%nat
  /\ Forall (fun e => exists search_id query_text,
                        e = HistoryQueryIssued search_id query_text kMaxMatches
                        /\ query_text <> "")
            (HistoryQueries s).
Proof.
  intros Htext Hkeyword. unfold HistoryQueries.
  destruct (valid_keyword_provider (providers_ s));
    destruct (valid_default_provider (providers_ s)); cbn [app List.length];
    (split; [lia|]); repeat constructor;
    eexists; eexists; (split; [reflexivity|]); auto.
Qed.

(** X11: all that [Start] asks of the outside world is at most two
    history queries, each for [kMaxMatches] results and with a text that
    is not empty, followed by at most one start of the timer, whose delay
    is 0 when suggestions are to be queried immediately and 200 ms
    otherwise; it starts no fetch and does not notify the listener, and
    synchronous input asks for nothing at all. *)
Theorem start_requests (input : AutocompleteInput) (minimal_changes : bool)
    (s : SearchProvider) :
  exists queries timers,
    effects_ (Start input minimal_changes s) = effects_ s ++ queries ++ timers
    /\ (List.length queries <= 2)%nat
    /\ Forall (fun e => exists search_id query_text,
                          e = HistoryQueryIssued search_id query_text
                                kMaxMatches
                          /\ query_text <> "")
              queries
    /\ (timers = []
        \/ timers = [TimerStarted (if query_suggest_immediately_ s
                                   then 0 else kQueryDelayMs)])
    /\ (synchronous_only input = true -> queries = [] /\ timers = []).
Proof.
  destruct (Start_cases input minimal_changes s)
    as [[t [-> [He _]]]|[t [-> [Hi [He [Hq [_ [_ [Htext [_ Hkw]]]]]]]]]].
  - exists [], []. rewrite Stop_effects, He, app_nil_r.
    split; [reflexivity|]. split; [simpl; lia|]. split; [constructor|].
    split; [left; reflexivity|]. intros _. split; reflexivity.
  - rewrite pass_keeps_effects, StartOrStopSuggestQuery_effects,
      StartOrStopHistoryQuery_effects.
    pose proof (StartOrStopHistoryQuery_keeps minimal_changes t) as K.
    cbv zeta in K.
    destruct K as [_ [_ [Ki [_ [Kq [Kd _]]]]]].
    rewrite Ki, Kq, Hi, Hq, He.
    rewrite <- app_assoc.
    eexists; eexists. split; [reflexivity|].
    destruct (HistoryQueries_sound t) as [Hlen Hall];
      [rewrite Hi; exact Htext|exact Hkw|].
    split; [|split; [|split]].
    + destruct ((minimal_changes
                 && (have_history_results_ t
                     || (negb (done_ t) && negb (synchronous_only input))))
                || synchronous_only input); [simpl; lia|exact Hlen].
    + destruct ((minimal_changes
                 && (have_history_results_ t
                     || (negb (done_ t) && negb (synchronous_only input))))
                || synchronous_only input); [constructor|exact Hall].
    + match goal with
      | |- context [if ?c then [TimerStarted _] else []] => destruct c
      end; [right|left]; reflexivity.
    + intros Hsync. rewrite Hsync, orb_true_r, andb_false_r.
      split; reflexivity.
Qed.

(** The pass over a state that holds no results gives the match for what
    the user typed, when there is a default provider, and nothing else. *)
Lemma pass_without_results (s : SearchProvider) :
  keyword_history_results_ s = [] -> default_history_results_ s = [] ->
  keyword_suggest_results_ s = [] -> default_suggest_results_ s = [] ->
  keyword_navigation_results_ s = [] -> default_navigation_results_ s = [] ->
  matches_ (ConvertResultsToAutocompleteMatches s)
  = if valid_default_provider (providers_ s)
    then [WithStarredState
            (SearchMatch (text (input_ s))
               (release (CalculateRelevanceForWhatYouTyped s))
               SEARCH_WHAT_YOU_TYPED NO_SUGGESTIONS_AVAILABLE false s)]
    else [].
Proof.
  intros Hkh Hdh Hks Hds Hkn Hdn.
  rewrite pass_matches_sorted, UnsortedMatches_matches.
  unfold NavigationMatches, CollectMatches.
  rewrite Hkh, Hdh, Hks, Hds, Hkn, Hdn. cbv zeta.
  unfold AddSuggestResultsToMap, AddHistoryResultsToMap, indexed.
  cbn [List.length seq combine fold_left app].
  rewrite app_nil_r.
  destruct (valid_default_provider (providers_ s)).
  - unfold AddMatchToMap, MatchMap_insert. cbv zeta.
    cbn [MatchMap_find MatchMap_place MatchMap_values map snd].
    unfold partial_sort. cbn [fold_right sort_insert].
    rewrite Nat.add_1_r. cbn [firstn]. rewrite firstn_nil. reflexivity.
  - cbn [MatchMap_values map]. unfold partial_sort. cbn [fold_right].
    rewrite firstn_nil. reflexivity.
Qed.

(** X12: a call of [Start] that is no minimal change leaves nothing of
    an earlier query behind: the history results, the suggestions and
    the navigation results of both providers are empty, no fetcher is
    kept, and [matches_] is empty or holds one match, the placeholder or
    the match for what the user typed. *)
Theorem start_afresh_drops_results (input : AutocompleteInput)
    (s : SearchProvider) :
  let s' := Start input false s in
  keyword_history_results_ s' = [] /\ default_history_results_ s' = []
  /\ keyword_suggest_results_ s' = [] /\ default_suggest_results_ s' = []
  /\ keyword_navigation_results_ s' = []
  /\ default_navigation_results_ s' = []
  /\ keyword_fetcher_ s' = None /\ default_fetcher_ s' = None
  /\ have_history_results_ s' = false /\ have_suggest_results_ s' = false
  /\ (matches_ s' = []
      \/ (exists dp, matches_ s' = [PlaceholderMatch dp])
      \/ (exists m, matches_ s' = [m]
                    /\ match_type m = SEARCH_WHAT_YOU_TYPED
                    /\ contents m = text input)).
Proof.
  cbv zeta.
  destruct (Start_cases input false s)
    as [[t [-> [_ Hm]]]|[t [-> [Hi _]]]].
  - destruct (Stop_state t)
      as [Sm [_ [_ [_ [_ [Shh [_ [Shs [_ [Skf [Sdf
          [Skh [Sdh [Sks [Sds [Skn Sdn]]]]]]]]]]]]]]]].
    repeat (split; [assumption|]).
    rewrite Sm. destruct Hm as [Hm|Hm]; [left|right; left]; exact Hm.
  - set (u1 := StartOrStopHistoryQuery false t).
    set (u2 := StartOrStopSuggestQuery false u1).
    pose proof (StartOrStopHistoryQuery_keeps false t) as K1.
    pose proof (StartOrStopSuggestQuery_keeps false u1) as K2.
    pose proof (pass_keeps u2) as K3.
    cbv zeta in K1, K2, K3. fold u1 in K1. fold u2 in K2.
    destruct K1 as [_ [K1p [K1i [_ [_ [_ [_ [_ [_ [_ [_ [_ [_ [_ [_ [_ K1h]]]]]]]]]]]]]]]].
    destruct (K1h eq_refl) as [K1kh [K1dh [K1hh _]]].
    destruct K2 as [_ [K2p [K2i [_ [_ [_ [K2hh [_ [_ [K2kh [K2dh [K2s _]]]]]]]]]]]].
    destruct (K2s eq_refl) as [K2ks [K2ds [K2kn [K2dn [K2kf [K2df [K2hs _]]]]]]].
    destruct K3 as [_ [_ [_ [_ [K3hh [K3hs [_ [K3kf [K3df [K3kh [K3dh
                     [K3ks [K3ds [K3kn K3dn]]]]]]]]]]]]]].
    rewrite K3kh, K3dh, K3ks, K3ds, K3kn, K3dn, K3kf, K3df, K3hh, K3hs.
    rewrite K2kh, K2dh, K2hh, K1kh, K1dh, K1hh.
    repeat (split; [assumption || reflexivity|]).
    rewrite pass_without_results by congruence.
    destruct (valid_default_provider (providers_ u2)); [|left; reflexivity].
    right. right. eexists. split; [reflexivity|].
    split; [reflexivity|].
    change (text (input_ u2) = text input).
    rewrite K2i, K1i, Hi. reflexivity.
Qed.

(** The gate refuses whenever the profile is off the record or has
    suggestions turned off. *)
Lemma gate_refuses_private (s : SearchProvider) (profile : Profile) :
  profile_ s = Some profile ->
  IsOffTheRecord profile = true \/ kSearchSuggestEnabled profile = false ->
  IsQuerySuitableForSuggest s = false.
Proof.
  intros Hp Hprivate. unfold IsQuerySuitableForSuggest. rewrite Hp.
  destruct Hprivate as [-> | ->]; cbn [orb negb];
    rewrite ?orb_true_r; reflexivity.
Qed.

(** X13: with a profile that is off the record, or one that has
    suggestions turned off, [Start] never sets the suggest side going:
    it asks for history queries only, no timer runs afterwards, no fetch
    is counted or kept, and the timer task has nothing to do. *)
Theorem private_start_asks_no_suggestions (input : AutocompleteInput)
    (minimal_changes : bool) (s : SearchProvider) (profile : Profile) :
  profile_ s = Some profile ->
  IsOffTheRecord profile = true \/ kSearchSuggestEnabled profile = false ->
  let s' := Start input minimal_changes s in
  timer_ s' = None /\ suggest_results_pending_ s' = 0
  /\ keyword_fetcher_ s' = None /\ default_fetcher_ s' = None
  /\ TimerFired s' = s'
  /\ exists queries,
       effects_ s' = effects_ s ++ queries
       /\ Forall (fun e => exists search_id query_text,
                             e = HistoryQueryIssued search_id query_text
                                   kMaxMatches)
                 queries.
Proof.
  intros Hp Hprivate. cbv zeta.
  assert (Hgoal :
    timer_ (Start input minimal_changes s) = None
    /\ suggest_results_pending_ (Start input minimal_changes s) = 0
    /\ keyword_fetcher_ (Start input minimal_changes s) = None
    /\ default_fetcher_ (Start input minimal_changes s) = None
    /\ exists queries,
         effects_ (Start input minimal_changes s) = effects_ s ++ queries
         /\ Forall (fun e => exists search_id query_text,
                               e = HistoryQueryIssued search_id query_text
                                     kMaxMatches)
                   queries).
  { destruct (Start_cases input minimal_changes s)
      as [[t [-> [He _]]]|[t [-> [Hi [He [_ [Hpt [_ [Htext [_ Hkw]]]]]]]]]].
    - destruct (Stop_state t)
        as [_ [Se [_ [_ [_ [_ [Sp [_ [St [Skf [Sdf _]]]]]]]]]]].
      repeat (split; [assumption|]).
      exists []. rewrite Se, He, app_nil_r. split; [reflexivity|constructor].
    - set (u1 := StartOrStopHistoryQuery minimal_changes t).
      pose proof (StartOrStopHistoryQuery_keeps minimal_changes t) as K1.
      pose proof (StartOrStopSuggestQuery_keeps minimal_changes u1) as K2.
      cbv zeta in K1, K2. fold u1 in K1.
      destruct K1 as [K1p _].
      assert (Hgate : IsQuerySuitableForSuggest u1 = false).
      { apply (gate_refuses_private u1 profile); [|exact Hprivate].
        rewrite K1p, Hpt. exact Hp. }
      destruct K2 as [_ [_ [_ [_ [_ [_ [_ [_ [_ [_ [_ [_ K2g]]]]]]]]]]]].
      destruct (K2g Hgate) as [K2c [K2t [K2kf K2df]]].
      set (u2 := StartOrStopSuggestQuery minimal_changes u1) in *.
      destruct (pass_keeps u2)
        as [_ [_ [_ [_ [_ [_ [K3t [K3kf [K3df _]]]]]]]]].
      destruct (pass_keeps_pending u2) as [_ [K3c _]].
      rewrite K3t, K3c, K3kf, K3df.
      repeat (split; [assumption|]).
      rewrite pass_keeps_effects. subst u2.
      rewrite StartOrStopSuggestQuery_effects, Hgate. cbn [andb].
      rewrite app_nil_r. subst u1.
      rewrite StartOrStopHistoryQuery_effects, He.
      eexists. split; [reflexivity|].
      destruct (HistoryQueries_sound t) as [_ Hall];
        [rewrite Hi; exact Htext|exact Hkw|].
      match goal with
      | |- Forall _ (if ?c then [] else _) => destruct c
      end; [constructor|].
      eapply Forall_impl; [|exact Hall].
      intros e [i [q [-> _]]]. eexists; eexists; reflexivity. }
  destruct Hgoal as [Ht [Hc [Hkf [Hdf Hq]]]].
  repeat (split; [assumption|]).
  split; [|exact Hq].
  unfold TimerFired. rewrite Ht. reflexivity.
Qed.

End Requests.

(** ** The timer task *)

Section Fetches.

Context {H : Host}.

Lemma Run_effects (s : SearchProvider) :
  effects_ (Run s) = effects_ s ++ SuggestFetches s.
Proof.
  unfold Run, SuggestFetches. cbv zeta.
  change (valid_suggest_for_keyword_provider
            (providers_ (set_suggest_results_pending_ 0 s)))
    with (valid_suggest_for_keyword_provider (providers_ s)).
  destruct (valid_suggest_for_keyword_provider (providers_ s));
    match goal with
    | |- context [valid_suggest_for_default_provider (providers_ ?t)] =>
        progress change (valid_suggest_for_default_provider (providers_ t))
          with (valid_suggest_for_default_provider (providers_ s))
    end;
    destruct (valid_suggest_for_default_provider (providers_ s));
    cbn [app].
  - unfold CreateSuggestFetcher, log.
    cbn [effects_ set_effects_ set_keyword_fetcher_ set_default_fetcher_
         set_suggest_results_pending_ fetch_url].
    rewrite <- app_assoc. reflexivity.
  - reflexivity.
  - reflexivity.
  - symmetry. apply app_nil_r.
Qed.

Lemma Run_pending (s : SearchProvider) :
  suggest_results_pending_ (Run s)
  = Z.of_nat (List.length (SuggestFetches s)).
Proof.
  unfold Run, SuggestFetches. cbv zeta.
  change (valid_suggest_for_keyword_provider
            (providers_ (set_suggest_results_pending_ 0 s)))
    with (valid_suggest_for_keyword_provider (providers_ s)).
  destruct (valid_suggest_for_keyword_provider (providers_ s));
    match goal with
    | |- context [valid_suggest_for_default_provider (providers_ ?t)] =>
        progress change (valid_suggest_for_default_provider (providers_ t))
          with (valid_suggest_for_default_provider (providers_ s))
    end;
    destruct (valid_suggest_for_default_provider (providers_ s));
    reflexivity.
Qed.

(** Run leaves the history side, the timer and the query alone. *)
Lemma Run_keeps (s : SearchProvider) :
  timer_ (Run s) = timer_ s
  /\ done_ (Run s) = done_ s
  /\ matches_ (Run s) = matches_ s
  /\ history_request_pending_ (Run s) = history_request_pending_ s
  /\ history_request_consumer_ (Run s) = history_request_consumer_ s.
Proof.
  unfold Run. cbv zeta.
  repeat match goal with
         | |- context [if ?c then _ else _] => destruct c
         end; repeat split.
Qed.

(** X14: the timer task starts one fetch for each provider that has a
    suggest endpoint, the keyword provider first, each for the text typed
    for that provider, and starts nothing else; the count of outstanding
    fetches it leaves is the number of fetches it has started. *)
Theorem run_counts_its_fetches (s : SearchProvider) :
  effects_ (Run s) = effects_ s ++ SuggestFetches s
  /\ suggest_results_pending_ (Run s)
     = Z.of_nat (List.length (SuggestFetches s))
  /\ (List.length (SuggestFetches s) <= 2)%nat
  /\ Forall (fun e => IsFetchStarted e = true) (SuggestFetches s).
Proof.
  split; [apply Run_effects|]. split; [apply Run_pending|].
  unfold SuggestFetches.
  destruct (valid_suggest_for_keyword_provider (providers_ s)),
           (valid_suggest_for_default_provider (providers_ s));
    cbn [app List.length]; (split; [lia|]); repeat constructor.
Qed.

Lemma gate_needs_endpoint (s : SearchProvider) :
  IsQuerySuitableForSuggest s = true ->
  valid_suggest_for_keyword_provider (providers_ s)
  || valid_suggest_for_default_provider (providers_ s) = true.
Proof.
  unfold IsQuerySuitableForSuggest.
  destruct (profile_ s) as [profile|]; [|discriminate].
  destruct (valid_suggest_for_keyword_provider (providers_ s)),
           (valid_suggest_for_default_provider (providers_ s));
    try reflexivity.
  cbn [negb andb orb]. rewrite orb_true_r. cbn [orb]. discriminate.
Qed.

Lemma SuggestFetches_depends (s t : SearchProvider) :
  providers_ t = providers_ s -> input_ t = input_ s ->
  keyword_input_text_ t = keyword_input_text_ s ->
  SuggestFetches t = SuggestFetches s.
Proof.
  intros Hp Hi Hk. unfold SuggestFetches. rewrite Hp, Hi, Hk. reflexivity.
Qed.

Lemma set_timer_keeps (o : option Z) (s : SearchProvider) :
  timer_ (set_timer_ o s) = o
  /\ effects_ (set_timer_ o s) = effects_ s
  /\ providers_ (set_timer_ o s) = providers_ s
  /\ input_ (set_timer_ o s) = input_ s
  /\ keyword_input_text_ (set_timer_ o s) = keyword_input_text_ s
  /\ history_request_pending_ (set_timer_ o s) = history_request_pending_ s
  /\ history_request_consumer_ (set_timer_ o s) = history_request_consumer_ s.
Proof. repeat split. Qed.

(** X15: whenever a timer is left running by [Start], the timer task has
    a provider with a suggest endpoint to ask: it starts at least one
    fetch, so the count of outstanding fetches is positive when it
    returns, and the timer is no longer running. *)
Theorem started_timer_leads_to_a_fetch (input : AutocompleteInput)
    (minimal_changes : bool) (s : SearchProvider) :
  let s' := Start input minimal_changes s in
  timer_ s' <> None ->
  SuggestFetches s' <> []
  /\ effects_ (TimerFired s') = effects_ s' ++ SuggestFetches s'
  /\ 0 < suggest_results_pending_ (TimerFired s')
  /\ timer_ (TimerFired s') = None.
Proof.
  cbv zeta.
  destruct (Start_cases input minimal_changes s)
    as [[t [-> _]]|[t [-> _]]].
  - destruct (Stop_state t) as [_ [_ [_ [_ [_ [_ [_ [_ [St _]]]]]]]]].
    rewrite St. intros Hn. contradiction.
  - set (u1 := StartOrStopHistoryQuery minimal_changes t).
    pose proof (StartOrStopSuggestQuery_keeps minimal_changes u1) as K2.
    cbv zeta in K2.
    set (u2 := StartOrStopSuggestQuery minimal_changes u1) in *.
    destruct K2 as [_ [K2p [_ [_ [_ [_ [_ [_ [_ [_ [_ [_ K2g]]]]]]]]]]]].
    pose proof (pass_keeps u2) as K3. cbv zeta in K3.
    set (s' := ConvertResultsToAutocompleteMatches u2) in *.
    destruct K3 as [_ [K3p [_ [_ [_ [_ [K3t _]]]]]]].
    intros Htimer.
    assert (Hgate : IsQuerySuitableForSuggest u1 = true).
    { destruct (IsQuerySuitableForSuggest u1); [reflexivity|].
      destruct (K2g eq_refl) as [_ [Hnone _]].
      exfalso. apply Htimer. rewrite K3t. exact Hnone. }
    apply gate_needs_endpoint in Hgate.
    rewrite <- K2p, <- K3p in Hgate.
    assert (Hsome : SuggestFetches s' <> []).
    { unfold SuggestFetches.
      destruct (valid_suggest_for_keyword_provider (providers_ s'));
        [discriminate|].
      destruct (valid_suggest_for_default_provider (providers_ s'));
        [discriminate|]. discriminate Hgate. }
    split; [exact Hsome|].
    unfold TimerFired.
    destruct (timer_ s') as [delay|]; [|contradiction].
    destruct (set_timer_keeps None s') as [Tt [Te [Tp [Ti [Tk _]]]]].
    destruct (Run_keeps (set_timer_ None s')) as [Rt _].
    rewrite Run_effects, Run_pending, Rt, Tt, Te.
    rewrite (SuggestFetches_depends s' (set_timer_ None s') Tp Ti Tk).
    split; [reflexivity|]. split; [|reflexivity].
    destruct (SuggestFetches s'); [contradiction|].
    cbn [List.length]. lia.
Qed.

End Fetches.

(** ** The callbacks *)

Section Callbacks.

Context {H : Host}.

Lemma set_results_keeps (a b : SuggestResults) (c d : NavigationResults)
    (s : SearchProvider) :
  effects_ (set_results a b c d s) = effects_ s
  /\ history_request_pending_ (set_results a b c d s)
     = history_request_pending_ s
  /\ history_request_consumer_ (set_results a b c d s)
     = history_request_consumer_ s.
Proof. repeat split. Qed.

(** The fetch callback runs its pass on a state that differs from the
    one it was called on in the suggest side only. *)
Lemma OnURLFetchComplete_shape source ok code data (s : SearchProvider) :
  exists t e,
    OnURLFetchComplete source ok code data s
    = log e (ConvertResultsToAutocompleteMatches t)
    /\ IsProviderUpdate e = true
    /\ effects_ t = effects_ s
    /\ history_request_pending_ t = history_request_pending_ s
    /\ history_request_consumer_ t = history_request_consumer_ s.
Proof.
  unfold OnURLFetchComplete. eexists. eexists.
  split; [reflexivity|]. split; [reflexivity|].
  set (s1 := set_suggest_results_pending_
               (Int.sub (suggest_results_pending_ s) 1) s).
  destruct (ok && (code =? 200)); [|repeat split].
  match goal with
  | |- context [Deserialize ?d] => destruct (Deserialize d) as [root_val|]
  end; [|repeat split].
  match goal with
  | |- context [ParseSuggestResults root_val ?k ?i s1] =>
      pose proof (ParseSuggestResults_frame root_val k i s1) as Hf;
      destruct (ParseSuggestResults root_val k i s1) as [parsed s2]
  end.
  cbv zeta in Hf. cbn [snd] in Hf. rewrite Hf. repeat split.
Qed.

Lemma OnGotMostRecentKeywordSearchTerms_shape handle results
    (s : SearchProvider) :
  exists t,
    OnGotMostRecentKeywordSearchTerms handle results s
    = log (ProviderUpdate (negb (Nat.eqb (List.length results) 0)))
        (ConvertResultsToAutocompleteMatches t)
    /\ effects_ t = effects_ s
    /\ suggest_results_pending_ t = suggest_results_pending_ s
    /\ history_request_pending_ t
       = (if Nat.eqb (PendingRequestCount (history_request_consumer_ s)) 1
          then false else history_request_pending_ s)
    /\ history_request_consumer_ t = history_request_consumer_ s.
Proof.
  unfold OnGotMostRecentKeywordSearchTerms. eexists.
  split; [reflexivity|].
  match goal with
  | |- context [if ?c then set_keyword_history_results_ _ _ else _] =>
      destruct c
  end;
    match goal with
    | |- context [PendingRequestCount (history_request_consumer_ ?t)] =>
        change (history_request_consumer_ t)
          with (history_request_consumer_ s)
    end;
    destruct (Nat.eqb (PendingRequestCount (history_request_consumer_ s)) 1);
    repeat split.
Qed.

Lemma log_effects (e : Effect) (s : SearchProvider) :
  effects_ (log e s) = effects_ s ++ [e].
Proof. reflexivity. Qed.

(** X16: a callback asks nothing of the outside world but notifies the
    listener, once and after its pass: the fetch callback with some
    flag, the history callback with the flag that tells whether the
    results it was given are not empty. *)
Theorem callbacks_notify_once (s : SearchProvider) :
  (forall source ok code data,
     exists changed,
       effects_ (OnURLFetchComplete source ok code data s)
       = effects_ s ++ [ProviderUpdate changed])
  /\ (forall handle results,
        effects_ (OnGotMostRecentKeywordSearchTerms handle results s)
        = effects_ s
          ++ [ProviderUpdate (negb (Nat.eqb (List.length results) 0))]).
Proof.
  split.
  - intros source ok code data.
    destruct (OnURLFetchComplete_shape source ok code data s)
      as [t [e [-> [He [Hf _]]]]].
    rewrite log_effects, pass_keeps_effects, Hf.
    destruct e; try discriminate He. eexists. reflexivity.
  - intros handle results.
    destruct (OnGotMostRecentKeywordSearchTerms_shape handle results s)
      as [t [-> [Hf _]]].
    rewrite log_effects, pass_keeps_effects, Hf. reflexivity.
Qed.

(** *** The flag and the consumer *)

Lemma HistoryConsistent_depends (s t : SearchProvider) :
  history_request_pending_ t = history_request_pending_ s ->
  history_request_consumer_ t = history_request_consumer_ s ->
  HistoryConsistent s -> HistoryConsistent t.
Proof.
  intros Hp Hc. unfold HistoryConsistent. rewrite Hp, Hc. auto.
Qed.

Lemma StopHistory_consistent (s : SearchProvider) :
  HistoryConsistent (StopHistory s).
Proof.
  assert (Hstate : history_request_pending_ (StopHistory s) = false
                   /\ history_request_consumer_ (StopHistory s)
                      = CancelAllRequests (history_request_consumer_ s))
    by (split; reflexivity).
  destruct Hstate as [Hp Hc].
  unfold HistoryConsistent. rewrite Hp, Hc.
  unfold CancelAllRequests. cbn [pending_requests next_handle].
  split; [reflexivity|]. split; constructor.
Qed.

Lemma Stop_consistent (s : SearchProvider) : HistoryConsistent (Stop s).
Proof.
  apply (HistoryConsistent_depends (StopHistory s));
    [reflexivity|reflexivity|apply StopHistory_consistent].
Qed.

Lemma ScheduleHistoryQuery_consistent (search_id : TemplateURLID)
    (query_text : string) (s : SearchProvider) :
  HistoryConsistent s ->
  HistoryConsistent (ScheduleHistoryQuery search_id query_text s).
Proof.
  unfold HistoryConsistent. cbv zeta. intros [_ [Hnd Hall]].
  change (pending_requests
            (history_request_consumer_
               (ScheduleHistoryQuery search_id query_text s)))
    with (pending_requests (history_request_consumer_ s)
          ++ [(next_handle (history_request_consumer_ s), search_id)]).
  change (next_handle
            (history_request_consumer_
               (ScheduleHistoryQuery search_id query_text s)))
    with (next_handle (history_request_consumer_ s) + 1).
  change (history_request_pending_
            (ScheduleHistoryQuery search_id query_text s)) with true.
  generalize dependent (pending_requests (history_request_consumer_ s)).
  generalize (next_handle (history_request_consumer_ s)).
  intros next requests Hnd Hall.
  split; [|split].
  - rewrite length_app. cbn [List.length].
    destruct (Nat.eqb_spec (List.length requests + 1) 0); [lia|reflexivity].
  - rewrite map_app. cbn [map fst].
    apply NoDup_app; [exact Hnd|repeat constructor; intros []|].
    intros h Hin [<-|[]].
    apply in_map_iff in Hin. destruct Hin as [r [Hr Hin]].
    rewrite Forall_forall in Hall. specialize (Hall r Hin).
    cbv beta in Hall. unfold Handle in *. rewrite Hr in Hall. exact (Z.lt_irrefl _ Hall).
  - apply Forall_app. split.
    + eapply Forall_impl; [|exact Hall]. cbv beta. intros r Hr.
      apply Z.lt_trans with next; [exact Hr|apply Z.lt_succ_diag_r].
    + repeat constructor. cbn [fst]. apply Z.lt_succ_diag_r.
Qed.

Lemma StartOrStopHistoryQuery_consistent (minimal_changes : bool)
    (s : SearchProvider) :
  HistoryConsistent s ->
  HistoryConsistent (StartOrStopHistoryQuery minimal_changes s).
Proof.
  intros Hs. unfold StartOrStopHistoryQuery.
  destruct (minimal_changes
            && (have_history_results_ s
                || (negb (done_ s) && negb (synchronous_only (input_ s)))));
    [exact Hs|].
  cbv zeta. pose proof (StopHistory_consistent s) as H0.
  generalize dependent (StopHistory s). intros s0 H0.
  destruct (synchronous_only (input_ s0)); [exact H0|].
  destruct (valid_keyword_provider (providers_ s0)).
  - match goal with
    | |- context [valid_default_provider (providers_ ?t)] =>
        destruct (valid_default_provider (providers_ t))
    end; repeat apply ScheduleHistoryQuery_consistent; exact H0.
  - destruct (valid_default_provider (providers_ s0));
      [apply ScheduleHistoryQuery_consistent|]; exact H0.
Qed.

Lemma Start_consistent (input : AutocompleteInput) (minimal_changes : bool)
    (s : SearchProvider) :
  HistoryConsistent s -> HistoryConsistent (Start input minimal_changes s).
Proof.
  intros Hs. unfold Start.
  assert (H0 : HistoryConsistent (set_matches_ [] s))
    by (revert Hs; apply HistoryConsistent_depends; reflexivity).
  generalize dependent (set_matches_ [] s). intros s0 H0. cbv zeta.
  destruct (profile_ s0) as [profile|]; [|apply Stop_consistent].
  destruct (InputType_eqb (type input) INVALID); [apply Stop_consistent|].
  destruct (GetSubstitutingTemplateURLForInput profile input)
    as [substituting remaining_input].
  assert (H1 : HistoryConsistent
                 (set_keyword_input_text_ remaining_input s0))
    by (revert H0; apply HistoryConsistent_depends; reflexivity).
  generalize dependent (set_keyword_input_text_ remaining_input s0).
  intros s1 H1.
  match goal with
  | |- context [negb (isSome ?d) && negb (isSome ?k)] =>
      generalize d, k; intros dp kp
  end.
  destruct (negb (isSome dp) && negb (isSome kp)); [apply Stop_consistent|].
  match goal with
  | |- context [set_providers_ _ ?t] =>
      assert (H2 : HistoryConsistent t)
  end.
  { match goal with
    | |- context [if ?c then _ else _] => destruct c
    end; [apply Stop_consistent|exact H1]. }
  match goal with
  | |- context [set_providers_ ?q ?t] =>
      assert (H3 : HistoryConsistent (set_providers_ q t))
        by (revert H2; apply HistoryConsistent_depends; reflexivity);
      generalize dependent (set_providers_ q t)
  end.
  intros s3 H3.
  destruct (Nat.eqb (String.length (text input)) 0);
    [apply Stop_consistent|].
  assert (H4 : HistoryConsistent (set_input_ input s3))
    by (revert H3; apply HistoryConsistent_depends; reflexivity).
  generalize dependent (set_input_ input s3). intros s4 H4.
  apply (StartOrStopHistoryQuery_consistent minimal_changes) in H4.
  generalize dependent (StartOrStopHistoryQuery minimal_changes s4).
  intros u1 H5.
  pose proof (StartOrStopSuggestQuery_keeps minimal_changes u1) as K2.
  cbv zeta in K2.
  destruct K2 as [_ [_ [_ [_ [_ [_ [_ [K2p [K2c _]]]]]]]]].
  pose proof (HistoryConsistent_depends u1 _ K2p K2c H5) as H6.
  generalize dependent (StartOrStopSuggestQuery minimal_changes u1).
  intros u2 _ _ H6.
  destruct (pass_keeps_pending u2) as [K3p [_ K3c]].
  exact (HistoryConsistent_depends u2 _ K3p K3c H6).
Qed.

Lemma filter_other_handles (h : Handle)
    (requests : list (Handle * TemplateURLID)) :
  NoDup (map fst requests) -> In h (map fst requests) ->
  S (List.length (filter (fun r => negb (fst r =? h)) requests))
  = List.length requests.
Proof.
  unfold Handle in *.
  induction requests as [|[h' d] rest IH]; intros Hnd Hin; [contradiction|].
  cbn [map fst] in Hnd, Hin. inversion Hnd as [|? ? Hnotin Hnd']; subst.
  cbn [filter fst List.length].
  destruct (Z.eqb_spec h' h) as [->|Hneq]; cbn [negb].
  - f_equal.
    assert (Hall : forall r, In r rest -> negb (fst r =? h) = true).
    { intros r Hr. destruct (Z.eqb_spec (fst r) h) as [E|]; [|reflexivity].
      exfalso. apply Hnotin. rewrite <- E. apply in_map. exact Hr. }
    clear -Hall. induction rest as [|r rest IH]; [reflexivity|].
    cbn [filter]. cbv beta. rewrite (Hall r) by (left; reflexivity).
    cbn [List.length]. f_equal. apply IH. intros r' Hr'. apply Hall.
    right. exact Hr'.
  - cbn [List.length]. f_equal. apply IH; [exact Hnd'|].
    destruct Hin as [E|Hin]; [contradiction|exact Hin].
Qed.

Lemma NoDup_map_filter {A B : Type} (f : A -> B) (keep : A -> bool)
    (l : list A) :
  NoDup (map f l) -> NoDup (map f (filter keep l)).
Proof.
  induction l as [|a l IH]; intros Hnd; [constructor|].
  cbn [map] in Hnd. inversion Hnd as [|? ? Hnotin Hnd']; subst.
  cbn [filter]. destruct (keep a); [|apply IH, Hnd'].
  cbn [map]. constructor; [|apply IH, Hnd'].
  intros Hin. apply Hnotin. apply in_map_iff in Hin.
  destruct Hin as [x [Hx Hin]]. apply filter_In in Hin.
  rewrite <- Hx. apply in_map. apply Hin.
Qed.

Lemma existsb_handle (h : Handle) (requests : list (Handle * TemplateURLID)) :
  existsb (fun r => fst r =? h) requests = true <-> In h (map fst requests).
Proof.
  unfold Handle in *. rewrite existsb_exists, in_map_iff. split.
  - intros [r [Hin Hr]]. exists r. split; [lia|exact Hin].
  - intros [r [Hr Hin]]. exists r. split; [exact Hin|lia].
Qed.

(** Taking the answered request off the consumer, when the callback has
    already cleared the flag for the last request. *)
Lemma RemoveRequest_consistent (handle : Handle) (w s : SearchProvider) :
  HistoryConsistent s ->
  In handle (map fst (pending_requests (history_request_consumer_ s))) ->
  history_request_consumer_ w = history_request_consumer_ s ->
  history_request_pending_ w
  = (if Nat.eqb (PendingRequestCount (history_request_consumer_ s)) 1
     then false else history_request_pending_ s) ->
  let s' := set_history_request_consumer_
              (RemoveRequest handle (history_request_consumer_ w)) w in
  HistoryConsistent s'
  /\ S (PendingRequestCount (history_request_consumer_ s'))
     = PendingRequestCount (history_request_consumer_ s)
  /\ suggest_results_pending_ s' = suggest_results_pending_ w
  /\ done_ s' = done_ w
  /\ history_request_pending_ w
     = negb (Nat.eqb (PendingRequestCount (history_request_consumer_ s')) 0).
Proof.
  intros [Hflag [Hnd Hall]] Hin Hcons Hp. cbv zeta in *.
  unfold HistoryConsistent, PendingRequestCount in *.
  change (history_request_consumer_
            (set_history_request_consumer_
               (RemoveRequest handle (history_request_consumer_ w)) w))
    with (RemoveRequest handle (history_request_consumer_ w)).
  change (history_request_pending_
            (set_history_request_consumer_
               (RemoveRequest handle (history_request_consumer_ w)) w))
    with (history_request_pending_ w).
  change (suggest_results_pending_
            (set_history_request_consumer_
               (RemoveRequest handle (history_request_consumer_ w)) w))
    with (suggest_results_pending_ w).
  change (done_
            (set_history_request_consumer_
               (RemoveRequest handle (history_request_consumer_ w)) w))
    with (done_ w).
  rewrite Hcons, Hp. clear Hp Hcons.
  unfold RemoveRequest. cbn [pending_requests next_handle].
  pose proof (filter_other_handles handle _ Hnd Hin) as Hlen.
  generalize dependent (pending_requests (history_request_consumer_ s)).
  intros requests Hflag Hnd Hall Hin Hlen.
  set (others := filter (fun r => negb (fst r =? handle)) requests) in *.
  assert (Hnew : (if Nat.eqb (List.length requests) 1
                  then false else history_request_pending_ s)
                 = negb (Nat.eqb (List.length others) 0)).
  { rewrite Hflag, <- Hlen.
    destruct (List.length others) as [|n]; reflexivity. }
  split; [split; [exact Hnew|split]|].
  - apply NoDup_map_filter, Hnd.
  - subst others. rewrite Forall_forall in *. intros r Hr.
    apply filter_In in Hr. apply Hall, Hr.
  - split; [exact Hlen|]. split; [reflexivity|].
    split; [reflexivity|exact Hnew].
Qed.

(** What delivering an answer does to the history side. *)
Lemma HistoryRequestCompleted_history (handle : Handle)
    (results : HistoryResults) (s : SearchProvider) :
  HistoryConsistent s ->
  In handle (map fst (pending_requests (history_request_consumer_ s))) ->
  let s' := HistoryRequestCompleted handle results s in
  HistoryConsistent s'
  /\ S (PendingRequestCount (history_request_consumer_ s'))
     = PendingRequestCount (history_request_consumer_ s)
  /\ suggest_results_pending_ s' = suggest_results_pending_ s
  /\ done_ s'
     = Nat.eqb (PendingRequestCount (history_request_consumer_ s')) 0
       && (suggest_results_pending_ s' =? 0).
Proof.
  intros Hs Hin. cbv zeta.
  unfold HistoryRequestCompleted.
  rewrite (proj2 (existsb_handle handle _) Hin). cbv zeta.
  assert (Hw : history_request_consumer_
                 (OnGotMostRecentKeywordSearchTerms handle results s)
               = history_request_consumer_ s
               /\ history_request_pending_
                    (OnGotMostRecentKeywordSearchTerms handle results s)
                  = (if Nat.eqb (PendingRequestCount
                                   (history_request_consumer_ s)) 1
                     then false else history_request_pending_ s)
               /\ suggest_results_pending_
                    (OnGotMostRecentKeywordSearchTerms handle results s)
                  = suggest_results_pending_ s
               /\ done_ (OnGotMostRecentKeywordSearchTerms handle results s)
                  = negb (history_request_pending_
                            (OnGotMostRecentKeywordSearchTerms handle
                               results s))
                    && (suggest_results_pending_ s =? 0)).
  { destruct (OnGotMostRecentKeywordSearchTerms_shape handle results s)
      as [t [-> [_ [Hc [Hp Hcons]]]]].
    destruct (pass_keeps_pending t) as [K3p [K3c K3cons]].
    rewrite log_history_request_consumer, log_history_request_pending,
      log_suggest_results_pending, log_done, pass_done.
    rewrite K3p, K3c, K3cons, Hcons, Hp, Hc. repeat split. }
  generalize dependent (OnGotMostRecentKeywordSearchTerms handle results s).
  intros w [Hcons [Hp [Hc Hd]]].
  destruct (RemoveRequest_consistent handle w s Hs Hin Hcons Hp)
    as [R1 [R2 [R3 [R4 R5]]]].
  split; [exact R1|]. split; [exact R2|].
  rewrite R3, R4, Hd, Hc, R5, negb_involutive.
  split; reflexivity.
Qed.

(** X17: the flag [history_request_pending_] tracks the consumer.  In a
    new provider, and after every call of [Start], [Stop], the timer
    task, the fetch callback and the delivery of a history answer, the
    flag is set exactly while the consumer holds a request, and the
    handles of the requests held are distinct. *)
Theorem history_flag_tracks_consumer :
  (forall profile input,
     HistoryConsistent (SearchProvider_new profile input))
  /\ (forall s, HistoryConsistent s ->
        (forall input minimal_changes,
           HistoryConsistent (Start input minimal_changes s))
        /\ HistoryConsistent (Stop s)
        /\ HistoryConsistent (TimerFired s)
        /\ (forall source ok code data,
              HistoryConsistent (OnURLFetchComplete source ok code data s))
        /\ (forall handle results,
              HistoryConsistent (HistoryRequestCompleted handle results s))).
Proof.
  split.
  - intros profile input. unfold HistoryConsistent. cbn.
    split; [reflexivity|]. split; constructor.
  - intros s Hs.
    split; [intros input minimal_changes; apply Start_consistent, Hs|].
    split; [apply Stop_consistent|].
    split; [|split].
    + unfold TimerFired. destruct (timer_ s); [|exact Hs].
      destruct (Run_keeps (set_timer_ None s)) as [_ [_ [_ [Rp Rc]]]].
      apply (HistoryConsistent_depends s); [rewrite Rp|rewrite Rc|exact Hs];
        reflexivity.
    + intros source ok code data.
      destruct (OnURLFetchComplete_shape source ok code data s)
        as [t [e [-> [_ [_ [Hp Hc]]]]]].
      destruct (pass_keeps_pending t) as [K3p [_ K3c]].
      apply (HistoryConsistent_depends s); [| |exact Hs].
      * rewrite log_history_request_pending, K3p. exact Hp.
      * rewrite log_history_request_consumer, K3c. exact Hc.
    + intros handle results.
      destruct (existsb (fun r => fst r =? handle)
                  (pending_requests (history_request_consumer_ s)))
        eqn:Hheld.
      * apply existsb_handle in Hheld.
        apply (HistoryRequestCompleted_history handle results s Hs Hheld).
      * unfold HistoryRequestCompleted. rewrite Hheld. exact Hs.
Qed.

(** X18: when the answer to a request that the consumer holds has been
    delivered, the consumer holds one request less, and the provider is
    done exactly when the consumer holds no request and no fetch is
    outstanding, although the pass of the callback ran while the request
    being answered was still with the consumer. *)
Theorem done_with_the_last_answer (handle : Handle)
    (results : HistoryResults) (s : SearchProvider) :
  HistoryConsistent s ->
  In handle (map fst (pending_requests (history_request_consumer_ s))) ->
  let s' := HistoryRequestCompleted handle results s in
  S (PendingRequestCount (history_request_consumer_ s'))
  = PendingRequestCount (history_request_consumer_ s)
  /\ suggest_results_pending_ s' = suggest_results_pending_ s
  /\ done_ s'
     = Nat.eqb (PendingRequestCount (history_request_consumer_ s')) 0
       && (suggest_results_pending_ s' =? 0).
Proof.
  intros Hs Hheld.
  apply (HistoryRequestCompleted_history handle results s Hs Hheld).
Qed.



(** X20: the relevance of a past search is never negative; when the
    discount fits an [int] it is the base (1050 for the primary provider
    and input that is no URL, 750 for the primary provider and URL input,
    200 for the other provider) less the discount, cut off at zero; and
    a larger discount never gives a larger relevance. *)
Theorem history_relevance (s : SearchProvider) (is_keyword : bool)
    (t : Time) :
  0 <= CalculateRelevanceForHistory t is_keyword s
  /\ (0 <= HistoryScoreDiscount t <= Int.max_value ->
      CalculateRelevanceForHistory t is_keyword s
      = Z.max 0
          (history_base (is_primary_provider (providers_ s) is_keyword)
                        (InputType_eqb (type (input_ s)) URL)
           - HistoryScoreDiscount t))
  /\ (forall later : Time,
        0 <= HistoryScoreDiscount t <= HistoryScoreDiscount later ->
        HistoryScoreDiscount later <= Int.max_value ->
        CalculateRelevanceForHistory later is_keyword s
        <= CalculateRelevanceForHistory t is_keyword s).
Proof. apply history_relevance_of_discount. Qed.

(** *** Where a history answer goes *)

Lemma GetClientData_held (requests : list (Handle * TemplateURLID))
    (handle : Handle) (data : TemplateURLID) :
  NoDup (map fst requests) -> In (handle, data) requests ->
  GetClientData requests handle = data.
Proof.
  unfold Handle in *.
  induction requests as [|[h d] rest IH]; intros Hnd Hin; [contradiction|].
  cbn [map fst] in Hnd. inversion Hnd as [|? ? Hnotin Hnd']; subst.
  cbn [GetClientData]. destruct Hin as [E|Hin].
  - inversion E; subst. rewrite Z.eqb_refl. reflexivity.
  - destruct (Z.eqb_spec h handle) as [->|_]; [|apply IH; assumption].
    exfalso. apply Hnotin.
    change handle with (fst (handle, data)). apply in_map. exact Hin.
Qed.

Lemma OnGotMostRecentKeywordSearchTerms_stores handle results
    (s : SearchProvider) :
  exists t e,
    OnGotMostRecentKeywordSearchTerms handle results s
    = log e (ConvertResultsToAutocompleteMatches t)
    /\ providers_ t = providers_ s
    /\ keyword_history_results_ t
       = (if valid_keyword_provider (providers_ s)
             && (id (keyword_provider (providers_ s))
                 =? GetClientData
                      (pending_requests (history_request_consumer_ s)) handle)
          then results else keyword_history_results_ s)
    /\ default_history_results_ t
       = (if valid_keyword_provider (providers_ s)
             && (id (keyword_provider (providers_ s))
                 =? GetClientData
                      (pending_requests (history_request_consumer_ s)) handle)
          then default_history_results_ s else results).
Proof.
  unfold OnGotMostRecentKeywordSearchTerms. eexists. eexists.
  split; [reflexivity|].
  destruct (valid_keyword_provider (providers_ s)
            && (id (keyword_provider (providers_ s))
                =? GetClientData
                     (pending_requests (history_request_consumer_ s))
                     handle));
    match goal with
    | |- context [PendingRequestCount (history_request_consumer_ ?t)] =>
        destruct (Nat.eqb (PendingRequestCount (history_request_consumer_ t))
                          1)
    end; repeat split.
Qed.

Lemma log_history_results (e : Effect) (s : SearchProvider) :
  keyword_history_results_ (log e s) = keyword_history_results_ s
  /\ default_history_results_ (log e s) = default_history_results_ s
  /\ providers_ (log e s) = providers_ s.
Proof. repeat split. Qed.

Lemma OnGotMostRecentKeywordSearchTerms_results handle results
    (s : SearchProvider) :
  let to_keyword :=
    valid_keyword_provider (providers_ s)
    && (id (keyword_provider (providers_ s))
        =? GetClientData (pending_requests (history_request_consumer_ s))
                         handle) in
  let s' := OnGotMostRecentKeywordSearchTerms handle results s in
  keyword_history_results_ s'
  = (if to_keyword then results else keyword_history_results_ s)
  /\ default_history_results_ s'
     = (if to_keyword then default_history_results_ s else results)
  /\ providers_ s' = providers_ s.
Proof.
  cbv zeta.
  destruct (OnGotMostRecentKeywordSearchTerms_stores handle results s)
    as [t [e [-> [Hp [Hk Hd]]]]].
  destruct (pass_keeps t)
    as [_ [Kp [_ [_ [_ [_ [_ [_ [_ [Kk [Kd _]]]]]]]]]]].
  destruct (log_history_results e (ConvertResultsToAutocompleteMatches t))
    as [Lk [Ld Lp]].
  rewrite Lk, Ld, Lp, Kk, Kd, Kp, Hk, Hd, Hp. repeat split.
Qed.

Lemma ScheduleHistoryQuery_state (search_id : TemplateURLID)
    (query_text : string) (s : SearchProvider) :
  let s' := ScheduleHistoryQuery search_id query_text s in
  pending_requests (history_request_consumer_ s')
  = pending_requests (history_request_consumer_ s)
    ++ [(next_handle (history_request_consumer_ s), search_id)]
  /\ providers_ s' = providers_ s
  /\ keyword_history_results_ s' = keyword_history_results_ s
  /\ default_history_results_ s' = default_history_results_ s.
Proof. repeat split. Qed.

Lemma set_history_request_consumer_keeps (c : CancelableRequestConsumer)
    (s : SearchProvider) :
  keyword_history_results_ (set_history_request_consumer_ c s)
  = keyword_history_results_ s
  /\ default_history_results_ (set_history_request_consumer_ c s)
     = default_history_results_ s
  /\ providers_ (set_history_request_consumer_ c s) = providers_ s
  /\ history_request_consumer_ (set_history_request_consumer_ c s) = c.
Proof. repeat split. Qed.

(** The delivery of the answer to a request that the consumer holds:
    the callback reads the client data of the handle it is given, and
    the request answered is taken off the consumer. *)
Lemma HistoryRequestCompleted_state (handle : Handle)
    (results : HistoryResults) (s : SearchProvider) :
  In handle (map fst (pending_requests (history_request_consumer_ s))) ->
  let to_keyword :=
    valid_keyword_provider (providers_ s)
    && (id (keyword_provider (providers_ s))
        =? GetClientData (pending_requests (history_request_consumer_ s))
                         handle) in
  let s' := HistoryRequestCompleted handle results s in
  keyword_history_results_ s'
  = (if to_keyword then results else keyword_history_results_ s)
  /\ default_history_results_ s'
     = (if to_keyword then default_history_results_ s else results)
  /\ providers_ s' = providers_ s
  /\ history_request_consumer_ s'
     = RemoveRequest handle (history_request_consumer_ s).
Proof.
  intros Hin. cbv zeta. unfold HistoryRequestCompleted.
  rewrite (proj2 (existsb_handle handle _) Hin). cbv zeta.
  pose proof (OnGotMostRecentKeywordSearchTerms_results handle results s)
    as R.
  cbv zeta in R.
  assert (Hcons : history_request_consumer_
                    (OnGotMostRecentKeywordSearchTerms handle results s)
                  = history_request_consumer_ s).
  { destruct (OnGotMostRecentKeywordSearchTerms_shape handle results s)
      as [t [-> [_ [_ [_ Hc]]]]].
    destruct (pass_keeps_pending t) as [_ [_ K3c]].
    rewrite log_history_request_consumer, K3c. exact Hc. }
  generalize dependent (OnGotMostRecentKeywordSearchTerms handle results s).
  intros w [Rk [Rd Rp]] Hcons.
  destruct (set_history_request_consumer_keeps
              (RemoveRequest handle (history_request_consumer_ w)) w)
    as [Ck [Cd [Cp Cc]]].
  rewrite Ck, Cd, Cp, Cc, Rk, Rd, Rp, Hcons. repeat split.
Qed.

(** X21: the answer to a history request reaches the provider it was
    asked for, whichever of the requests that the consumer holds is
    answered and in whatever order.  For every request held with the id
    [search_id], the client data of its handle is [search_id]; when its
    answer is delivered the results become the keyword history results
    if [search_id] is the id of a valid keyword provider, the default
    history results otherwise, and the other list is left alone; the
    providers are unchanged and every other request stays with the
    consumer under its own id, so the same holds for the next answer.
    A further request is given the next handle, which no request held
    has, and leaves those held as they are, so the same holds after
    any number of requests. *)
Theorem history_answer_reaches_its_provider (handle : Handle)
    (search_id : TemplateURLID) (results : HistoryResults)
    (s : SearchProvider) :
  HistoryConsistent s ->
  In (handle, search_id) (pending_requests (history_request_consumer_ s)) ->
  let s' := HistoryRequestCompleted handle results s in
  GetClientData (pending_requests (history_request_consumer_ s)) handle
  = search_id
  /\ (if valid_keyword_provider (providers_ s)
         && (id (keyword_provider (providers_ s)) =? search_id)
      then keyword_history_results_ s' = results
           /\ default_history_results_ s' = default_history_results_ s
      else default_history_results_ s' = results
           /\ keyword_history_results_ s' = keyword_history_results_ s)
  /\ providers_ s' = providers_ s
  /\ HistoryConsistent s'
  /\ (forall other data,
        In (other, data) (pending_requests (history_request_consumer_ s)) ->
        other <> handle ->
        In (other, data) (pending_requests (history_request_consumer_ s')))
  /\ (forall later_id query_text,
        let s1 := ScheduleHistoryQuery later_id query_text s in
        HistoryConsistent s1
        /\ providers_ s1 = providers_ s
        /\ pending_requests (history_request_consumer_ s1)
           = pending_requests (history_request_consumer_ s)
             ++ [(next_handle (history_request_consumer_ s), later_id)]).
Proof.
  intros Hs Hheld. cbv zeta.
  assert (Hin : In handle
                  (map fst (pending_requests (history_request_consumer_ s)))).
  { change handle with (fst (handle, search_id)). apply in_map, Hheld. }
  assert (Hdata :
    GetClientData (pending_requests (history_request_consumer_ s)) handle
    = search_id).
  { destruct Hs as [_ [Hnd _]]. apply GetClientData_held; assumption. }
  pose proof (HistoryRequestCompleted_state handle results s Hin) as W.
  cbv zeta in W. rewrite Hdata in W. destruct W as [Wk [Wd [Wp Wc]]].
  split; [exact Hdata|]. split; [|split; [exact Wp|split; [|split]]].
  - rewrite Wk, Wd.
    destruct (valid_keyword_provider (providers_ s)
              && (id (keyword_provider (providers_ s)) =? search_id));
      split; reflexivity.
  - apply (HistoryRequestCompleted_history handle results s Hs Hin).
  - intros other data Hother Hneq. rewrite Wc.
    unfold RemoveRequest. cbn [pending_requests].
    apply filter_In. split; [exact Hother|].
    cbn [fst]. unfold Handle in *.
    destruct (Z.eqb_spec other handle) as [E|_]; [contradiction|reflexivity].
  - intros later_id query_text.
    split; [apply ScheduleHistoryQuery_consistent, Hs|].
    destruct (ScheduleHistoryQuery_state later_id query_text s)
      as [Sreq [Sp _]].
    split; [exact Sp|exact Sreq].
Qed.

End Callbacks.

(** ** What a reply changes *)

Section Replies.

Context {H : Host}.

Lemma log_keeps_lists (e : Effect) (s : SearchProvider) :
  (forall k, SuggestResultsOf k (log e s) = SuggestResultsOf k s)
  /\ (forall k, NavigationResultsOf k (log e s) = NavigationResultsOf k s)
  /\ keyword_history_results_ (log e s) = keyword_history_results_ s
  /\ default_history_results_ (log e s) = default_history_results_ s
  /\ have_suggest_results_ (log e s) = have_suggest_results_ s.
Proof. repeat split; intros [|]; reflexivity. Qed.

Lemma pass_keeps_lists (s : SearchProvider) :
  (forall k, SuggestResultsOf k (ConvertResultsToAutocompleteMatches s)
             = SuggestResultsOf k s)
  /\ (forall k, NavigationResultsOf k (ConvertResultsToAutocompleteMatches s)
                = NavigationResultsOf k s).
Proof.
  destruct (pass_keeps s)
    as [_ [_ [_ [_ [_ [_ [_ [_ [_ [_ [_ [Ks [Kd [Kkn Kdn]]]]]]]]]]]]]].
  unfold SuggestResultsOf, NavigationResultsOf.
  split; intros [|]; assumption.
Qed.

(** The state on which the fetch callback runs its pass, compared with
    the state it was called on. *)
Lemma OnURLFetchComplete_lists source ok code data (s : SearchProvider) :
  exists t e,
    OnURLFetchComplete source ok code data s
    = log e (ConvertResultsToAutocompleteMatches t)
    /\ SuggestResultsOf (negb (IsKeywordFetcher source s)) t
       = SuggestResultsOf (negb (IsKeywordFetcher source s)) s
    /\ NavigationResultsOf (negb (IsKeywordFetcher source s)) t
       = NavigationResultsOf (negb (IsKeywordFetcher source s)) s
    /\ keyword_history_results_ t = keyword_history_results_ s
    /\ default_history_results_ t = default_history_results_ s
    /\ (exists suggestions navigations,
          SuggestResultsOf (IsKeywordFetcher source s) t
          = SuggestResultsOf (IsKeywordFetcher source s) s ++ suggestions
          /\ NavigationResultsOf (IsKeywordFetcher source s) t
             = NavigationResultsOf (IsKeywordFetcher source s) s
               ++ navigations
          /\ (ok && (code =? 200) = false ->
              suggestions = [] /\ navigations = []))
    /\ (ok && (code =? 200) = false ->
        have_suggest_results_ t = have_suggest_results_ s).
Proof.
  unfold OnURLFetchComplete. eexists. eexists.
  split; [reflexivity|].
  change (match
             keyword_fetcher_
               (set_suggest_results_pending_
                  (Int.sub (suggest_results_pending_ s) 1) s)
           with
           | Some f => fetcher_id f =? fetcher_id source
           | None => false
           end) with (IsKeywordFetcher source s).
  set (k := IsKeywordFetcher source s).
  set (s1 := set_suggest_results_pending_
               (Int.sub (suggest_results_pending_ s) 1) s).
  assert (H1 : (forall b, SuggestResultsOf b s1 = SuggestResultsOf b s)
               /\ (forall b, NavigationResultsOf b s1
                             = NavigationResultsOf b s)
               /\ keyword_history_results_ s1 = keyword_history_results_ s
               /\ default_history_results_ s1 = default_history_results_ s
               /\ have_suggest_results_ s1 = have_suggest_results_ s)
    by (repeat split; intros [|]; reflexivity).
  clearbody s1. destruct H1 as [Hs1 [Hn1 [Hk1 [Hd1 Hh1]]]].
  destruct (ok && (code =? 200)).
  - match goal with
    | |- context [Deserialize ?d] => destruct (Deserialize d) as [root_val|]
    end.
    + match goal with
      | |- context [ParseSuggestResults root_val k ?i s1] =>
          pose proof (ParseSuggestResults_grows root_val k i s1) as G;
          pose proof (ParseSuggestResults_frame root_val k i s1) as F;
          destruct (ParseSuggestResults root_val k i s1) as [parsed s2]
      end.
      cbv zeta in G, F. cbn [snd] in G, F.
      destruct G as [sg [nv [Gs [Gn [Gos [Gon _]]]]]].
      assert (H2 : (forall b, SuggestResultsOf b
                                (set_have_suggest_results_ parsed s2)
                              = SuggestResultsOf b s2)
                   /\ (forall b, NavigationResultsOf b
                                   (set_have_suggest_results_ parsed s2)
                                 = NavigationResultsOf b s2)
                   /\ keyword_history_results_
                        (set_have_suggest_results_ parsed s2)
                      = keyword_history_results_ s1
                   /\ default_history_results_
                        (set_have_suggest_results_ parsed s2)
                      = default_history_results_ s1).
      { split; [intros [|]; reflexivity|].
        split; [intros [|]; reflexivity|].
        rewrite F. split; reflexivity. }
      destruct H2 as [Hs2 [Hn2 [Hk2 Hd2]]].
      rewrite !Hs2, !Hn2, Hk2, Hd2, Gs, Gn, Gos, Gon, !Hs1, !Hn1, Hk1, Hd1.
      split; [reflexivity|]. split; [reflexivity|].
      split; [reflexivity|]. split; [reflexivity|].
      split; [|discriminate].
      exists sg, nv.
      split; [reflexivity|]. split; [reflexivity|discriminate].
    + assert (H2 : (forall b, SuggestResultsOf b
                                (set_have_suggest_results_ false s1)
                              = SuggestResultsOf b s1)
                   /\ (forall b, NavigationResultsOf b
                                   (set_have_suggest_results_ false s1)
                                 = NavigationResultsOf b s1)
                   /\ keyword_history_results_
                        (set_have_suggest_results_ false s1)
                      = keyword_history_results_ s1
                   /\ default_history_results_
                        (set_have_suggest_results_ false s1)
                      = default_history_results_ s1)
        by (repeat split; intros [|]; reflexivity).
      destruct H2 as [Hs2 [Hn2 [Hk2 Hd2]]].
      rewrite !Hs2, !Hn2, Hk2, Hd2, !Hs1, !Hn1, Hk1, Hd1.
      split; [reflexivity|]. split; [reflexivity|].
      split; [reflexivity|]. split; [reflexivity|].
      split; [|discriminate].
      exists [], []. rewrite !app_nil_r.
      split; [reflexivity|]. split; [reflexivity|discriminate].
  - rewrite !Hs1, !Hn1, Hk1, Hd1, Hh1.
    split; [reflexivity|]. split; [reflexivity|].
    split; [reflexivity|]. split; [reflexivity|].
    split; [|reflexivity].
    exists [], []. rewrite !app_nil_r.
    split; [reflexivity|]. split; [reflexivity|].
    intros _. split; reflexivity.
Qed.

(** X23: a reply of the suggest server changes the results of one
    provider only, the one whose fetcher delivered it, and only by
    appending: the suggestions and navigation results of the other
    provider and the history results of both stay as they were; and a
    fetch that failed, or was answered with another code than 200,
    changes no list at all and leaves [have_suggest_results_] alone. *)
Theorem reply_changes_one_provider source ok code data
    (s : SearchProvider) :
  let k := IsKeywordFetcher source s in
  let s' := OnURLFetchComplete source ok code data s in
  SuggestResultsOf (negb k) s' = SuggestResultsOf (negb k) s
  /\ NavigationResultsOf (negb k) s' = NavigationResultsOf (negb k) s
  /\ keyword_history_results_ s' = keyword_history_results_ s
  /\ default_history_results_ s' = default_history_results_ s
  /\ (exists suggestions navigations,
        SuggestResultsOf k s' = SuggestResultsOf k s ++ suggestions
        /\ NavigationResultsOf k s' = NavigationResultsOf k s ++ navigations
        /\ (ok && (code =? 200) = false ->
            suggestions = [] /\ navigations = []))
  /\ (ok && (code =? 200) = false ->
      have_suggest_results_ s' = have_suggest_results_ s).
Proof.
  cbv zeta.
  destruct (OnURLFetchComplete_lists source ok code data s)
    as [t [e [-> [Ho [Hon [Hk [Hd [Hadd Hhave]]]]]]]].
  destruct (log_keeps_lists e (ConvertResultsToAutocompleteMatches t))
    as [Ls [Ln [Lk [Ld Lh]]]].
  destruct (pass_keeps_lists t) as [Ps Pn].
  destruct (pass_keeps t)
    as [_ [_ [_ [_ [_ [Ph [_ [_ [_ [Pk [Pd _]]]]]]]]]]].
  rewrite !Ls, !Ln, Lk, Ld, Lh, !Ps, !Pn, Pk, Pd, Ph.
  split; [exact Ho|]. split; [exact Hon|].
  split; [exact Hk|]. split; [exact Hd|].
  split; [exact Hadd|exact Hhave].
Qed.

End Replies.

(** ** No negative relevance *)

Section NonNegative.

Context {H : Host}.

Lemma indexed_In {A : Type} (l : list A) (ix : nat * A) :
  In ix (indexed l) -> (fst ix < List.length l)%nat.
Proof.
  unfold indexed. destruct ix as [i x]. intros Hin.
  apply in_combine_l in Hin. apply in_seq in Hin. cbn [fst]. lia.
Qed.

Lemma suggestion_not_negative (s : SearchProvider) (num_results rank : nat)
    (keyword_results : bool) :
  (rank < num_results)%nat ->
  Z.of_nat num_results <= Int.max_value - 800 ->
  0 <= CalculateRelevanceForSuggestion num_results rank keyword_results s.
Proof.
  intros Hrank Hsize. unfold CalculateRelevanceForSuggestion, Int.add.
  cbv zeta.
  rewrite of_size_t_diff_exact by (unfold Int.max_value in *; lia).
  destruct (negb (is_primary_provider (providers_ s) keyword_results));
    [|destruct (InputType_eqb (type (input_ s)) URL)];
    rewrite wrap_in_range;
    unfold Int.in_range, Int.min_value, Int.max_value in *; lia.
Qed.

Lemma navigation_not_negative (s : SearchProvider) (num_results rank : nat)
    (keyword_results : bool) :
  (rank < num_results)%nat ->
  Z.of_nat num_results <= Int.max_value - 800 ->
  0 <= CalculateRelevanceForNavigation num_results rank keyword_results s.
Proof.
  intros Hrank Hsize. unfold CalculateRelevanceForNavigation, Int.add.
  rewrite of_size_t_diff_exact by (unfold Int.max_value in *; lia).
  destruct (is_primary_provider (providers_ s) keyword_results);
    rewrite wrap_in_range;
    unfold Int.in_range, Int.min_value, Int.max_value in *; lia.
Qed.

Lemma what_you_typed_not_negative (s : SearchProvider) :
  0 <= release (CalculateRelevanceForWhatYouTyped s).
Proof.
  unfold CalculateRelevanceForWhatYouTyped.
  destruct (valid_keyword_provider (providers_ s)); [simpl; lia|].
  destruct (type (input_ s)); simpl; lia.
Qed.

Lemma candidate_not_negative (s : SearchProvider) (c : Candidate) :
  (forall k, Z.of_nat (List.length (SuggestResultsOf k s))
             <= Int.max_value - 800) ->
  In c (Candidates s) -> 0 <= candidate_relevance c.
Proof.
  intros Hsize. unfold Candidates, HistoryCandidates, SuggestCandidates.
  cbv zeta. intros Hin.
  repeat (apply in_app_or in Hin; destruct Hin as [Hin|Hin]).
  - destruct (valid_default_provider (providers_ s)); [|contradiction].
    destruct Hin as [<-|[]]. apply what_you_typed_not_negative.
  - apply in_map_iff in Hin. destruct Hin as [x [<- _]].
    cbn [candidate_relevance].
    unfold CalculateRelevanceForHistory. cbv zeta. lia.
  - apply in_map_iff in Hin. destruct Hin as [x [<- _]].
    cbn [candidate_relevance].
    unfold CalculateRelevanceForHistory. cbv zeta. lia.
  - apply in_map_iff in Hin. destruct Hin as [ix [<- Hix]].
    cbn [candidate_relevance].
    apply suggestion_not_negative;
      [apply indexed_In, Hix|apply (Hsize true)].
  - apply in_map_iff in Hin. destruct Hin as [ix [<- Hix]].
    cbn [candidate_relevance].
    apply suggestion_not_negative;
      [apply indexed_In, Hix|apply (Hsize false)].
Qed.

(** X22: no match of a pass has a negative relevance, whatever the
    discount of past searches is, as long as the lists of suggestions and
    of navigation results have lengths that an [int] holds with room for
    the base score. *)
Theorem pass_relevance_not_negative (s : SearchProvider)
    (m : AutocompleteMatch) :
  (forall k, Z.of_nat (List.length (SuggestResultsOf k s))
             <= Int.max_value - 800) ->
  (forall k, Z.of_nat (List.length (NavigationResultsOf k s))
             <= Int.max_value - 800) ->
  In m (matches_ (ConvertResultsToAutocompleteMatches s)) ->
  0 <= relevance m.
Proof.
  intros Hsuggest Hnavigation Hin.
  destruct (pass_result_sources s m Hin) as [[c [Hc ->]]|[n [Hn ->]]].
  - change (relevance (WithStarredState (MatchOf s c)))
      with (candidate_relevance c).
    apply (candidate_not_negative s c Hsuggest Hc).
  - change (relevance (WithStarredState n)) with (relevance n).
    unfold NavigationMatches in Hn. apply in_app_or in Hn.
    pose proof (Hnavigation true) as Hk. pose proof (Hnavigation false) as Hd.
    unfold NavigationResultsOf in Hk, Hd.
    destruct Hn as [Hn|Hn].
    + destruct (keyword_navigation_results_ s) as [|front rest];
        [contradiction|].
      destruct Hn as [<-|[]]. cbn [NavigationToMatch relevance].
      apply navigation_not_negative; [cbn [List.length]; lia|exact Hk].
    + destruct (default_navigation_results_ s) as [|front rest];
        [contradiction|].
      destruct Hn as [<-|[]]. cbn [NavigationToMatch relevance].
      apply navigation_not_negative; [cbn [List.length]; lia|exact Hd].
Qed.

End NonNegative.

(** ** Examples of the further properties *)

Lemma parse_plain_reply_witness :
  let strs := ["abcdef"; ""; "abcxyz"] in
  SuggestTypeList [VString "abc"; VList (map VString strs)] = None
  /\ SuggestResultsOf false
       (snd (ParseSuggestResults (H := Example.browser)
               (VList [VString "abc"; VList (map VString strs)])
               false "abc" (Example.waiting "abc")))
     = ["abcdef"; "abcxyz"].
Proof.
  intros strs. split; [reflexivity|].
  pose proof (parse_plain_reply (H := Example.browser) "abc" strs [] false
                (Example.waiting "abc") eq_refl) as W.
  cbv zeta in W. destruct W as [_ [W _]].
  etransitivity; [exact W|reflexivity].
Defined.

Lemma navigation_relevance_witness :
  (1 < 3)%nat
  /\ Z.of_nat 3 <= Int.max_value - 800
  /\ CalculateRelevanceForNavigation (H := Example.browser) 3 1 false
       (Example.provider "abc" [] [])
     = 801.
Proof.
  assert (Hsize : Z.of_nat 3 <= Int.max_value - 800)
    by (unfold Int.max_value; simpl; lia).
  split; [lia|]. split; [exact Hsize|].
  rewrite (proj1 (navigation_relevance (H := Example.browser)
                    (Example.provider "abc" [] []) 3 1 false
                    ltac:(lia) Hsize)).
  reflexivity.
Defined.

Lemma result_from_candidates_witness :
  let s := Example.pass_ba_bb in
  let m := hd AutocompleteMatch_default
             (matches_ (ConvertResultsToAutocompleteMatches
                          (H := Example.browser) s)) in
  In m (matches_ (ConvertResultsToAutocompleteMatches
                    (H := Example.browser) s))
  /\ ((exists c, In c (Candidates (H := Example.browser) s)
                 /\ m = WithStarredState (H := Example.browser)
                          (MatchOf (H := Example.browser) s c))
      \/ (exists n, In n (NavigationMatches (H := Example.browser) s)
                    /\ m = WithStarredState (H := Example.browser) n)).
Proof.
  intros s m.
  assert (Hin : In m (matches_ (ConvertResultsToAutocompleteMatches
                                  (H := Example.browser) s)))
    by (vm_compute; left; reflexivity).
  split; [exact Hin|].
  exact (result_from_candidates (H := Example.browser) s m Hin).
Defined.

Lemma forced_query_is_kept_witness :
  let s := Scenario.forced "abc" ["abcdef"] in
  let m := hd AutocompleteMatch_default
             (matches_ (ConvertResultsToAutocompleteMatches
                          (H := Example.browser) s)) in
  type (input_ s) = FORCED_QUERY
  /\ In m (matches_ (ConvertResultsToAutocompleteMatches
                       (H := Example.browser) s))
  /\ exists rest, fill_into_edit m = String "?"%char rest.
Proof.
  intros s m.
  assert (Hin : In m (matches_ (ConvertResultsToAutocompleteMatches
                                  (H := Example.browser) s)))
    by (vm_compute; left; reflexivity).
  split; [reflexivity|]. split; [exact Hin|].
  exact (forced_query_is_kept (H := Example.browser) s m eq_refl Hin).
Defined.

Lemma contents_class_well_formed_witness :
  let s := Example.provider "abc" [] [] in
  let m := SearchMatch (H := Example.browser) "abcdef" 600 SEARCH_SUGGEST 0
             false s in
  text (input_ s) <> ""
  /\ StronglySorted lt (map offset (contents_class m))
  /\ Forall (fun c => (offset c <= String.length (contents m))%nat)
            (contents_class m).
Proof.
  intros s m.
  assert (Htyped : text (input_ s) <> "") by discriminate.
  pose proof (contents_class_well_formed (H := Example.browser) "abcdef" 600
                SEARCH_SUGGEST 0 false s Htyped) as W.
  destruct W as [_ [_ [Wsorted [Wwithin _]]]].
  split; [exact Htyped|]. split; [exact Wsorted|exact Wwithin].
Defined.

Lemma private_start_asks_no_suggestions_witness :
  let s := Scenario.private_provider in
  let s' := Start (H := Example.browser) (Example.input "abc" QUERY)
              false s in
  profile_ s = Some Scenario.private_profile
  /\ (IsOffTheRecord Scenario.private_profile = true
      \/ kSearchSuggestEnabled Scenario.private_profile = false)
  /\ timer_ s' = None
  /\ suggest_results_pending_ s' = 0
  /\ TimerFired (H := Example.browser) s' = s'.
Proof.
  intros s s'.
  assert (Hprivate : IsOffTheRecord Scenario.private_profile = true
                     \/ kSearchSuggestEnabled Scenario.private_profile = false)
    by (left; reflexivity).
  pose proof (private_start_asks_no_suggestions (H := Example.browser)
                (Example.input "abc" QUERY) false s Scenario.private_profile
                eq_refl Hprivate) as W.
  cbv zeta in W. fold s' in W.
  destruct W as [Wtimer [Wcount [_ [_ [Wfired _]]]]].
  split; [reflexivity|]. split; [exact Hprivate|].
  split; [exact Wtimer|]. split; [exact Wcount|exact Wfired].
Defined.

Lemma started_timer_leads_to_a_fetch_witness :
  let s' := Start (H := Example.browser) (Example.input "abc" QUERY) false
              (Example.provider "" [] []) in
  timer_ s' <> None
  /\ 0 < suggest_results_pending_ (TimerFired (H := Example.browser) s')
  /\ timer_ (TimerFired (H := Example.browser) s') = None.
Proof.
  intros s'.
  assert (Htimer : timer_ s' <> None)
    by (intros E; vm_compute in E; discriminate E).
  pose proof (started_timer_leads_to_a_fetch (H := Example.browser)
                (Example.input "abc" QUERY) false (Example.provider "" [] [])
                Htimer) as W.
  fold s' in W. destruct W as [_ [_ [Wcount Wtimer]]].
  split; [exact Htimer|]. split; [exact Wcount|exact Wtimer].
Defined.

Lemma done_with_the_last_answer_witness :
  let s := Scenario.asked "abc" in
  let s' := HistoryRequestCompleted (H := Example.browser) 1
              [mkVisit "abcdef" 0] s in
  HistoryConsistent s
  /\ In 1 (map fst (pending_requests (history_request_consumer_ s)))
  /\ S (PendingRequestCount (history_request_consumer_ s'))
     = PendingRequestCount (history_request_consumer_ s)
  /\ done_ s'
     = Nat.eqb (PendingRequestCount (history_request_consumer_ s')) 0
       && (suggest_results_pending_ s' =? 0).
Proof.
  intros s s'.
  assert (Hs : HistoryConsistent s).
  { split; [reflexivity|]. split.
    - constructor; [intros []|constructor].
    - constructor; [reflexivity|constructor]. }
  assert (Hheld : In 1 (map fst (pending_requests
                                   (history_request_consumer_ s))))
    by (left; reflexivity).
  pose proof (done_with_the_last_answer (H := Example.browser) 1
                [mkVisit "abcdef" 0] s Hs Hheld) as W.
  cbv zeta in W. fold s' in W. destruct W as [Wcount [_ Wdone]].
  split; [exact Hs|]. split; [exact Hheld|].
  split; [exact Wcount|exact Wdone].
Defined.

Lemma history_answer_reaches_its_provider_witness :
  let s := StartOrStopHistoryQuery (H := Example.browser) false
             (Scenario.two_providers "abc") in
  let answer := [mkVisit "abcdef" 0] in
  HistoryConsistent s
  /\ pending_requests (history_request_consumer_ s) = [(1, 2); (2, 1)]
  /\ keyword_history_results_
       (HistoryRequestCompleted (H := Example.browser) 1 answer s) = answer
  /\ default_history_results_
       (HistoryRequestCompleted (H := Example.browser) 1 answer s) = []
  /\ default_history_results_
       (HistoryRequestCompleted (H := Example.browser) 2 answer s) = answer
  /\ keyword_history_results_
       (HistoryRequestCompleted (H := Example.browser) 2 answer s) = [].
Proof.
  intros s answer.
  assert (Hs : HistoryConsistent s).
  { apply StartOrStopHistoryQuery_consistent.
    split; [vm_compute; reflexivity|]. split; vm_compute; constructor. }
  assert (Hrequests : pending_requests (history_request_consumer_ s)
                      = [(1, 2); (2, 1)])
    by (vm_compute; reflexivity).
  assert (Hkeyword : In (1, 2) (pending_requests
                                  (history_request_consumer_ s)))
    by (rewrite Hrequests; left; reflexivity).
  assert (Hdefault : In (2, 1) (pending_requests
                                  (history_request_consumer_ s)))
    by (rewrite Hrequests; right; left; reflexivity).
  assert (Hto_keyword :
            valid_keyword_provider (providers_ s)
            && (id (keyword_provider (providers_ s)) =? 2) = true)
    by (vm_compute; reflexivity).
  assert (Hto_default :
            valid_keyword_provider (providers_ s)
            && (id (keyword_provider (providers_ s)) =? 1) = false)
    by (vm_compute; reflexivity).
  assert (Hnone : keyword_history_results_ s = []
                  /\ default_history_results_ s = [])
    by (split; vm_compute; reflexivity).
  destruct Hnone as [Hk0 Hd0].
  pose proof (history_answer_reaches_its_provider (H := Example.browser)
                1 2 answer s Hs Hkeyword) as Wk.
  pose proof (history_answer_reaches_its_provider (H := Example.browser)
                2 1 answer s Hs Hdefault) as Wd.
  cbv zeta in Wk, Wd.
  destruct Wk as [_ [Wk _]]. destruct Wd as [_ [Wd _]].
  rewrite Hto_keyword, Hd0 in Wk. rewrite Hto_default, Hk0 in Wd.
  destruct Wk as [Wk1 Wk2]. destruct Wd as [Wd1 Wd2].
  split; [exact Hs|]. split; [exact Hrequests|].
  split; [exact Wk1|]. split; [exact Wk2|].
  split; [exact Wd1|exact Wd2].
Defined.

Lemma pass_relevance_not_negative_witness :
  let s := Example.provider "abc" [mkVisit "abcdef" 0] ["abcxyz"] in
  let m := hd AutocompleteMatch_default
             (matches_ (ConvertResultsToAutocompleteMatches
                          (H := Example.browser) s)) in
  (forall k, Z.of_nat (List.length (SuggestResultsOf k s))
             <= Int.max_value - 800)
  /\ (forall k, Z.of_nat (List.length (NavigationResultsOf k s))
                <= Int.max_value - 800)
  /\ In m (matches_ (ConvertResultsToAutocompleteMatches
                       (H := Example.browser) s))
  /\ 0 <= relevance m.
Proof.
  intros s m.
  assert (Hsuggest : forall k, Z.of_nat (List.length (SuggestResultsOf k s))
                               <= Int.max_value - 800)
    by (intros [|]; vm_compute; discriminate).
  assert (Hnavigation :
            forall k, Z.of_nat (List.length (NavigationResultsOf k s))
                      <= Int.max_value - 800)
    by (intros [|]; vm_compute; discriminate).
  assert (Hin : In m (matches_ (ConvertResultsToAutocompleteMatches
                                  (H := Example.browser) s)))
    by (vm_compute; left; reflexivity).
  split; [exact Hsuggest|]. split; [exact Hnavigation|].
  split; [exact Hin|].
  exact (pass_relevance_not_negative (H := Example.browser) s m Hsuggest
           Hnavigation Hin).
Defined.
